(** * Problem-statement extraction (Project CodeNet): a shallow embedding

    Two pipelines turn one HTML problem statement into a structured record:
    [complete/extract_all_problems_improved.py] (the improved pass) and
    [notcomplete/extract_all_problems.py] (the legacy pass).  Both are
    embedded here function by function, keeping the Python names.

    Python values are modelled as follows.
    - [str] is a list of Unicode code points ([pystr]); [len] is [length].
    - [dict] is an association list in insertion order ([pydict]).
    - [float] is IEEE binary64 ([PrimFloat.float]).
    - exceptions are an error monad ([outcome]); [print] appends to an
      output log returned next to the result, or raises.
    - a parsed document is a tree of [node]s; the markup parser (which may
      reject its input), the serializer [str(element)], the Unicode
      character database and the output stream belong to libraries (bs4,
      re, the interpreter) and are fields of [PyEnv]. *)

From Stdlib Require Import Ascii String Floats DecimalString.
From Stdlib Require Import List Bool Arith NArith ZArith Lia.
Import ListNotations.

Set Warnings "-inexact-float,-register-all".
Set Implicit Arguments.

(* ================================================================= *)
(** ** Python strings *)

Module PyStr.

Definition char := N.
Definition pystr := list char.

(** ASCII literals of the source are written with [lit]. *)
Definition lit (s : string) : pystr :=
  map N_of_ascii (list_ascii_of_string s).
Arguments lit s%_string.

Fixpoint eqb (a b : pystr) : bool :=
  match a, b with
  | [], [] => true
  | x :: a', y :: b' => N.eqb x y && eqb a' b'
  | _, _ => false
  end.

(** Truthiness of a [str]: non-empty. *)
Definition truthy (s : pystr) : bool :=
  match s with [] => false | _ :: _ => true end.

Fixpoint startswith (p s : pystr) : bool :=
  match p, s with
  | [], _ => true
  | x :: p', y :: s' => N.eqb x y && startswith p' s'
  | _ :: _, [] => false
  end.

(** [needle in hay]. *)
Fixpoint contains (needle hay : pystr) : bool :=
  startswith needle hay ||
  match hay with
  | [] => false
  | _ :: hay' => contains needle hay'
  end.

(** [s in l] for a list of strings. *)
Definition mem (s : pystr) (l : list pystr) : bool := existsb (eqb s) l.

(** [sep.join(parts)]. *)
Fixpoint join (sep : pystr) (parts : list pystr) : pystr :=
  match parts with
  | [] => []
  | [p] => p
  | p :: rest => p ++ sep ++ join sep rest
  end.

(** [s.split(sep)] for a non-empty separator.  [skip] counts the characters
    of a separator occurrence still to be passed over. *)
Fixpoint split_go (sep s cur : pystr) (skip : nat) : list pystr :=
  match s with
  | [] => [rev cur]
  | c :: r =>
      match skip with
      | S k => split_go sep r cur k
      | O => if startswith sep s
             then rev cur :: split_go sep r [] (length sep - 1)
             else split_go sep r (c :: cur) 0
      end
  end.

Definition split (sep s : pystr) : list pystr := split_go sep s [] 0.

(** [s.replace(old, new)] for a non-empty [old]. *)
Fixpoint replace_go (old new s : pystr) (skip : nat) : pystr :=
  match s with
  | [] => []
  | c :: r =>
      match skip with
      | S k => replace_go old new r k
      | O => if startswith old s
             then new ++ replace_go old new r (length old - 1)
             else c :: replace_go old new r 0
      end
  end.

Definition replace (old new s : pystr) : pystr := replace_go old new s 0.

(** Line boundaries of [str.splitlines]: LF, CR, VT, FF, FS, GS, RS, NEL,
    LS, PS; CR LF counts once. *)
Definition is_linebreak (c : char) : bool :=
  existsb (N.eqb c) [10; 13; 11; 12; 28; 29; 30; 133; 8232; 8233]%N.

Fixpoint splitlines_go (s cur : pystr) : list pystr :=
  match s with
  | [] => match cur with [] => [] | _ :: _ => [rev cur] end
  | c :: r =>
      if N.eqb c 13 && match r with c' :: _ => N.eqb c' 10 | [] => false end
      then splitlines_go r cur
      else if is_linebreak c then rev cur :: splitlines_go r []
      else splitlines_go r (c :: cur)
  end.

Definition splitlines (s : pystr) : list pystr := splitlines_go s [].

Section Whitespace.
Variable isspace : char -> bool.

Fixpoint lstrip (s : pystr) : pystr :=
  match s with
  | [] => []
  | c :: r => if isspace c then lstrip r else s
  end.

Definition rstrip (s : pystr) : pystr := rev (lstrip (rev s)).

(** [s.strip()]. *)
Definition strip (s : pystr) : pystr := rstrip (lstrip s).

End Whitespace.

End PyStr.
Import PyStr.

(* ================================================================= *)
(** ** Python dictionaries with string keys and values *)

Module PyDict.

Definition pydict := list (pystr * pystr).

(** [d.get(k)]: [None] when the key is missing. *)
Fixpoint get (d : pydict) (k : pystr) : option pystr :=
  match d with
  | [] => None
  | (k', v) :: d' => if PyStr.eqb k' k then Some v else get d' k
  end.

(** [d.get(k, dflt)]. *)
Definition get_default (d : pydict) (k dflt : pystr) : pystr :=
  match get d k with Some v => v | None => dflt end.

(** [d[k] = v]: an existing key keeps its position, a new one goes last. *)
Fixpoint set (d : pydict) (k v : pystr) : pydict :=
  match d with
  | [] => [(k, v)]
  | (k', v') :: d' =>
      if PyStr.eqb k' k then (k', v) :: d' else (k', v') :: set d' k v
  end.

(** [d.keys()], in insertion order. *)
Definition keys (d : pydict) : list pystr := map fst d.

(** Truthiness of [d.get(k)]: the key is present with a non-empty value. *)
Definition has (d : pydict) (k : pystr) : bool :=
  match get d k with Some v => truthy v | None => false end.

End PyDict.

(* ================================================================= *)
(** ** Exceptions and output *)

(** [ExceptionOf cls msg] stands for an exception of any other class that
    derives from [Exception], named by [cls]: what a library call raises
    ([ParserRejectedMarkup], [AssertionError], [RecursionError],
    [UnicodeEncodeError], ...). *)
Inductive exn :=
| OSError (msg : pystr)
| ValueError (msg : pystr)
| ExceptionOf (cls msg : pystr)
| KeyboardInterrupt
| SystemExit.

(** [isinstance(e, Exception)]: the last two derive from [BaseException]
    only. *)
Definition is_Exception (e : exn) : bool :=
  match e with
  | OSError _ | ValueError _ | ExceptionOf _ _ => true
  | KeyboardInterrupt | SystemExit => false
  end.

(** [str(e)]. *)
Definition exn_str (e : exn) : pystr :=
  match e with
  | OSError m | ValueError m | ExceptionOf _ m => m
  | KeyboardInterrupt | SystemExit => []
  end.

Inductive outcome (A : Type) :=
| Return (a : A)
| Raise (e : exn).
Arguments Return {A} a.
Arguments Raise {A} e.

Definition bind {A B} (m : outcome A) (k : A -> outcome B) : outcome B :=
  match m with
  | Return a => k a
  | Raise e => Raise e
  end.

Notation "x <- m ;; k" := (bind m (fun x => k))
  (at level 61, m at next level, right associativity).

(** What a call leaves behind: its outcome and the lines it printed. *)
Record run (A : Type) := Run { result : outcome A; stdout : list pystr }.
Arguments Run {A} result stdout.

(** [try: body  except Exception as e: handler(e)]. *)
Definition try_except_Exception {A} (body : outcome A)
    (handler : exn -> run A) : run A :=
  match body with
  | Return a => Run (Return a) []
  | Raise e => if is_Exception e then handler e else Run (Raise e) []
  end.

(* ================================================================= *)
(** ** Parsed documents (bs4)

    A [Tag] has a name and its contents; a string node carries the class
    bs4 gave it at parse time.  Attributes are not read anywhere in the
    pipelines and are left out.  The [BeautifulSoup] object is the tag
    named [[document]].  The functions follow bs4 from 4.11 on: the text
    of a tag leaves out comments and the strings of script, style and
    template containers, and a string node has [get_text] too. *)

Inductive str_class :=
| NavigableString | CData | Comment | Script | Stylesheet | TemplateString
| RubyTextString | RubyParenthesisString
| Doctype | Declaration | ProcessingInstruction.

Definition str_class_eqb (a b : str_class) : bool :=
  match a, b with
  | NavigableString, NavigableString | CData, CData | Comment, Comment
  | Script, Script | Stylesheet, Stylesheet
  | TemplateString, TemplateString | RubyTextString, RubyTextString
  | RubyParenthesisString, RubyParenthesisString | Doctype, Doctype
  | Declaration, Declaration
  | ProcessingInstruction, ProcessingInstruction => true
  | _, _ => false
  end.

Inductive node :=
| Tag (name : pystr) (contents : list node)
| Str (cls : str_class) (text : pystr).

Module Soup.

Definition BeautifulSoup (contents : list node) : node :=
  Tag (lit "[document]") contents.

(** [Tag.__eq__]: same name and equal contents; a string equals a string
    of the same text and never a tag. *)
Fixpoint node_eqb (a b : node) : bool :=
  match a, b with
  | Tag n1 c1, Tag n2 c2 =>
      PyStr.eqb n1 n2 &&
      (fix all2 (l1 l2 : list node) : bool :=
         match l1, l2 with
         | [], [] => true
         | x :: l1', y :: l2' => node_eqb x y && all2 l1' l2'
         | _, _ => false
         end) c1 c2
  | Str _ s1, Str _ s2 => PyStr.eqb s1 s2
  | _, _ => false
  end.

(** [bool(x)]: a tag is always true, a string is true when non-empty. *)
Definition node_truthy (n : node) : bool :=
  match n with
  | Tag _ _ => true
  | Str _ s => truthy s
  end.

(** The string classes [get_text] collects under a tag of a given name
    (the builder's string containers; everything else takes the default). *)
Definition interesting_string_types (name : pystr) : list str_class :=
  if PyStr.eqb name (lit "script") then [Script]
  else if PyStr.eqb name (lit "style") then [Stylesheet]
  else if PyStr.eqb name (lit "template") then [TemplateString]
  else if PyStr.eqb name (lit "rt") then [RubyTextString]
  else if PyStr.eqb name (lit "rp") then [RubyParenthesisString]
  else [NavigableString; CData].

Fixpoint all_strings (types : list str_class) (n : node) : list pystr :=
  match n with
  | Str c s => if existsb (str_class_eqb c) types then [s] else []
  | Tag _ cs =>
      (fix go (l : list node) : list pystr :=
         match l with
         | [] => []
         | x :: l' => all_strings types x ++ go l'
         end) cs
  end.

(** [x.get_text()], on a tag or on a string. *)
Definition get_text (n : node) : pystr :=
  match n with
  | Tag name _ => concat (all_strings (interesting_string_types name) n)
  | Str _ _ => concat (all_strings [NavigableString; CData] n)
  end.

(** [tag.string]: the single string child, looked for through a chain of
    single-child tags. *)
Fixpoint tag_string (n : node) : option pystr :=
  match n with
  | Str _ s => Some s
  | Tag _ [c] => tag_string c
  | Tag _ _ => None
  end.

(** An element in its place: its parent and the siblings after it. *)
Record element := Element {
  el_node : node;
  el_parent : node;
  el_next_siblings : list node
}.

(** [parent.descendants], in document order. *)
Fixpoint descendants (parent : node) : list element :=
  match parent with
  | Str _ _ => []
  | Tag _ cs =>
      (fix go (l : list node) : list element :=
         match l with
         | [] => []
         | c :: r => Element c parent r :: descendants c ++ go r
         end) cs
  end.

Definition is_tag_named (names : list pystr) (n : node) : bool :=
  match n with
  | Tag name _ => mem name names
  | Str _ _ => false
  end.

(** The first element satisfying [p], with the elements after it. *)
Fixpoint find_from (p : element -> bool) (l : list element)
  : option (element * list element) :=
  match l with
  | [] => None
  | e :: l' => if p e then Some (e, l') else find_from p l'
  end.

(** [root.find(names)]. *)
Definition find (names : list pystr) (root : node) : option element :=
  option_map fst
    (find_from (fun e => is_tag_named names (el_node e)) (descendants root)).

(** [root.find_all(names)]. *)
Definition find_all (names : list pystr) (root : node) : list element :=
  filter (fun e => is_tag_named names (el_node e)) (descendants root).

(** [root.find(names, string=...)]: the tag's [.string] must exist and
    satisfy the matcher. *)
Definition string_matches (m : pystr -> bool) (n : node) : bool :=
  match n with
  | Tag _ _ => match tag_string n with Some s => m s | None => false end
  | Str _ _ => false
  end.

Definition find_string_from (names : list pystr) (m : pystr -> bool)
    (root : node) : option (element * list element) :=
  find_from
    (fun e => is_tag_named names (el_node e) && string_matches m (el_node e))
    (descendants root).

Definition find_string (names : list pystr) (m : pystr -> bool)
    (root : node) : option element :=
  option_map fst (find_string_from names m root).

(** [root.find_all(string=lambda t: isinstance(t, Comment))]. *)
Definition find_comments (root : node) : list pystr :=
  flat_map
    (fun e => match el_node e with
              | Str Comment s => [s]
              | _ => []
              end)
    (descendants root).

(** Every tag named in [names] is decomposed (removed with its contents). *)
Fixpoint decompose (names : list pystr) (n : node) : node :=
  match n with
  | Str _ _ => n
  | Tag name cs =>
      Tag name
        ((fix go (l : list node) : list node :=
            match l with
            | [] => []
            | c :: r =>
                if is_tag_named names c then go r
                else decompose names c :: go r
            end) cs)
  end.

(** The walk [while current: ... current = current.next_sibling]: the
    siblings visited before the walk meets a false value. *)
Fixpoint while_truthy (l : list node) : list node :=
  match l with
  | [] => []
  | n :: l' => if node_truthy n then n :: while_truthy l' else []
  end.

(** The siblings visited before the first one satisfying [stop]. *)
Fixpoint until (stop : node -> bool) (l : list node) : list node :=
  match l with
  | [] => []
  | n :: l' => if stop n then [] else n :: until stop l'
  end.

End Soup.
Import Soup.

(* ================================================================= *)
(** ** What the libraries and the file system supply *)

Record PyEnv := {
  (** [str.isspace] on one character; also the class [\s] of [re]. *)
  isspace : char -> bool;
  (** [str.isdigit] on one character. *)
  isdigit : char -> bool;
  (** value of a decimal digit (category Nd): what [int] accepts and what
      the class [\d] of [re] matches. *)
  decimal : char -> option N;
  (** [str.isalnum] on one character; with [_] it is the class [\w]. *)
  isalnum : char -> bool;
  (** [str.lower]. *)
  lower : pystr -> pystr;
  (** equality of two characters under [re.IGNORECASE]. *)
  re_ci_eq : char -> char -> bool;
  (** [BeautifulSoup(markup, 'html.parser')]: the contents of the document,
      or the class and message of the exception the parser raises on markup
      it rejects ([ParserRejectedMarkup] on [<![foo]>], for one). *)
  html_parse : pystr -> list node + pystr * pystr;
  (** [str(element)]. *)
  decode : node -> pystr;
  (** [open(path, 'r', encoding='utf-8', errors='ignore').read()]: the text,
      or the message of the [OSError]. *)
  read_text : pystr -> pystr + pystr;
  (** writing one line to standard output: [None] when it is written, the
      exception [print] raises otherwise ([UnicodeEncodeError] on a stream
      that cannot encode the line, [BrokenPipeError], ...). *)
  stdout_write : pystr -> option exn
}.

Section Pipelines.
Variable E : PyEnv.

Definition py_strip : pystr -> pystr := PyStr.strip (isspace E).

(** [re.compile(re.escape(name), re.I).search(s)]. *)
Fixpoint ci_startswith (p s : pystr) : bool :=
  match p, s with
  | [], _ => true
  | x :: p', y :: s' => re_ci_eq E x y && ci_startswith p' s'
  | _ :: _, [] => false
  end.

Fixpoint ci_search (p s : pystr) : bool :=
  ci_startswith p s ||
  match s with
  | [] => false
  | _ :: s' => ci_search p s'
  end.

(** [current.name.lower() in names], false on a string. *)
Definition is_heading (names : list pystr) (n : node) : bool :=
  match n with
  | Tag name _ => truthy name && mem (lower E name) names
  | Str _ _ => false
  end.

(** The texts a sibling walk collects: [x.get_text().strip()] when
    non-empty. *)
Definition stripped_texts (l : list node) : list pystr :=
  filter truthy (map (fun n => py_strip (get_text n)) l).

(* ----------------------------------------------------------------- *)
(** *** Shared by both passes *)

(** [BeautifulSoup(markup, 'html.parser')]: the document, or the
    exception of the parser. *)
Definition parse_markup (markup : pystr) : outcome node :=
  match html_parse E markup with
  | inl contents => Return (BeautifulSoup contents)
  | inr (cls, msg) => Raise (ExceptionOf cls msg)
  end.

(** [print(line)]. *)
Definition py_print (line : pystr) : run unit :=
  match stdout_write E line with
  | None => Run (Return tt) [line]
  | Some e => Run (Raise e) []
  end.

(** The text of a document once script and style are decomposed. *)
Definition normalized_text (soup : node) : pystr :=
  let soup := decompose [lit "script"; lit "style"] soup in
  let text := get_text soup in
  let lines := map py_strip (splitlines text) in
  let chunks :=
    flat_map (fun line => map py_strip (split (lit "  ") line)) lines in
  join (lit " ") (filter truthy chunks).

Definition clean_html_text (html_content : pystr) : outcome pystr :=
  if negb (truthy html_content) then Return []
  else
    soup <- parse_markup html_content ;;
    Return (normalized_text soup).

(* ----------------------------------------------------------------- *)
(** *** The improved pass *)

(** The body of the loop over the comments, inside its [try]. *)
Definition comment_text (comment : pystr) : outcome pystr :=
  comment_soup <- parse_markup comment ;;
  clean_html_text (decode E comment_soup).

(** A comment the parser rejects is passed over by the bare [except]. *)
Definition extract_from_comments (soup : node) : pystr :=
  let comments := find_comments soup in
  let comment_content :=
    flat_map
      (fun comment =>
         match comment_text comment with
         | Return text =>
             if truthy text && (20 <? length text) then [text] else []
         | Raise _ => []
         end)
      comments in
  join (lit " ") comment_content.

Definition Problem_Statement : pystr := lit "Problem Statement".

(** Strategy 1: the H1 tag. *)
Definition title_from_h1 (soup : node) : outcome (option pystr) :=
  match find [lit "h1"] soup with
  | Some title_tag =>
      if truthy (py_strip (get_text (el_node title_tag)))
      then
        title <- clean_html_text (decode E (el_node title_tag)) ;;
        Return (Some title)
      else Return None
  | None => Return None
  end.

(** Strategy 2: a line next to the "Problem Statement" heading. *)
Definition title_from_problem_statement (soup : node) : option pystr :=
  match find_string [lit "h3"] (PyStr.eqb Problem_Statement) soup with
  | Some problem_section =>
      let title_text := py_strip (get_text (el_parent problem_section)) in
      let lines := split [10%N] title_text in
      match
        filter
          (fun line =>
             truthy (py_strip line) &&
             negb (contains Problem_Statement line) &&
             (length (py_strip line) <? 100))
          lines
      with
      | line :: _ => Some (py_strip line)
      | [] => None
      end
  | None => None
  end.

Definition heading_stoplist : list pystr :=
  [lit "Input"; lit "Output"; lit "Constraints";
   lit "Sample Input"; lit "Sample Output"].

(** Strategy 3: any heading-like tag. *)
Definition title_from_headings (soup : node) : option pystr :=
  match
    filter
      (fun text =>
         truthy text && (length text <? 100) &&
         negb (mem text heading_stoplist))
      (map (fun tag => py_strip (get_text (el_node tag)))
         (find_all [lit "h1"; lit "h2"; lit "h3"; lit "title"] soup))
  with
  | text :: _ => Some text
  | [] => None
  end.

(** Strategy 4: a sentence of the comments (split on U+3002). *)
Definition title_from_comments (soup : node) : option pystr :=
  let comment_content := extract_from_comments soup in
  if truthy comment_content then
    let lines := split [12290%N] comment_content in
    match
      filter
        (fun line =>
           truthy (py_strip line) && (length (py_strip line) <? 200))
        (firstn 3 lines)
    with
    | line :: _ => Some (py_strip line)
    | [] => None
    end
  else None.

(** Strategies 2 to 4, which cannot raise. *)
Definition title_without_h1 (soup : node) : pystr :=
  match title_from_problem_statement soup with
  | Some t => t
  | None =>
  match title_from_headings soup with
  | Some t => t
  | None =>
  match title_from_comments soup with
  | Some t => t
  | None => []
  end end end.

Definition extract_title_flexible (soup : node) : outcome pystr :=
  from_h1 <- title_from_h1 soup ;;
  match from_h1 with
  | Some t => Return t
  | None => Return (title_without_h1 soup)
  end.

(** The literals 入力, 出力, 制約, 入力例, 出力例. *)
Definition ja_input : pystr := [20837; 21147]%N.
Definition ja_output : pystr := [20986; 21147]%N.
Definition ja_constraints : pystr := [21046; 32004]%N.
Definition ja_sample_input : pystr := [20837; 21147; 20363]%N.
Definition ja_sample_output : pystr := [20986; 21147; 20363]%N.

Definition section_mappings : list (pystr * list pystr) :=
  [ (lit "input", [lit "Input"; ja_input; lit "input"]);
    (lit "output", [lit "Output"; ja_output; lit "output"]);
    (lit "constraints", [lit "Constraints"; ja_constraints; lit "constraints"]);
    (lit "sample input",
      [lit "Sample Input"; lit "Sample Input 1"; ja_sample_input;
       lit "sample input"]);
    (lit "sample output",
      [lit "Sample Output"; lit "Sample Output 1"; ja_sample_output;
       lit "sample output"]) ].

Definition section_words : list pystr :=
  [lit "Input"; lit "Output"; lit "Constraints"; lit "Sample"].

(** Description, strategy 1: paragraphs and divisions free of section
    words, when the document has an Input or Constraints heading. *)
Definition direct_description_parts (soup : node) : list pystr :=
  match
    find_string [lit "h2"; lit "h3"]
      (fun s =>
         existsb (fun w => ci_search w s)
           [lit "Input"; lit "Constraints"; ja_input; ja_constraints])
      soup
  with
  | Some _ =>
      let current :=
        match find [lit "body"] soup with
        | Some body => el_node body
        | None => soup
        end in
      flat_map
        (fun element =>
           let text := get_text (el_node element) in
           if truthy (py_strip text) &&
              negb (existsb (fun w => contains w text) section_words)
           then [py_strip text] else [])
        (find_all [lit "p"; lit "div"] current)
  | None => []
  end.

(** Description, strategy 2: what the comments add when the direct text is
    shorter than 50 characters. *)
Definition comment_description_parts (soup : node)
    (description_parts : list pystr) : list pystr :=
  if length (join (lit " ") description_parts) <? 50 then
    let comment_content := extract_from_comments soup in
    if truthy comment_content then [comment_content] else []
  else [].

(** Description, strategy 3: the siblings after a "Problem Statement"
    heading, up to the next [h3] or [hr] of the document. *)
Definition problem_statement_parts (soup : node) : list pystr :=
  match
    find_string_from [lit "h3"] (PyStr.eqb Problem_Statement) soup
  with
  | Some (problem_statement, following) =>
      let next_section :=
        option_map fst
          (find_from
             (fun e => is_tag_named [lit "h3"; lit "hr"] (el_node e))
             following) in
      let stop current :=
        match next_section with
        | Some s => node_eqb current (el_node s)
        | None => false
        end in
      stripped_texts
        (until stop (while_truthy (el_next_siblings problem_statement)))
  | None => []
  end.

(** The content under the first heading matching [name], if any. *)
Definition section_content (soup : node) (name : pystr) : list pystr :=
  match find_string [lit "h2"; lit "h3"] (ci_search name) soup with
  | Some header =>
      stripped_texts
        (until (is_heading [lit "h2"; lit "h3"])
           (while_truthy (el_next_siblings header)))
  | None => []
  end.

(** The inner loop over the names of one key, left at its [break]. *)
Fixpoint first_content (soup : node) (names : list pystr)
  : option pystr :=
  match names with
  | [] => None
  | name :: names' =>
      match section_content soup name with
      | [] => first_content soup names'
      | content_parts => Some (join (lit " ") content_parts)
      end
  end.

Definition fill_sections (soup : node) (sections : PyDict.pydict)
  : PyDict.pydict :=
  fold_left
    (fun sections m =>
       match first_content soup (snd m) with
       | Some text => PyDict.set sections (fst m) text
       | None => sections
       end)
    section_mappings sections.

Definition improved_description (soup : node) : pystr :=
  let direct := direct_description_parts soup in
  join (lit " ")
    (direct ++ comment_description_parts soup direct
            ++ problem_statement_parts soup).

Definition extract_sections_from_html_improved (html_content : pystr)
  : outcome PyDict.pydict :=
  soup <- parse_markup html_content ;;
  let sections : PyDict.pydict := [] in
  title <- extract_title_flexible soup ;;
  let sections :=
    if truthy title then PyDict.set sections (lit "title") title
    else sections in
  let sections :=
    PyDict.set sections (lit "description") (improved_description soup) in
  Return (fill_sections soup sections).

(* ----------------------------------------------------------------- *)
(** *** The output record *)

Record sample_case := SampleCase {
  sc_input : pystr;
  sc_output : pystr;
  sc_explanation : pystr
}.

Record examples_t := Examples {
  sampleCases : list sample_case;
  testCases : list sample_case
}.

Record input_constraints := InputConstraints {
  ic_description : pystr;
  ic_ranges : pystr
}.

Record constraints_t := Constraints {
  timeLimit : option pystr;
  memoryLimit : option pystr;
  inputConstraints : input_constraints;
  languageRestrictions : list pystr
}.

Record basic_info := BasicInfo {
  questionId : pystr;
  title : pystr;
  description : pystr;
  difficulty : pystr;
  category : pystr;
  tags : list pystr;
  source : pystr
}.

Record metadata_t := Metadata {
  extractedFrom : pystr;
  confidence : float;
  notes : pystr
}.

Record problem := Problem {
  basicInfo : basic_info;
  constraints : constraints_t;
  examples : examples_t;
  codeTemplates : list (pystr * pystr);
  metadata : metadata_t
}.

(* ----------------------------------------------------------------- *)
(** *** Examples, difficulty, category (improved pass) *)

Definition extract_examples_improved (sections : PyDict.pydict)
  : examples_t :=
  let input_text :=
    PyDict.get_default sections (lit "sample input")
      (PyDict.get_default sections (lit "input") []) in
  let output_text :=
    PyDict.get_default sections (lit "sample output")
      (PyDict.get_default sections (lit "output") []) in
  if truthy input_text && truthy output_text then
    Examples [SampleCase (py_strip input_text) (py_strip output_text) []] []
  else Examples [] [].

(** [s.isdigit()]. *)
Definition str_isdigit (s : pystr) : bool :=
  truthy s && forallb (isdigit E) s.

Fixpoint int_digits (acc : Z) (s : pystr) : option Z :=
  match s with
  | [] => Some acc
  | c :: r =>
      match decimal E c with
      | Some d => int_digits (10 * acc + Z.of_N d) r
      | None => None
      end
  end.

(** [int(s)] on a string of digits: a digit that is not decimal (a
    superscript, a circled digit) is a [ValueError]. *)
Definition int_of_digits (s : pystr) : outcome Z :=
  match s with
  | [] => Raise (ValueError (lit "invalid literal for int() with base 10: ''"))
  | _ :: _ =>
      match int_digits 0 s with
      | Some n => Return n
      | None =>
          Raise (ValueError
                   (lit "invalid literal for int() with base 10: '"
                      ++ s ++ lit "'"))
      end
  end.

(** [int(problem_id[1:]) if problem_id[1:].isdigit() else 0]. *)
Definition problem_num (problem_id : pystr) : outcome Z :=
  if str_isdigit (tl problem_id) then int_of_digits (tl problem_id)
  else Return 0%Z.

(** [sum(1 for kw in keywords if kw in content)]. *)
Definition keyword_score (keywords : list pystr) (content : pystr) : Z :=
  Z.of_nat (length (filter (fun kw => contains kw content) keywords)).

Definition Hard : pystr := lit "Hard".
Definition Medium : pystr := lit "Medium".
Definition Easy : pystr := lit "Easy".

Definition easy_keywords : list pystr :=
  [lit "sum"; lit "count"; lit "simple"; lit "basic"; lit "digit";
   lit "print"; lit "calculate"; lit "find"].
Definition medium_keywords : list pystr :=
  [lit "algorithm"; lit "sort"; lit "search"; lit "tree"; lit "graph";
   lit "dynamic"; lit "optimal"; lit "sequence"].
Definition hard_keywords : list pystr :=
  [lit "complex"; lit "advanced"; lit "polynomial"; lit "exponential";
   lit "combinatorial"; lit "optimization"].

Definition assess_difficulty_improved (sections : PyDict.pydict)
    (problem_id : pystr) : outcome pystr :=
  let content :=
    lower E
      (join (lit " ")
         [PyDict.get_default sections (lit "title") [];
          PyDict.get_default sections (lit "description") [];
          PyDict.get_default sections (lit "constraints") []]) in
  num <- problem_num problem_id ;;
  let easy_score := keyword_score easy_keywords content in
  let medium_score := keyword_score medium_keywords content in
  let hard_score := keyword_score hard_keywords content in
  let constraints_text :=
    PyDict.get_default sections (lit "constraints") [] in
  let '(hard_score, medium_score) :=
    if contains (lit "10^9") constraints_text
       || contains (lit "10^8") constraints_text
    then (hard_score + 2, medium_score)%Z
    else if contains (lit "10^6") constraints_text
            || contains (lit "10^5") constraints_text
    then (hard_score, medium_score + 1)%Z
    else (hard_score, medium_score) in
  Return
    (if (0 <? hard_score)%Z || (3500 <? num)%Z then Hard
     else if (easy_score <? medium_score)%Z || (2000 <? num)%Z then Medium
     else Easy).

(** The argmax loop of both categorizers: a later category wins only with
    a strictly higher score. *)
Definition best_category (categories : list (pystr * list pystr))
    (content : pystr) : pystr :=
  fst
    (fold_left
       (fun (acc : pystr * Z) cat =>
          let score := keyword_score (snd cat) content in
          if (snd acc <? score)%Z then (fst cat, score) else acc)
       categories (lit "Implementation", 0%Z)).

Definition categories_improved : list (pystr * list pystr) :=
  [ (lit "Arrays & Strings",
      [lit "array"; lit "string"; lit "text"; lit "character";
       lit "sequence"; lit "list"]);
    (lit "Math & Logic",
      [lit "math"; lit "number"; lit "digit"; lit "calculate";
       lit "formula"; lit "equation"; lit "arithmetic"]);
    (lit "Geometry",
      [lit "triangle"; lit "circle"; lit "coordinate"; lit "distance";
       lit "angle"; lit "geometry"; lit "point"]);
    (lit "Sorting & Searching",
      [lit "sort"; lit "search"; lit "find"; lit "order";
       lit "binary search"; lit "maximum"; lit "minimum"]);
    (lit "Dynamic Programming",
      [lit "dynamic"; lit "dp"; lit "optimization"; lit "optimal";
       lit "recursive"]);
    (lit "Trees & Graphs",
      [lit "tree"; lit "graph"; lit "node"; lit "edge"; lit "path";
       lit "traversal"; lit "connected"]);
    (lit "Greedy Algorithms",
      [lit "greedy"; lit "optimal choice"; lit "interval"]);
    (lit "Simulation",
      [lit "simulate"; lit "game"; lit "step"; lit "process"; lit "move"]);
    (lit "Implementation",
      [lit "implement"; lit "program"; lit "algorithm"; lit "output";
       lit "print"]) ].

Definition categorize_problem_improved (sections : PyDict.pydict) : pystr :=
  let content :=
    lower E
      (join (lit " ")
         [PyDict.get_default sections (lit "title") [];
          PyDict.get_default sections (lit "description") []]) in
  best_category categories_improved content.

(** The tag loop of both passes, with its default. *)
Definition generate_tags (tag_keywords : list (pystr * list pystr))
    (content_lower : pystr) : list pystr :=
  match
    flat_map
      (fun tk =>
         if existsb (fun keyword => contains keyword content_lower) (snd tk)
         then [fst tk] else [])
      tag_keywords
  with
  | [] => [lit "implementation"]
  | tags => tags
  end.

Definition tag_keywords_improved : list (pystr * list pystr) :=
  [ (lit "array", [lit "array"; lit "list"; lit "sequence"]);
    (lit "string", [lit "string"; lit "text"; lit "character"]);
    (lit "math", [lit "math"; lit "number"; lit "calculation";
                  lit "arithmetic"]);
    (lit "geometry", [lit "triangle"; lit "circle"; lit "coordinate";
                      lit "geometry"]);
    (lit "sorting", [lit "sort"; lit "order"; lit "maximum"; lit "minimum"]);
    (lit "graph", [lit "graph"; lit "tree"; lit "node"; lit "path"]);
    (lit "simulation", [lit "simulate"; lit "game"; lit "process"]);
    (lit "implementation", [lit "implement"; lit "program"; lit "output"]) ].

(* ----------------------------------------------------------------- *)
(** *** The range templates ([re.findall])

    The three templates use one character class at a time, greedy [*] and
    [+], and capture groups that do not nest; [ratom] covers exactly
    that. *)

Inductive quant := One | Star | Plus.

Inductive ratom :=
| RClass (cls : char -> bool) (q : quant)
| ROpen
| RClose.

(** The character being consumed joins the group that is open, if any. *)
Definition push (c : char) (cur : option pystr) : option pystr :=
  option_map (cons c) cur.

(** Backtracking match of a template at the head of [s]: the unconsumed
    rest and the groups, first alternative first (greedy). *)
Fixpoint rmatch (p : list ratom) (s : pystr) (cur : option pystr)
    (done : list pystr) : option (pystr * list pystr) :=
  match p with
  | [] => Some (s, rev done)
  | ROpen :: p' => rmatch p' s (Some []) done
  | RClose :: p' =>
      rmatch p' s None
        (match cur with Some g => rev g :: done | None => done end)
  | RClass cls q :: p' =>
      let star :=
        fix star (s : pystr) (cur : option pystr) {struct s}
          : option (pystr * list pystr) :=
          match s with
          | c :: r =>
              if cls c then
                match star r (push c cur) with
                | Some m => Some m
                | None => rmatch p' s cur done
                end
              else rmatch p' s cur done
          | [] => rmatch p' [] cur done
          end in
      match q with
      | Star => star s cur
      | One =>
          match s with
          | c :: r => if cls c then rmatch p' r (push c cur) done else None
          | [] => None
          end
      | Plus =>
          match s with
          | c :: r => if cls c then star r (push c cur) else None
          | [] => None
          end
      end
  end.

(** One element of the list [re.findall] returns: the group when the
    template has one, the tuple of groups when it has several. *)
Inductive findall_item :=
| MStr (s : pystr)
| MTuple (groups : list pystr).

Definition item_of_groups (groups : list pystr) : findall_item :=
  match groups with
  | [g] => MStr g
  | _ => MTuple groups
  end.

(** Scan left to right; after a match, resume where it ended. *)
Fixpoint findall_go (fuel : nat) (p : list ratom) (s : pystr)
  : list findall_item :=
  match fuel with
  | O => []
  | S fuel' =>
      match rmatch p s None [] with
      | Some (rest, groups) =>
          item_of_groups groups ::
          (if length rest <? length s then findall_go fuel' p rest
           else match s with
                | [] => []
                | _ :: r => findall_go fuel' p r
                end)
      | None =>
          match s with
          | [] => []
          | _ :: r => findall_go fuel' p r
          end
      end
  end.

Definition re_findall (p : list ratom) (s : pystr) : list findall_item :=
  findall_go (S (length s)) p s.

(** [\d], [\s], [\w] and the class of ≤ (U+2264), [<], [=]. *)
Definition cls_d (c : char) : bool :=
  match decimal E c with Some _ => true | None => false end.
Definition cls_s (c : char) : bool := isspace E c.
Definition cls_w (c : char) : bool := isalnum E c || N.eqb c 95.
Definition cls_le (c : char) : bool :=
  N.eqb c 8804 || N.eqb c 60 || N.eqb c 61.

(** [(\d+)\s*[≤<=]\s*\w+\s*[≤<=]\s*(\d+)] *)
Definition double_bounded : list ratom :=
  [ROpen; RClass cls_d Plus; RClose; RClass cls_s Star; RClass cls_le One;
   RClass cls_s Star; RClass cls_w Plus; RClass cls_s Star;
   RClass cls_le One; RClass cls_s Star;
   ROpen; RClass cls_d Plus; RClose].

(** [\w+\s*[≤<=]\s*(\d+)] *)
Definition upper_bound : list ratom :=
  [RClass cls_w Plus; RClass cls_s Star; RClass cls_le One;
   RClass cls_s Star; ROpen; RClass cls_d Plus; RClose].

(** [(\d+)\s*[≤<=]\s*\w+] *)
Definition lower_bound : list ratom :=
  [ROpen; RClass cls_d Plus; RClose; RClass cls_s Star; RClass cls_le One;
   RClass cls_s Star; RClass cls_w Plus].

Definition range_patterns : list (list ratom) :=
  [double_bounded; upper_bound; lower_bound].

(** [' '.join(match) if isinstance(match, tuple) else str(match)]. *)
Definition render_match (m : findall_item) : pystr :=
  match m with
  | MTuple groups => join (lit " ") groups
  | MStr s => s
  end.

(** The list [ranges] after the loop over the templates. *)
Definition collect_ranges (constraints_text : pystr) : list pystr :=
  flat_map
    (fun pattern => map render_match (re_findall pattern constraints_text))
    range_patterns.

(** The value left in [inputConstraints.ranges]. *)
Definition ranges_of (constraints_text : pystr) : pystr :=
  if truthy constraints_text then
    match collect_ranges constraints_text with
    | [] => []
    | ranges => join (lit "; ") ranges
    end
  else [].

(* ----------------------------------------------------------------- *)
(** *** Confidence *)

(** [min(confidence, 1.0)]: the second argument wins only when strictly
    smaller. *)
Definition float_min (a b : float) : float :=
  if PrimFloat.ltb b a then b else a.

Definition confidence_score (has_title long_description has_examples
    has_constraints : bool) : float :=
  let confidence := 0.5%float in
  let confidence :=
    if has_title then (confidence + 0.1)%float else confidence in
  let confidence :=
    if long_description then (confidence + 0.2)%float else confidence in
  let confidence :=
    if has_examples then (confidence + 0.2)%float else confidence in
  let confidence :=
    if has_constraints then (confidence + 0.1)%float else confidence in
  float_min confidence 1.0%float.

(** [bool(x)] for a list. *)
Definition nonempty {A} (l : list A) : bool :=
  match l with [] => false | _ :: _ => true end.

(* ----------------------------------------------------------------- *)
(** *** Code templates (static text) *)

Definition template_python : pystr :=
  lit "def solve():
    # Read input
    # Process data
    # Output result
    pass

if __name__ == " ++ [34%N] ++ lit "__main__" ++ [34%N] ++ lit ":
    solve()".

Definition template_cpp : pystr :=
  lit "#include <iostream>
#include <vector>
#include <string>
using namespace std;

int main() {
    // Read input
    // Process data
    // Output result
    return 0;
}".

Definition template_java : pystr :=
  lit "import java.util.*;
import java.io.*;

public class Solution {
    public static void main(String[] args) {
        Scanner sc = new Scanner(System.in);
        // Read input
        // Process data
        // Output result
        sc.close();
    }
}".

Definition template_javascript : pystr :=
  lit "function solve() {
    // Read input
    // Process data
    // Output result
}

solve();".

Definition templates : list (pystr * pystr) :=
  [ (lit "python", template_python); (lit "cpp", template_cpp);
    (lit "java", template_java); (lit "javascript", template_javascript) ].

(* ----------------------------------------------------------------- *)
(** *** Files and paths *)

(** [with open(file_path, ...) as f: f.read()]. *)
Definition open_read (file_path : pystr) : outcome pystr :=
  match read_text E file_path with
  | inl text => Return text
  | inr msg => Raise (OSError msg)
  end.

(** Index of the last [.] of a name, if any ([name.rfind('.')]). *)
Fixpoint rfind_dot (name : pystr) (i : nat) (last : option nat)
  : option nat :=
  match name with
  | [] => last
  | c :: r => rfind_dot r (S i) (if N.eqb c 46 then Some i else last)
  end.

(** [Path(file_path).stem]: the final component without its last suffix.
    Empty and [.] components do not count as components. *)
Definition path_stem (file_path : pystr) : pystr :=
  let parts :=
    filter (fun part => truthy part && negb (PyStr.eqb part (lit ".")))
      (split (lit "/") file_path) in
  let name := last parts [] in
  match rfind_dot name 0 None with
  | Some i =>
      if (0 <? i) && (i <? length name - 1) then firstn i name else name
  | None => name
  end.

(* ----------------------------------------------------------------- *)
(** *** The improved entry point *)

(** The sections once the identifier has stood in for a missing title. *)
Definition with_fallback_title (sections : PyDict.pydict)
    (problem_id : pystr) : PyDict.pydict :=
  if negb (PyDict.has sections (lit "title"))
  then PyDict.set sections (lit "title") (lit "Problem " ++ problem_id)
  else sections.

(** The record [extract_problem_improved] assembles from the sections
    (fallback title in place) once the difficulty is known. *)
Definition assemble_improved (file_path problem_id : pystr)
    (sections : PyDict.pydict) (difficulty : pystr) : problem :=
  let examples := extract_examples_improved sections in
  let category := categorize_problem_improved sections in
  let content_lower :=
    lower E
      (PyDict.get_default sections (lit "description") [] ++ lit " "
         ++ PyDict.get_default sections (lit "title") []) in
  let tags := generate_tags tag_keywords_improved content_lower in
  let constraints_text :=
    PyDict.get_default sections (lit "constraints") [] in
  let constraints :=
    Constraints None None
      (InputConstraints
         (PyDict.get_default sections (lit "constraints") [])
         (ranges_of constraints_text))
      [] in
  let confidence :=
    confidence_score
      (PyDict.has sections (lit "title"))
      (PyDict.has sections (lit "description") &&
       (50 <? length (PyDict.get_default sections (lit "description") [])))
      (nonempty (sampleCases examples))
      (PyDict.has sections (lit "constraints")) in
  Problem
    (BasicInfo problem_id
       (PyDict.get_default sections (lit "title")
          (lit "Problem " ++ problem_id))
       (PyDict.get_default sections (lit "description") [])
       difficulty category tags file_path)
    constraints examples templates
    (Metadata file_path confidence
       (lit "Extracted from Project CodeNet problem " ++ problem_id)).

(** The statements of [extract_problem_improved] from the fallback title
    to [return problem]; only the difficulty assessment can raise. *)
Definition build_problem_improved (file_path problem_id : pystr)
    (sections : PyDict.pydict) : outcome problem :=
  let sections := with_fallback_title sections problem_id in
  difficulty <- assess_difficulty_improved sections problem_id ;;
  Return (assemble_improved file_path problem_id sections difficulty).

(** The body of the [try] block. *)
Definition extract_problem_improved_body (file_path : pystr)
  : outcome (option problem) :=
  html_content <- open_read file_path ;;
  if negb (truthy (py_strip html_content)) then Return None
  else
    let problem_id := path_stem file_path in
    sections <- extract_sections_from_html_improved html_content ;;
    if negb (PyDict.has sections (lit "title")) &&
       negb (PyDict.has sections (lit "description"))
    then Return None
    else
      problem <- build_problem_improved file_path problem_id sections ;;
      Return (Some problem).

(** The line of the handler, [f"Error processing {file_path}: {e}"]. *)
Definition error_line (file_path : pystr) (e : exn) : pystr :=
  lit "Error processing " ++ file_path ++ lit ": " ++ exn_str e.

(** [print(f"Error processing {file_path}: {e}"); return None]: an
    exception of [print] leaves the handler. *)
Definition report_error (file_path : pystr) (e : exn)
  : run (option problem) :=
  let printed := py_print (error_line file_path e) in
  match result printed with
  | Return _ => Run (Return None) (stdout printed)
  | Raise e' => Run (Raise e') (stdout printed)
  end.

Definition extract_problem_improved (file_path : pystr)
  : run (option problem) :=
  try_except_Exception (extract_problem_improved_body file_path)
    (report_error file_path).

(** The bucket [main] counts a record in: [conf >= 0.8], [conf >= 0.6],
    else. *)
Definition confidence_level (conf : float) : pystr :=
  if PrimFloat.leb 0.8 conf then lit "high"
  else if PrimFloat.leb 0.6 conf then lit "medium"
  else lit "low".

(* ----------------------------------------------------------------- *)
(** *** The legacy pass *)

(** The siblings the legacy walks visit, up to the next [h2], and what
    they collect.  Every node answers [get_text], so the [elif] branch for
    bare strings is never entered. *)
Definition legacy_walk (l : list node) : list pystr :=
  stripped_texts (until (is_heading [lit "h2"]) (while_truthy l)).

(** One turn of the loop over the [h2] tags. *)
Definition legacy_h2_step (sections : PyDict.pydict) (h2 : element)
  : outcome PyDict.pydict :=
  cleaned <- clean_html_text (decode E (el_node h2)) ;;
  let section_name := lower E cleaned in
  let sections := PyDict.set sections section_name [] in
  Return
    (PyDict.set sections section_name
       (join (lit " ") (legacy_walk (el_next_siblings h2)))).

Fixpoint legacy_h2_loop (h2_tags : list element) (sections : PyDict.pydict)
  : outcome PyDict.pydict :=
  match h2_tags with
  | [] => Return sections
  | h2 :: rest =>
      sections <- legacy_h2_step sections h2 ;;
      legacy_h2_loop rest sections
  end.

Definition extract_sections_from_html (html_content : pystr)
  : outcome PyDict.pydict :=
  soup <- parse_markup html_content ;;
  let sections : PyDict.pydict := [] in
  let title_tag := find [lit "h1"] soup in
  sections <-
    match title_tag with
    | Some t =>
        title <- clean_html_text (decode E (el_node t)) ;;
        Return (PyDict.set sections (lit "title") title)
    | None => Return sections
    end ;;
  let start : list node :=
    match title_tag with
    | Some t => el_next_siblings t
    | None =>
        match find [lit "body"] soup with
        | Some body => el_node body :: el_next_siblings body
        | None => []
        end
    end in
  let sections :=
    PyDict.set sections (lit "description")
      (join (lit " ") (legacy_walk start)) in
  legacy_h2_loop (find_all [lit "h2"] soup) sections.

(** [sections.get(key, "").strip()] for the key at position [i] of [keys],
    empty when there is no such position. *)
Definition nth_section_text (sections : PyDict.pydict)
    (keys : list pystr) (i : nat) : pystr :=
  match nth_error keys i with
  | Some k => py_strip (PyDict.get_default sections k [])
  | None => []
  end.

Fixpoint pair_examples (sections : PyDict.pydict)
    (sample_output_keys : list pystr) (i : nat)
    (sample_input_keys : list pystr) : list sample_case :=
  match sample_input_keys with
  | [] => []
  | input_key :: rest =>
      let input_text :=
        py_strip (PyDict.get_default sections input_key []) in
      let output_text := nth_section_text sections sample_output_keys i in
      (if truthy input_text || truthy output_text
       then [SampleCase input_text output_text []] else [])
      ++ pair_examples sections sample_output_keys (S i) rest
  end.

Definition extract_examples_from_sections (sections : PyDict.pydict)
  : examples_t :=
  let sample_input_keys :=
    filter (fun k => contains (lit "sample input") (lower E k))
      (PyDict.keys sections) in
  let sample_output_keys :=
    filter
      (fun k =>
         contains (lit "output for") (lower E k)
         || contains (lit "sample output") (lower E k))
      (PyDict.keys sections) in
  Examples (pair_examples sections sample_output_keys 0 sample_input_keys)
    [].

(** The value of the first key containing [constraint], unless empty. *)
Fixpoint first_constraints_text (sections : PyDict.pydict) : pystr :=
  match sections with
  | [] => []
  | (key, value) :: rest =>
      if contains (lit "constraint") (lower E key) then value
      else first_constraints_text rest
  end.

Definition extract_constraints_from_sections (sections : PyDict.pydict)
  : constraints_t :=
  let constraints_text := first_constraints_text sections in
  if truthy constraints_text then
    Constraints None None
      (InputConstraints constraints_text
         (match collect_ranges constraints_text with
          | [] => []
          | ranges => join (lit "; ") ranges
          end))
      []
  else Constraints None None (InputConstraints [] []) [].

Definition easy_indicators : list pystr :=
  [lit "sum"; lit "count"; lit "simple"; lit "basic"; lit "digit";
   lit "triangle"; lit "maximum"; lit "minimum"].
Definition medium_indicators : list pystr :=
  [lit "algorithm"; lit "sort"; lit "search"; lit "tree"; lit "graph";
   lit "dynamic"; lit "optimization"].
Definition hard_indicators : list pystr :=
  [lit "complex"; lit "advanced"; lit "polynomial"; lit "np-hard";
   lit "exponential"; lit "combinatorial"].

Definition assess_difficulty (sections : PyDict.pydict)
    (problem_id : pystr) : outcome pystr :=
  let description :=
    PyDict.get_default sections (lit "description") [] ++ lit " "
      ++ PyDict.get_default sections (lit "title") [] in
  let description_lower := lower E description in
  let easy_score := keyword_score easy_indicators description_lower in
  let medium_score := keyword_score medium_indicators description_lower in
  let hard_score := keyword_score hard_indicators description_lower in
  num <- problem_num problem_id ;;
  Return
    (if (0 <? hard_score)%Z || (3000 <? num)%Z then Hard
     else if (easy_score <? medium_score)%Z || (1000 <? num)%Z then Medium
     else Easy).

Definition categories_legacy : list (pystr * list pystr) :=
  [ (lit "Arrays & Strings",
      [lit "array"; lit "string"; lit "text"; lit "character";
       lit "sequence"]);
    (lit "Math & Logic",
      [lit "math"; lit "number"; lit "digit"; lit "calculate";
       lit "formula"; lit "equation"]);
    (lit "Geometry",
      [lit "triangle"; lit "circle"; lit "coordinate"; lit "distance";
       lit "angle"; lit "geometry"]);
    (lit "Sorting & Searching",
      [lit "sort"; lit "search"; lit "find"; lit "order";
       lit "binary search"]);
    (lit "Dynamic Programming",
      [lit "dynamic"; lit "dp"; lit "optimization"; lit "maximum";
       lit "minimum"]);
    (lit "Trees & Graphs",
      [lit "tree"; lit "graph"; lit "node"; lit "edge"; lit "path";
       lit "traversal"]);
    (lit "Greedy Algorithms", [lit "greedy"; lit "optimal"; lit "choice"]);
    (lit "Simulation",
      [lit "simulate"; lit "game"; lit "step"; lit "process"]);
    (lit "Implementation",
      [lit "implement"; lit "program"; lit "algorithm"]) ].

Definition categorize_problem (sections : PyDict.pydict) : pystr :=
  let content :=
    lower E
      (PyDict.get_default sections (lit "description") [] ++ lit " "
         ++ PyDict.get_default sections (lit "title") []) in
  best_category categories_legacy content.

(** [templates.get(language, templates['python'])]. *)
Definition generate_code_template (sections : PyDict.pydict)
    (language : pystr) : pystr :=
  PyDict.get_default templates language template_python.

Definition tag_keywords_legacy : list (pystr * list pystr) :=
  [ (lit "array", [lit "array"; lit "list"]);
    (lit "string", [lit "string"; lit "text"; lit "character"]);
    (lit "math", [lit "math"; lit "number"; lit "calculation"]);
    (lit "geometry", [lit "triangle"; lit "circle"; lit "coordinate"]);
    (lit "sorting", [lit "sort"; lit "order"]);
    (lit "graph", [lit "graph"; lit "tree"; lit "node"]);
    (lit "simulation", [lit "simulate"; lit "game"]);
    (lit "implementation", [lit "implement"; lit "program"]) ].

(** The title as the legacy record shows it. *)
Definition legacy_title (sections : PyDict.pydict) (problem_id : pystr)
  : pystr :=
  replace (lit "Problem A: ") []
    (replace (lit "Problem F: ") []
       (PyDict.get_default sections (lit "title")
          (lit "Problem " ++ problem_id))).

(** The record [extract_problem_from_html_file] assembles once the
    difficulty is known. *)
Definition assemble_legacy (file_path problem_id : pystr)
    (sections : PyDict.pydict) (difficulty : pystr) : problem :=
  let examples := extract_examples_from_sections sections in
  let constraints := extract_constraints_from_sections sections in
  let category := categorize_problem sections in
  let content_lower :=
    lower E
      (PyDict.get_default sections (lit "description") [] ++ lit " "
         ++ PyDict.get_default sections (lit "title") []) in
  let tags := generate_tags tag_keywords_legacy content_lower in
  Problem
    (BasicInfo problem_id (legacy_title sections problem_id)
       (PyDict.get_default sections (lit "description") [])
       difficulty category tags file_path)
    constraints examples
    [ (lit "python", generate_code_template sections (lit "python"));
      (lit "cpp", generate_code_template sections (lit "cpp"));
      (lit "java", generate_code_template sections (lit "java"));
      (lit "javascript",
        generate_code_template sections (lit "javascript")) ]
    (Metadata file_path
       (if PyDict.has sections (lit "description")
           && nonempty (sampleCases examples)
        then 0.8%float else 0.6%float)
       (lit "Extracted from Project CodeNet problem " ++ problem_id)).

(** Only the difficulty assessment can raise. *)
Definition build_problem_legacy (file_path problem_id : pystr)
    (sections : PyDict.pydict) : outcome problem :=
  difficulty <- assess_difficulty sections problem_id ;;
  Return (assemble_legacy file_path problem_id sections difficulty).

Definition extract_problem_from_html_file_body (file_path : pystr)
  : outcome (option problem) :=
  html_content <- open_read file_path ;;
  if negb (truthy (py_strip html_content)) then Return None
  else
    let problem_id := path_stem file_path in
    sections <- extract_sections_from_html html_content ;;
    if negb (PyDict.has sections (lit "title")) then Return None
    else
      problem <- build_problem_legacy file_path problem_id sections ;;
      Return (Some problem).

Definition extract_problem_from_html_file (file_path : pystr)
  : run (option problem) :=
  try_except_Exception (extract_problem_from_html_file_body file_path)
    (report_error file_path).

End Pipelines.

(* ================================================================= *)
(** ** The drivers

    Of each [main], the loop over the sorted files and (improved pass) the
    tallies of the summary.  Finding the directory, listing it and writing
    the JSON file are left to the caller: the loop takes the sorted list
    and returns the records to write. *)

(** [str(n)] for a non-negative integer. *)
Definition str_of_nat (n : nat) : pystr :=
  lit (NilEmpty.string_of_uint (Nat.to_uint n)).

(** A dictionary of counts, in insertion order. *)
Definition counter := list (pystr * nat).

(** [c.get(k, 0)]. *)
Fixpoint count_of (c : counter) (k : pystr) : nat :=
  match c with
  | [] => 0
  | (k', n) :: c' => if PyStr.eqb k' k then n else count_of c' k
  end.

(** [c[k] = v]. *)
Fixpoint counter_set (c : counter) (k : pystr) (v : nat) : counter :=
  match c with
  | [] => [(k, v)]
  | (k', n) :: c' =>
      if PyStr.eqb k' k then (k', v) :: c' else (k', n) :: counter_set c' k v
  end.

(** [c[k] = c.get(k, 0) + 1]. *)
Definition counter_incr (c : counter) (k : pystr) : counter :=
  counter_set c k (count_of c k + 1).

(** The sum of all counts. *)
Definition counter_total (c : counter) : nat :=
  fold_right (fun kv acc => snd kv + acc) 0 c.

(** The tallies [main] builds after writing the file: per difficulty, per
    category, per confidence bucket. *)
Definition main_statistics (problems : list problem)
  : counter * counter * counter :=
  fold_left
    (fun (acc : counter * counter * counter) problem =>
       let '(difficulties, categories, confidence_levels) := acc in
       let diff := difficulty (basicInfo problem) in
       let cat := category (basicInfo problem) in
       let conf := confidence (metadata problem) in
       (counter_incr difficulties diff,
        counter_incr categories cat,
        counter_incr confidence_levels (confidence_level conf)))
    problems
    ([], [], [(lit "high", 0); (lit "medium", 0); (lit "low", 0)]).

Section Drivers.
Variable E : PyEnv.

(** What the loop of the improved [main] holds when it ends. *)
Record batch := Batch {
  batch_problems : list problem;
  batch_processed : nat;
  batch_skipped : nat
}.

Definition progress_line_improved (processed total skipped : nat) : pystr :=
  lit "Processed " ++ str_of_nat processed ++ lit "/" ++ str_of_nat total
    ++ lit " problems... (skipped: " ++ str_of_nat skipped ++ lit ")".

(** A [print] that a condition guards. *)
Definition print_when (cond : bool) (line : pystr) : run unit :=
  if cond then py_print E line else Run (Return tt) [].

(** The [for] loop of the improved [main], entered with the files still to
    visit and the three variables as they stand; [total] is
    [len(html_files)].  An exception leaving [print] or
    [extract_problem_improved] leaves the loop. *)
Fixpoint main_loop_improved (total : nat) (html_files : list pystr)
    (problems : list problem) (processed skipped : nat) : run batch :=
  match html_files with
  | [] => Run (Return (Batch problems processed skipped)) []
  | html_file :: rest =>
      let progress :=
        print_when (processed mod 100 =? 0)
          (progress_line_improved processed total skipped) in
      match result progress with
      | Raise e => Run (Raise e) (stdout progress)
      | Return _ =>
          let call := extract_problem_improved E html_file in
          match result call with
          | Raise e => Run (Raise e) (stdout progress ++ stdout call)
          | Return problem =>
              let after :=
                match problem with
                | Some p =>
                    main_loop_improved total rest (problems ++ [p])
                      (processed + 1) skipped
                | None =>
                    main_loop_improved total rest problems
                      (processed + 1) (skipped + 1)
                end in
              Run (result after)
                (stdout progress ++ stdout call ++ stdout after)
          end
      end
  end.

(** The loop with its variables initialised, followed by the line that
    reports the outcome. *)
Definition main_extract_improved (sorted_files : list pystr) : run batch :=
  let loop := main_loop_improved (length sorted_files) sorted_files [] 0 0 in
  match result loop with
  | Return b =>
      let printed :=
        py_print E
          (lit "Successfully extracted "
             ++ str_of_nat (length (batch_problems b))
             ++ lit " problems (skipped " ++ str_of_nat (batch_skipped b)
             ++ lit ")") in
      match result printed with
      | Return _ => Run (Return b) (stdout loop ++ stdout printed)
      | Raise e => Run (Raise e) (stdout loop ++ stdout printed)
      end
  | Raise e => Run (Raise e) (stdout loop)
  end.

Definition progress_line_legacy (processed total : nat) : pystr :=
  lit "Processed " ++ str_of_nat processed ++ lit "/" ++ str_of_nat total
    ++ lit " problems...".

(** The [for] loop of the legacy [main]: no count of skips. *)
Fixpoint main_loop_legacy (total : nat) (html_files : list pystr)
    (problems : list problem) (processed : nat)
  : run (list problem * nat) :=
  match html_files with
  | [] => Run (Return (problems, processed)) []
  | html_file :: rest =>
      let progress :=
        print_when (processed mod 100 =? 0)
          (progress_line_legacy processed total) in
      match result progress with
      | Raise e => Run (Raise e) (stdout progress)
      | Return _ =>
          let call := extract_problem_from_html_file E html_file in
          match result call with
          | Raise e => Run (Raise e) (stdout progress ++ stdout call)
          | Return problem =>
              let after :=
                match problem with
                | Some p =>
                    main_loop_legacy total rest (problems ++ [p])
                      (processed + 1)
                | None =>
                    main_loop_legacy total rest problems (processed + 1)
                end in
              Run (result after)
                (stdout progress ++ stdout call ++ stdout after)
          end
      end
  end.

End Drivers.

(** The order of difficulty levels, for comparing two assessments. *)
Definition difficulty_rank (d : pystr) : nat :=
  if PyStr.eqb d Hard then 2 else if PyStr.eqb d Medium then 1 else 0.

(* ================================================================= *)
(** ** The properties, as stated

    Each property of the specification is written out once, over the
    functions above, so that it can be asked of either pass. *)


(** The shape of a guarded call.  Either the body returned and nothing was
    printed; or it raised, and then what it raised is an [Exception], the
    line of the handler contains the path, and the call returns [None]
    after printing that line, unless [print] itself raises, which leaves
    the call. *)
Definition guarded (E : PyEnv) (file_path : pystr)
    (body : outcome (option problem)) (call : run (option problem))
  : Prop :=
  match body with
  | Return v => call = Run (Return v) []
  | Raise e =>
      is_Exception e = true /\
      contains file_path (error_line file_path e) = true /\
      match stdout_write E (error_line file_path e) with
      | None => call = Run (Return None) [error_line file_path e]
      | Some e' => call = Run (Raise e') []
      end
  end.

(** What a fault [e] of the [try] block leaves of a call of [entry]: the
    diagnostic and [None], or the exception of [print]. *)
Definition fault_outcome (E : PyEnv) (entry : pystr -> run (option problem))
    (file_path : pystr) (e : exn) : Prop :=
  match stdout_write E (error_line file_path e) with
  | None => entry file_path = Run (Return None) [error_line file_path e]
  | Some e' => entry file_path = Run (Raise e') []
  end.

(** The rejection rule in the words of the specification, for an entry
    point [entry] whose section map on this document is [sections]:
    [None] (and no diagnostic) exactly when neither title nor description
    is recoverable; a record when one of them is and the identifier
    parses. *)
Definition rejection_rule_as_stated (E : PyEnv) (sections : PyDict.pydict)
    (entry : pystr -> run (option problem)) (file_path : pystr) : Prop :=
  (entry file_path = Run (Return None) [] <->
     PyDict.has sections (lit "title") = false /\
     PyDict.has sections (lit "description") = false) /\
  (PyDict.has sections (lit "title") = true \/
   PyDict.has sections (lit "description") = true ->
   forall n, problem_num E (path_stem file_path) = Return n ->
   exists p, entry file_path = Run (Return (Some p)) []).

(** The rule of the legacy entry point: the title alone decides. *)
Definition rejection_rule_legacy (E : PyEnv) (sections : PyDict.pydict)
    (entry : pystr -> run (option problem)) (file_path : pystr) : Prop :=
  (entry file_path = Run (Return None) [] <->
     PyDict.has sections (lit "title") = false) /\
  (PyDict.has sections (lit "title") = true ->
   forall n, problem_num E (path_stem file_path) = Return n ->
   exists p, entry file_path = Run (Return (Some p)) []).

(** The score in the words of the specification: 0.5, plus an increment
    per attribute present, capped at 1.0. *)
Definition spec_confidence (has_title long_description has_examples
    has_constraints : bool) : float :=
  float_min
    (0.5 + (if has_title then 0.1 else 0)
         + (if long_description then 0.2 else 0)
         + (if has_examples then 0.2 else 0)
         + (if has_constraints then 0.1 else 0))%float
    1.0%float.

(** The four attributes, read off a record. *)
Definition record_has_title (p : problem) : bool :=
  truthy (title (basicInfo p)).
Definition record_long_description (p : problem) : bool :=
  truthy (description (basicInfo p)) &&
  (50 <? length (description (basicInfo p))).
Definition record_has_examples (p : problem) : bool :=
  nonempty (sampleCases (examples p)).
Definition record_has_constraints (p : problem) : bool :=
  truthy (ic_description (inputConstraints (constraints p))).

(** The title property in the words of the specification, read for any
    heading: whichever [h1] of the document has a text that is not blank
    (and a normalized text [t] that is not empty), the record's title is
    [t]. *)
Definition title_is_any_heading_text (E : PyEnv)
    (entry : pystr -> run (option problem)) (file_path text : pystr)
  : Prop :=
  forall contents h1 t p,
    html_parse E text = inl contents ->
    In h1 (find_all [lit "h1"] (BeautifulSoup contents)) ->
    truthy (py_strip E (get_text (el_node h1))) = true ->
    clean_html_text E (decode E (el_node h1)) = Return t ->
    truthy t = true ->
    result (entry file_path) = Return (Some p) ->
    title (basicInfo p) = t.

(** The same property for the first [h1] of the document only: when its
    text is not blank and its normalized text [t] is not empty, the
    record's title is [t]. *)
Definition title_is_heading_text (E : PyEnv)
    (entry : pystr -> run (option problem)) (file_path text : pystr)
  : Prop :=
  forall contents h1 t p,
    html_parse E text = inl contents ->
    find [lit "h1"] (BeautifulSoup contents) = Some h1 ->
    truthy (py_strip E (get_text (el_node h1))) = true ->
    clean_html_text E (decode E (el_node h1)) = Return t ->
    truthy t = true ->
    result (entry file_path) = Return (Some p) ->
    title (basicInfo p) = t.

(** What the legacy record shows instead: the normalized text without the
    literals [Problem F: ] and [Problem A: ], as long as no [h2] section
    is itself called [title]. *)
Definition title_is_trimmed_heading_text (E : PyEnv)
    (entry : pystr -> run (option problem)) (file_path text : pystr)
  : Prop :=
  forall contents h1 t p,
    html_parse E text = inl contents ->
    find [lit "h1"] (BeautifulSoup contents) = Some h1 ->
    clean_html_text E (decode E (el_node h1)) = Return t ->
    (forall h2 name,
       In h2 (find_all [lit "h2"] (BeautifulSoup contents)) ->
       clean_html_text E (decode E (el_node h2)) = Return name ->
       PyStr.eqb (lower E name) (lit "title") = false) ->
    result (entry file_path) = Return (Some p) ->
    title (basicInfo p) =
      replace (lit "Problem A: ") [] (replace (lit "Problem F: ") [] t).

(** The example property in the words of the specification, for an
    extractor: with "sample input" and "sample output" sections that are
    non-empty after trimming, exactly one sample case, made of the trimmed
    texts and an empty explanation. *)
Definition one_sample_case (E : PyEnv)
    (extract : PyDict.pydict -> examples_t) (sections : PyDict.pydict)
  : Prop :=
  forall input_text output_text,
    PyDict.get sections (lit "sample input") = Some input_text ->
    PyDict.get sections (lit "sample output") = Some output_text ->
    truthy (py_strip E input_text) = true ->
    truthy (py_strip E output_text) = true ->
    sampleCases (extract sections) =
      [SampleCase (py_strip E input_text) (py_strip E output_text) []].

(** The legacy extractor pairs keys by position; the property holds for it
    when [sample input] is the only key containing "sample input" and
    [sample output] is the first key containing "output for" or "sample
    output". *)
Definition legacy_keys_single (E : PyEnv) (sections : PyDict.pydict)
  : Prop :=
  filter (fun k => contains (lit "sample input") (lower E k))
    (PyDict.keys sections) = [lit "sample input"] /\
  hd_error
    (filter
       (fun k =>
          contains (lit "output for") (lower E k)
          || contains (lit "sample output") (lower E k))
       (PyDict.keys sections)) = Some (lit "sample output").

(** The legacy pairing in words.  The keys containing "sample input" are
    taken in map order; the one at position [i] goes with the key at
    position [i] among those containing "output for" or "sample output",
    or with an empty output when there is none; the pair gives one case
    with the trimmed texts when one of them is not empty, and none when
    both are. *)
Definition legacy_case_at (E : PyEnv) (sections : PyDict.pydict)
    (output_keys : list pystr) (ik : nat * pystr) : list sample_case :=
  let input_text := py_strip E (PyDict.get_default sections (snd ik) []) in
  let output_text :=
    match nth_error output_keys (fst ik) with
    | Some k => py_strip E (PyDict.get_default sections k [])
    | None => []
    end in
  if truthy input_text || truthy output_text
  then [SampleCase input_text output_text []] else [].

Definition legacy_cases_by_position (E : PyEnv) (sections : PyDict.pydict)
  : list sample_case :=
  let input_keys :=
    filter (fun k => contains (lit "sample input") (lower E k))
      (PyDict.keys sections) in
  let output_keys :=
    filter
      (fun k =>
         contains (lit "output for") (lower E k)
         || contains (lit "sample output") (lower E k))
      (PyDict.keys sections) in
  flat_map (legacy_case_at E sections output_keys)
    (combine (seq 0 (length input_keys)) input_keys).

(** The constraints text the legacy pass reads from a section map, said
    without its loop: the text of the first key that contains
    "constraint", or nothing when no key does. *)
Definition legacy_constraints_text_is (E : PyEnv)
    (sections : PyDict.pydict) (text : pystr) : Prop :=
  (exists before k after,
     sections = before ++ (k, text) :: after /\
     (forall kv, In kv before ->
        contains (lit "constraint") (lower E (fst kv)) = false) /\
     contains (lit "constraint") (lower E k) = true) \/
  ((forall kv, In kv sections ->
      contains (lit "constraint") (lower E (fst kv)) = false) /\
   text = []).

(** Every match of the three templates, in template order, rendered and
    joined; nothing is removed. *)
Definition all_matches_joined (E : PyEnv) (constraints_text : pystr)
  : pystr :=
  join (lit "; ")
    (map render_match
       (re_findall (double_bounded E) constraints_text
          ++ re_findall (upper_bound E) constraints_text
          ++ re_findall (lower_bound E) constraints_text)).

(** The classifier in the words of the specification: the magnitude
    literals add to the hard and to the medium score, each on its own, and
    the decision is taken in the order hard, medium, easy. *)
Definition spec_difficulty (easy_score medium_score hard_score : Z)
    (constraints_text : pystr) (num hard_threshold medium_threshold : Z)
  : pystr :=
  let hard_score :=
    if contains (lit "10^9") constraints_text
       || contains (lit "10^8") constraints_text
    then (hard_score + 2)%Z else hard_score in
  let medium_score :=
    if contains (lit "10^6") constraints_text
       || contains (lit "10^5") constraints_text
    then (medium_score + 1)%Z else medium_score in
  if (0 <? hard_score)%Z || (hard_threshold <? num)%Z then Hard
  else if (easy_score <? medium_score)%Z || (medium_threshold <? num)%Z
  then Medium
  else Easy.

(** The text each classifier scores its keywords on. *)
Definition improved_content (E : PyEnv) (sections : PyDict.pydict) : pystr :=
  lower E
    (join (lit " ")
       [PyDict.get_default sections (lit "title") [];
        PyDict.get_default sections (lit "description") [];
        PyDict.get_default sections (lit "constraints") []]).

Definition legacy_content (E : PyEnv) (sections : PyDict.pydict) : pystr :=
  lower E
    (PyDict.get_default sections (lit "description") [] ++ lit " "
       ++ PyDict.get_default sections (lit "title") []).

(** A classifier behaves as stated when, the identifier number being [n],
    it returns what [spec_difficulty] says for its keyword scores, the
    constraints text of the map and its two thresholds. *)
Definition difficulty_as_stated (E : PyEnv)
    (assess : PyDict.pydict -> pystr -> outcome pystr)
    (content : PyDict.pydict -> pystr)
    (easy medium hard : list pystr) (hard_threshold medium_threshold : Z)
    (sections : PyDict.pydict) (problem_id : pystr) : Prop :=
  forall n,
    problem_num E problem_id = Return n ->
    assess sections problem_id =
      Return
        (spec_difficulty
           (keyword_score easy (content sections))
           (keyword_score medium (content sections))
           (keyword_score hard (content sections))
           (PyDict.get_default sections (lit "constraints") [])
           n hard_threshold medium_threshold).

(** The legacy classifier has the same decision order and no magnitude
    heuristic: it is [spec_difficulty] on an empty constraints text. *)
Definition difficulty_without_magnitude (E : PyEnv)
    (assess : PyDict.pydict -> pystr -> outcome pystr)
    (content : PyDict.pydict -> pystr)
    (easy medium hard : list pystr) (hard_threshold medium_threshold : Z)
    (sections : PyDict.pydict) (problem_id : pystr) : Prop :=
  forall n,
    problem_num E problem_id = Return n ->
    assess sections problem_id =
      Return
        (spec_difficulty
           (keyword_score easy (content sections))
           (keyword_score medium (content sections))
           (keyword_score hard (content sections))
           [] n hard_threshold medium_threshold).

(** The fallback in the words of the specification: when the directly
    collected text is shorter than 50 characters, the description is the
    output of the comment harvester. *)
Definition description_replaced_by_comments (E : PyEnv) (text : pystr)
  : Prop :=
  forall contents sections,
    html_parse E text = inl contents ->
    extract_sections_from_html_improved E text = Return sections ->
    let soup := BeautifulSoup contents in
    length (join (lit " ") (direct_description_parts E soup)) < 50 ->
    PyDict.get sections (lit "description")
    = Some (extract_from_comments E soup).

(* ================================================================= *)
(** ** A small concrete environment

    The ASCII part of the character database (with the superscript digits
    of Latin-1, which are digits without being decimal), a parser for
    well-nested markup without attributes or entities that rejects
    markup with a marked section, the matching serializer, a handful of
    files, and an output stream that takes every line.  It is what the
    examples below run on. *)

Module Sample.

Definition between (lo hi c : char) : bool := (lo <=? c)%N && (c <=? hi)%N.

Definition isspace (c : char) : bool :=
  between 9%N 13%N c || between 28%N 32%N c.

Definition decimal (c : char) : option N :=
  if between 48%N 57%N c then Some (c - 48)%N else None.

(** U+00B2, U+00B3, U+00B9: superscript two, three, one. *)
Definition isdigit (c : char) : bool :=
  between 48%N 57%N c || existsb (N.eqb c) [178; 179; 185]%N.

Definition isalnum (c : char) : bool :=
  between 48%N 57%N c || between 65%N 90%N c || between 97%N 122%N c.

Definition lower_char (c : char) : char :=
  if between 65%N 90%N c then (c + 32)%N else c.

Definition lower (s : pystr) : pystr := map lower_char s.

Definition re_ci_eq (a b : char) : bool :=
  N.eqb (lower_char a) (lower_char b).

(** Tokens of the markup subset. *)
Inductive token :=
| TOpen (name : pystr)
| TClose (name : pystr)
| TText (s : pystr)
| TComment (s : pystr).

Inductive lex_mode := InText | InOpen | InClose | InComment.

Definition emit_text (acc : pystr) : list token :=
  match acc with [] => [] | _ :: _ => [TText (rev acc)] end.

(** A [<] opens a tag only in front of a letter. *)
Definition starts_with_letter (s : pystr) : bool :=
  match s with
  | c :: _ => between 65%N 90%N c || between 97%N 122%N c
  | [] => false
  end.

Fixpoint lex (s acc : pystr) (mode : lex_mode) (skip : nat) : list token :=
  match s with
  | [] => match mode with InText => emit_text acc | _ => [] end
  | c :: r =>
      match skip with
      | S k => lex r acc mode k
      | O =>
          match mode with
          | InText =>
              if startswith (lit "<!--") s
              then emit_text acc ++ lex r [] InComment 3
              else if startswith (lit "</") s
              then emit_text acc ++ lex r [] InClose 1
              else if N.eqb c 60%N && starts_with_letter r
              then emit_text acc ++ lex r [] InOpen 0
              else lex r (c :: acc) InText 0
          | InOpen =>
              if N.eqb c 62%N then TOpen (lower (rev acc)) :: lex r [] InText 0
              else lex r (c :: acc) InOpen 0
          | InClose =>
              if N.eqb c 62%N then TClose (lower (rev acc)) :: lex r [] InText 0
              else lex r (c :: acc) InClose 0
          | InComment =>
              if startswith (lit "-->") s
              then TComment (rev acc) :: lex r [] InText 2
              else lex r (c :: acc) InComment 0
          end
      end
  end.

(** Tags still open at the end of input are closed there. *)
Fixpoint close_all (stack : list (pystr * list node)) (cur : list node)
  : list node :=
  match stack with
  | [] => rev cur
  | (name, above) :: stack' =>
      close_all stack' (Tag name (rev cur) :: above)
  end.

Fixpoint build (toks : list token) (stack : list (pystr * list node))
    (cur : list node) : list node :=
  match toks with
  | [] => close_all stack cur
  | TOpen name :: r => build r ((name, cur) :: stack) []
  | TClose _ :: r =>
      match stack with
      | (name, above) :: stack' =>
          build r stack' (Tag name (rev cur) :: above)
      | [] => build r [] cur
      end
  | TText s :: r => build r stack (Str NavigableString s :: cur)
  | TComment s :: r => build r stack (Str Comment s :: cur)
  end.

(** Every markup with a marked section is rejected here; [html.parser]
    rejects those with a keyword it does not know, as in [<![foo]>].  The
    message stands for the parser's. *)
Definition html_parse (markup : pystr) : list node + pystr * pystr :=
  if contains (lit "<![") markup
  then inr (lit "ParserRejectedMarkup",
            lit "unknown status keyword in marked section")
  else inl (build (lex markup [] InText 0) [] []).

Fixpoint decode (n : node) : pystr :=
  match n with
  | Str Comment s => lit "<!--" ++ s ++ lit "-->"
  | Str _ s => s
  | Tag name cs =>
      let inner :=
        (fix go (l : list node) : pystr :=
           match l with
           | [] => []
           | c :: r => decode c ++ go r
           end) cs in
      if PyStr.eqb name (lit "[document]") then inner
      else lit "<" ++ name ++ lit ">" ++ inner
             ++ lit "</" ++ name ++ lit ">"
  end.

(** U+2264. *)
Definition le_sign : pystr := [8804%N].

Definition doc_add_two_numbers : pystr :=
  lit "<h1>Add Two Numbers</h1><h2>Constraints</h2><p>1 " ++ le_sign
    ++ lit " N " ++ le_sign ++ lit " 100</p>".

Definition doc_only_body : pystr := lit "<body><p>Some text</p></body>".

Definition doc_problem_a : pystr := lit "<h1>Problem A: Sum</h1>".

Definition doc_sparse : pystr :=
  lit "<h2>Input</h2><p>Short text</p><!-- A hidden statement that is long enough -->".

Definition doc_samples : pystr :=
  lit "<h1>Echo</h1><p>Print the given line once more, exactly as it was read from the input.</p><h2>Constraints</h2><p>N <= 10^5</p><h2>Sample Input</h2><pre>abc</pre><h2>Sample Output</h2><pre>abc</pre>".

Definition doc_marked_section : pystr :=
  lit "<h1>T</h1><![foo]><p>x</p>".

Definition doc_two_headings : pystr :=
  lit "<h1> </h1><h1>Add  Two</h1>".

Definition files : list (pystr * pystr) :=
  [ (lit "doc/p00001.html", doc_add_two_numbers);
    (lit "doc/p00002.html", doc_only_body);
    (lit "doc/p00003.html", doc_problem_a);
    (lit "doc/p00004.html", doc_sparse);
    (lit "doc/p00005.html", doc_samples);
    (lit "doc/p" ++ [178%N] ++ lit ".html", doc_add_two_numbers);
    (lit "doc/blank.html", [32; 10; 9; 32]%N);
    (lit "doc/p00009.html", doc_marked_section);
    (lit "doc/p00010.html", doc_two_headings) ].

Definition read_text (path : pystr) : pystr + pystr :=
  match PyDict.get files path with
  | Some text => inl text
  | None =>
      inr (lit "[Errno 2] No such file or directory: '" ++ path ++ lit "'")
  end.

Definition stdout_write (line : pystr) : option exn := None.

Definition env : PyEnv :=
  Build_PyEnv isspace isdigit decimal isalnum lower re_ci_eq
    html_parse decode read_text stdout_write.



End Sample.

(** Two section maps for the example extractors. *)
Definition sections_two_samples : PyDict.pydict :=
  [ (lit "sample input", lit "1 2"); (lit "sample output", lit "3");
    (lit "sample input 2", lit "4 5"); (lit "sample output 2", lit "9") ].

Definition sections_one_sample : PyDict.pydict :=
  [ (lit "description", lit "Add.");
    (lit "sample input", lit " 1 2 "); (lit "sample output", lit "3") ].

Definition sections_empty_samples : PyDict.pydict :=
  [ (lit "title", lit "T");
    (lit "sample input", []); (lit "sample output", lit "  ") ].

(** What the argmax loop of the categorizers decides, for a table and a
    content: the default when no category scores, otherwise the first
    category with the highest score. *)
Definition first_best (table : list (pystr * list pystr)) (content r : pystr)
  : Prop :=
  (r = lit "Implementation" /\
   forall c, In c table -> keyword_score (snd c) content = 0%Z) \/
  (exists before kws after,
     table = before ++ (r, kws) :: after /\
     (0 < keyword_score kws content)%Z /\
     (forall c, In c before ->
        (keyword_score (snd c) content < keyword_score kws content)%Z) /\
     (forall c, In c after ->
        (keyword_score (snd c) content <= keyword_score kws content)%Z)).

(** No whitespace in front of a string, and none at either end. *)
Definition head_ok (isspace : char -> bool) (s : pystr) : bool :=
  match s with
  | [] => true
  | c :: _ => negb (isspace c)
  end.

Definition edges_ok (isspace : char -> bool) (s : pystr) : Prop :=
  head_ok isspace s = true /\ head_ok isspace (rev s) = true.

(** The sample environment with five more files: a document without any
    title, one with an "Input"/"Output" pair only, one whose constraints
    are in words, and two copies of the first document under other
    identifiers. *)
Module Sample2.

Definition doc_untitled : pystr :=
  lit "<h2>Input</h2><p>Two integers are given on one line.</p>".

Definition doc_generic_pair : pystr :=
  lit "<h1>Twice</h1><h2>Input</h2><pre>4</pre><h2>Output</h2><pre>8</pre>".

Definition doc_worded_constraints : pystr :=
  lit "<h1>Walk</h1><h2>Constraints</h2><p>N is at most 100</p>".

Definition files : list (pystr * pystr) :=
  Sample.files ++
  [ (lit "doc/p00006.html", doc_untitled);
    (lit "doc/p00007.html", doc_generic_pair);
    (lit "doc/p00008.html", doc_worded_constraints);
    (lit "doc/p02500.html", Sample.doc_add_two_numbers);
    (lit "doc/p03600.html", Sample.doc_add_two_numbers) ].

Definition read_text (path : pystr) : pystr + pystr :=
  match PyDict.get files path with
  | Some text => inl text
  | None =>
      inr (lit "[Errno 2] No such file or directory: '" ++ path ++ lit "'")
  end.

Definition env : PyEnv :=
  Build_PyEnv Sample.isspace Sample.isdigit Sample.decimal Sample.isalnum
    Sample.lower Sample.re_ci_eq Sample.html_parse Sample.decode read_text
    Sample.stdout_write.

End Sample2.

(* ================================================================= *)
(** ** Facts about strings and dictionaries *)

Lemma eqb_refl (s : pystr) : PyStr.eqb s s = true.
Proof.
  induction s as [|c s IH]; simpl; [reflexivity|].
  now rewrite N.eqb_refl, IH.
Qed.

Lemma eqb_eq (a b : pystr) : PyStr.eqb a b = true <-> a = b.
Proof.
  split.
  - revert b; induction a as [|x a IH]; intros [|y b]; simpl;
      try discriminate; [reflexivity|].
    intros H. apply andb_true_iff in H as [Hx Hab].
    apply N.eqb_eq in Hx. now rewrite Hx, (IH b Hab).
  - intros ->. apply eqb_refl.
Qed.

Lemma startswith_app (p s : pystr) : startswith p (p ++ s) = true.
Proof.
  induction p as [|c p IH]; simpl; [reflexivity|].
  now rewrite N.eqb_refl, IH.
Qed.

Lemma contains_unfold (needle hay : pystr) :
  contains needle hay =
  startswith needle hay ||
  match hay with [] => false | _ :: hay' => contains needle hay' end.
Proof. destruct hay; reflexivity. Qed.

Lemma contains_app (a p b : pystr) : contains p (a ++ p ++ b) = true.
Proof.
  induction a as [|c a IH].
  - simpl app. rewrite contains_unfold, startswith_app. reflexivity.
  - simpl. rewrite IH. apply orb_true_r.
Qed.

Lemma lstrip_blank (isspace : char -> bool) (s : pystr) :
  forallb isspace s = true -> lstrip isspace s = [].
Proof.
  induction s as [|c s IH]; simpl; [reflexivity|].
  intros H. apply andb_true_iff in H as [Hc Hs].
  rewrite Hc. exact (IH Hs).
Qed.

Lemma strip_blank (isspace : char -> bool) (s : pystr) :
  forallb isspace s = true -> strip isspace s = [].
Proof.
  intros H. unfold strip, rstrip. now rewrite (lstrip_blank _ _ H).
Qed.

Lemma lstrip_truthy (isspace : char -> bool) (s : pystr) :
  truthy (lstrip isspace s) = true -> truthy s = true.
Proof. destruct s; [discriminate|reflexivity]. Qed.

Lemma strip_truthy (isspace : char -> bool) (s : pystr) :
  truthy (strip isspace s) = true -> truthy s = true.
Proof.
  destruct s as [|c s]; [|reflexivity].
  unfold strip, rstrip. simpl. discriminate.
Qed.

Lemma get_set_same (d : PyDict.pydict) (k v : pystr) :
  PyDict.get (PyDict.set d k v) k = Some v.
Proof.
  induction d as [|[k' v'] d IH]; simpl.
  - now rewrite eqb_refl.
  - destruct (PyStr.eqb k' k) eqn:Hk; simpl; rewrite Hk; [reflexivity|exact IH].
Qed.

Lemma get_set_other (d : PyDict.pydict) (k k' v : pystr) :
  PyStr.eqb k k' = false ->
  PyDict.get (PyDict.set d k v) k' = PyDict.get d k'.
Proof.
  intros Hkk'. induction d as [|[k0 v0] d IH]; simpl.
  - now rewrite Hkk'.
  - destruct (PyStr.eqb k0 k) eqn:Hk; simpl.
    + apply eqb_eq in Hk. subst k0. now rewrite Hkk'.
    + destruct (PyStr.eqb k0 k'); [reflexivity|exact IH].
Qed.

Lemma has_get_default (d : PyDict.pydict) (k : pystr) :
  PyDict.has d k = truthy (PyDict.get_default d k []).
Proof. unfold PyDict.has, PyDict.get_default. now destruct (PyDict.get d k). Qed.

(* ================================================================= *)
(** ** Faults stop at the document boundary *)

Section Boundary.
Variable E : PyEnv.

Lemma bind_raises (A B : Type) (m : outcome A) (k : A -> outcome B)
    (e : exn) :
  bind m k = Raise e ->
  m = Raise e \/ exists a, m = Return a /\ k a = Raise e.
Proof.
  destruct m as [a|e']; cbn.
  - intros H. right. now exists a.
  - intros [= <-]. now left.
Qed.

Lemma problem_num_raises (problem_id : pystr) (e : exn) :
  problem_num E problem_id = Raise e -> is_Exception e = true.
Proof.
  unfold problem_num, int_of_digits.
  destruct (str_isdigit E (tl problem_id)); [|discriminate].
  destruct (tl problem_id); [intros [= <-]; reflexivity|].
  destruct (int_digits E 0 (c :: l)); [discriminate|].
  intros [= <-]. reflexivity.
Qed.

Lemma open_read_raises (file_path : pystr) (e : exn) :
  open_read E file_path = Raise e -> is_Exception e = true.
Proof.
  unfold open_read. destruct (read_text E file_path); [discriminate|].
  intros [= <-]. reflexivity.
Qed.

Lemma parse_markup_raises (markup : pystr) (e : exn) :
  parse_markup E markup = Raise e -> is_Exception e = true.
Proof.
  unfold parse_markup.
  destruct (html_parse E markup) as [contents|[cls msg]]; [discriminate|].
  intros [= <-]. reflexivity.
Qed.

Lemma clean_html_text_raises (html_content : pystr) (e : exn) :
  clean_html_text E html_content = Raise e -> is_Exception e = true.
Proof.
  unfold clean_html_text. destruct (negb _); [discriminate|].
  intros H. apply bind_raises in H as [H|[soup [_ H]]]; [|discriminate].
  exact (parse_markup_raises _ H).
Qed.

Lemma extract_title_flexible_raises (soup : node) (e : exn) :
  extract_title_flexible E soup = Raise e -> is_Exception e = true.
Proof.
  unfold extract_title_flexible. intros H.
  apply bind_raises in H as [H|[from_h1 [_ H]]];
    [|destruct from_h1; discriminate].
  unfold title_from_h1 in H.
  destruct (find _ soup) as [title_tag|]; [|discriminate].
  destruct (truthy _); [|discriminate].
  apply bind_raises in H as [H|[title [_ H]]]; [|discriminate].
  exact (clean_html_text_raises _ H).
Qed.

Lemma improved_sections_raises (html_content : pystr) (e : exn) :
  extract_sections_from_html_improved E html_content = Raise e ->
  is_Exception e = true.
Proof.
  unfold extract_sections_from_html_improved. intros H.
  apply bind_raises in H as [H|[soup [_ H]]];
    [exact (parse_markup_raises _ H)|].
  apply bind_raises in H as [H|[title [_ H]]]; [|discriminate].
  exact (extract_title_flexible_raises _ H).
Qed.

Lemma legacy_h2_loop_raises (h2_tags : list element)
    (sections : PyDict.pydict) (e : exn) :
  legacy_h2_loop E h2_tags sections = Raise e -> is_Exception e = true.
Proof.
  revert sections. induction h2_tags as [|h2 rest IH]; intros sections;
    cbn [legacy_h2_loop]; [discriminate|].
  intros H. apply bind_raises in H as [H|[sections' [_ H]]];
    [|exact (IH _ H)].
  unfold legacy_h2_step in H.
  apply bind_raises in H as [H|[cleaned [_ H]]]; [|discriminate].
  exact (clean_html_text_raises _ H).
Qed.

Lemma legacy_sections_raises (html_content : pystr) (e : exn) :
  extract_sections_from_html E html_content = Raise e ->
  is_Exception e = true.
Proof.
  unfold extract_sections_from_html. intros H.
  apply bind_raises in H as [H|[soup [_ H]]];
    [exact (parse_markup_raises _ H)|].
  apply bind_raises in H as [H|[sections [_ H]]].
  - destruct (find _ soup) as [t|]; [|discriminate].
    apply bind_raises in H as [H|[title [_ H]]]; [|discriminate].
    exact (clean_html_text_raises _ H).
  - exact (legacy_h2_loop_raises _ _ H).
Qed.

Lemma build_problem_improved_raises file_path problem_id sections e :
  build_problem_improved E file_path problem_id sections = Raise e ->
  problem_num E problem_id = Raise e.
Proof.
  unfold build_problem_improved, assess_difficulty_improved.
  destruct (problem_num E problem_id) as [n|e']; simpl.
  - destruct (_ || _); [discriminate|].
    destruct (_ || _); discriminate.
  - intros [= <-]. reflexivity.
Qed.

Lemma build_problem_legacy_raises file_path problem_id sections e :
  build_problem_legacy E file_path problem_id sections = Raise e ->
  problem_num E problem_id = Raise e.
Proof.
  unfold build_problem_legacy, assess_difficulty.
  destruct (problem_num E problem_id) as [n|e']; simpl.
  - discriminate.
  - intros [= <-]. reflexivity.
Qed.

Lemma improved_body_raises (file_path : pystr) (e : exn) :
  extract_problem_improved_body E file_path = Raise e ->
  is_Exception e = true.
Proof.
  unfold extract_problem_improved_body. intros H.
  apply bind_raises in H as [H|[text [_ H]]];
    [exact (open_read_raises _ H)|].
  destruct (negb (truthy (py_strip E text))); [discriminate|].
  apply bind_raises in H as [H|[sections [_ H]]];
    [exact (improved_sections_raises _ H)|].
  destruct (_ && _); [discriminate|].
  apply bind_raises in H as [H|[p [_ H]]]; [|discriminate].
  apply build_problem_improved_raises in H.
  exact (problem_num_raises _ H).
Qed.

Lemma legacy_body_raises (file_path : pystr) (e : exn) :
  extract_problem_from_html_file_body E file_path = Raise e ->
  is_Exception e = true.
Proof.
  unfold extract_problem_from_html_file_body. intros H.
  apply bind_raises in H as [H|[text [_ H]]];
    [exact (open_read_raises _ H)|].
  destruct (negb (truthy (py_strip E text))); [discriminate|].
  apply bind_raises in H as [H|[sections [_ H]]];
    [exact (legacy_sections_raises _ H)|].
  destruct (negb _); [discriminate|].
  apply bind_raises in H as [H|[p [_ H]]]; [|discriminate].
  apply build_problem_legacy_raises in H.
  exact (problem_num_raises _ H).
Qed.

Lemma report_error_cases (file_path : pystr) (e : exn) :
  match stdout_write E (error_line file_path e) with
  | None =>
      report_error E file_path e
      = Run (Return None) [error_line file_path e]
  | Some e' => report_error E file_path e = Run (Raise e') []
  end.
Proof.
  unfold report_error, py_print.
  now destruct (stdout_write E (error_line file_path e)).
Qed.

Lemma try_except_guarded file_path body :
  (forall e, body = Raise e -> is_Exception e = true) ->
  guarded E file_path body
    (try_except_Exception body (report_error E file_path)).
Proof.
  intros Hexc. destruct body as [v|e]; [reflexivity|].
  unfold guarded, try_except_Exception. rewrite (Hexc e eq_refl).
  split; [reflexivity|].
  split; [exact (contains_app (lit "Error processing ") file_path _)|].
  apply report_error_cases.
Qed.

Lemma guarded_raises file_path body call e :
  guarded E file_path body call ->
  result call = Raise e ->
  exists e0,
    body = Raise e0 /\ stdout_write E (error_line file_path e0) = Some e.
Proof.
  unfold guarded. destruct body as [v|e0].
  - intros ->. discriminate.
  - intros (_ & _ & H) Hcall. exists e0. split; [reflexivity|].
    destruct (stdout_write E (error_line file_path e0)) as [e'|];
      rewrite H in Hcall; cbn in Hcall; congruence.
Qed.



(** C2. A document whose text is empty or all whitespace gives [None] from
    both entry points, with nothing printed. *)
Theorem C2_blank_document_is_absent (file_path text : pystr) :
  read_text E file_path = inl text ->
  forallb (isspace E) text = true ->
  extract_problem_improved E file_path = Run (Return None) [] /\
  extract_problem_from_html_file E file_path = Run (Return None) [].
Proof.
  intros Hread Hblank.
  unfold extract_problem_improved, extract_problem_from_html_file,
    extract_problem_improved_body, extract_problem_from_html_file_body,
    open_read, py_strip.
  rewrite Hread. simpl. rewrite (strip_blank _ _ Hblank). simpl.
  split; reflexivity.
Qed.

End Boundary.

(** Three faults of the improved entry point on the sample files: a missing
    file, an identifier whose digit is not decimal, and a document the
    parser rejects. *)
Example boundary_faults_sample :
  extract_problem_improved Sample.env (lit "doc/missing.html") =
    Run (Return None)
      [lit "Error processing doc/missing.html: [Errno 2] No such file or directory: 'doc/missing.html'"]
  /\
  extract_problem_improved Sample.env (lit "doc/p" ++ [178%N] ++ lit ".html") =
    Run (Return None)
      [lit "Error processing doc/p" ++ [178%N]
         ++ lit ".html: invalid literal for int() with base 10: '"
         ++ [178%N] ++ lit "'"]
  /\
  (exists msg,
     extract_problem_improved Sample.env (lit "doc/p00009.html") =
       Run (Return None) [lit "Error processing doc/p00009.html: " ++ msg])
  /\
  (exists msg,
     extract_problem_from_html_file Sample.env (lit "doc/p00009.html") =
       Run (Return None) [lit "Error processing doc/p00009.html: " ++ msg]).
Proof.
  split; [vm_compute; reflexivity|]. split; [vm_compute; reflexivity|].
  split; eexists; vm_compute; reflexivity.
Qed.



Lemma C2_blank_document_witness :
  extract_problem_improved Sample.env (lit "doc/blank.html")
    = Run (Return None) [] /\
  extract_problem_from_html_file Sample.env (lit "doc/blank.html")
    = Run (Return None) [].
Proof.
  apply (@C2_blank_document_is_absent Sample.env (lit "doc/blank.html")
           [32; 10; 9; 32]%N); reflexivity.
Defined.

(* ================================================================= *)
(** ** When a document is rejected *)

Section Rejection.
Variable E : PyEnv.

Lemma guarded_build (file_path : pystr) (b : outcome problem) :
  (forall e, b = Raise e -> problem_num E (path_stem file_path) = Raise e) ->
  let call :=
    try_except_Exception (p <- b ;; Return (Some p))
      (report_error E file_path) in
  call <> Run (Return None) [] /\
  (forall n, problem_num E (path_stem file_path) = Return n ->
   exists p, call = Run (Return (Some p)) []).
Proof.
  intros Hb. destruct b as [p|e]; cbn [bind try_except_Exception].
  - split; [discriminate|]. intros _ _. now exists p.
  - pose proof (Hb e eq_refl) as Hnum.
    rewrite (problem_num_raises _ _ Hnum).
    pose proof (report_error_cases E file_path e) as Hr.
    destruct (stdout_write E (error_line file_path e)); rewrite Hr;
      (split; [discriminate|]); intros n Hn; congruence.
Qed.

(** C3, as the code has it.  A readable, non-blank document has three
    outcomes.  When the segmenter returns a section map, the improved entry
    point follows the rejection rule as stated, and the legacy entry point
    rejects exactly when no title is recoverable, whatever the description.
    When the segmenter raises (the parser rejects the markup), either
    entry point gives neither a silent [None] nor a record: it prints the
    diagnostic and returns [None]. *)
Theorem C3_rejection_rule (file_path text : pystr) :
  read_text E file_path = inl text ->
  truthy (py_strip E text) = true ->
  (forall sections,
     extract_sections_from_html_improved E text = Return sections ->
     rejection_rule_as_stated E sections
       (extract_problem_improved E) file_path) /\
  (forall sections,
     extract_sections_from_html E text = Return sections ->
     rejection_rule_legacy E sections
       (extract_problem_from_html_file E) file_path) /\
  (forall e,
     extract_sections_from_html_improved E text = Raise e ->
     fault_outcome E (extract_problem_improved E) file_path e) /\
  (forall e,
     extract_sections_from_html E text = Raise e ->
     fault_outcome E (extract_problem_from_html_file E) file_path e).
Proof.
  intros Hread Hnonblank.
  unfold rejection_rule_as_stated, rejection_rule_legacy, fault_outcome,
    extract_problem_improved, extract_problem_from_html_file,
    extract_problem_improved_body, extract_problem_from_html_file_body,
    open_read.
  rewrite Hread. cbn [bind]. rewrite Hnonblank. cbn [negb].
  split; [|split; [|split]].
  - intros s ->. cbn [bind].
    pose proof (@guarded_build file_path
                  (build_problem_improved E file_path (path_stem file_path) s)
                  (@build_problem_improved_raises E _ _ _)) as [Hne Hsome].
    destruct (PyDict.has s (lit "title")), (PyDict.has s (lit "description"));
      cbn [negb andb]; (split; [split|]).
    all: try (intros H; exfalso; exact (Hne H)).
    all: try (intros [? ?]; discriminate).
    all: try (intros _; exact Hsome).
    + intros _. split; reflexivity.
    + reflexivity.
    + intros [?|?]; discriminate.
  - intros s ->. cbn [bind].
    pose proof (@guarded_build file_path
                  (build_problem_legacy E file_path (path_stem file_path) s)
                  (@build_problem_legacy_raises E _ _ _)) as [Hne Hsome].
    destruct (PyDict.has s (lit "title")); cbn [negb]; (split; [split|]).
    all: try (intros H; exfalso; exact (Hne H)).
    all: try discriminate.
    all: try (intros _; exact Hsome).
    all: reflexivity.
  - intros e He. rewrite He. cbn [bind try_except_Exception].
    rewrite (improved_sections_raises _ _ He).
    apply report_error_cases.
  - intros e He. rewrite He. cbn [bind try_except_Exception].
    rewrite (legacy_sections_raises _ _ He).
    apply report_error_cases.
Qed.

End Rejection.

(** The three outcomes on the sample files: the rule on a document with a
    heading, the diagnostic on the document the parser rejects. *)
Lemma C3_rejection_rule_witness :
  ((forall sections,
      extract_sections_from_html_improved Sample.env
        Sample.doc_add_two_numbers = Return sections ->
      rejection_rule_as_stated Sample.env sections
        (extract_problem_improved Sample.env) (lit "doc/p00001.html")) /\
   (forall sections,
      extract_sections_from_html Sample.env
        Sample.doc_add_two_numbers = Return sections ->
      rejection_rule_legacy Sample.env sections
        (extract_problem_from_html_file Sample.env)
        (lit "doc/p00001.html"))) /\
  exists msg,
    extract_problem_improved Sample.env (lit "doc/p00009.html")
    = Run (Return None) [lit "Error processing doc/p00009.html: " ++ msg].
Proof.
  split.
  - pose proof (@C3_rejection_rule Sample.env (lit "doc/p00001.html")
                  Sample.doc_add_two_numbers eq_refl eq_refl)
      as (Hi & Hl & _).
    exact (conj Hi Hl).
  - pose proof (@C3_rejection_rule Sample.env (lit "doc/p00009.html")
                  Sample.doc_marked_section eq_refl eq_refl)
      as (_ & _ & Hf & _).
    eexists.
    exact (Hf (ExceptionOf (lit "ParserRejectedMarkup")
                 (lit "unknown status keyword in marked section"))
              eq_refl).
Defined.

(** The legacy entry point breaks the rule as stated on a document with a
    body and no heading: the description is recovered ("Some text"), the
    identifier parses, and the result is [None]. *)
Lemma C3_legacy_rejects_without_title :
  extract_sections_from_html Sample.env Sample.doc_only_body
    = Return [(lit "description", lit "Some text")] /\
  ~ rejection_rule_as_stated Sample.env
      [(lit "description", lit "Some text")]
      (extract_problem_from_html_file Sample.env) (lit "doc/p00002.html").
Proof.
  split; [vm_compute; reflexivity|].
  intros [_ Hrecord].
  destruct (Hrecord (or_intror eq_refl) 2%Z eq_refl) as [p Hp].
  vm_compute in Hp. discriminate Hp.
Qed.

(* ================================================================= *)
(** ** What an emitted record looks like *)

Section Records.
Variable E : PyEnv.

Lemma handler_gives_no_record (file_path : pystr) (e : exn) (p : problem) :
  result (try_except_Exception (Raise e) (report_error E file_path))
  <> Return (Some p).
Proof.
  unfold try_except_Exception.
  pose proof (report_error_cases E file_path e) as Hr.
  destruct (is_Exception e); [|discriminate].
  destruct (stdout_write E (error_line file_path e)); rewrite Hr;
    discriminate.
Qed.

Lemma improved_record_inv (file_path : pystr) (p : problem) :
  result (extract_problem_improved E file_path) = Return (Some p) ->
  exists text sections difficulty,
    read_text E file_path = inl text /\
    truthy (py_strip E text) = true /\
    extract_sections_from_html_improved E text = Return sections /\
    p = assemble_improved E file_path (path_stem file_path)
          (with_fallback_title sections (path_stem file_path))
          difficulty.
Proof.
  unfold extract_problem_improved, extract_problem_improved_body, open_read.
  destruct (read_text E file_path) as [text|msg]; cbn [bind];
    [|intros H; exfalso; exact (@handler_gives_no_record _ _ _ H)].
  destruct (truthy (py_strip E text)) eqn:Hnb; cbn [negb];
    [|cbn; discriminate].
  destruct (extract_sections_from_html_improved E text) as [sections|e]
    eqn:Hsec; cbn [bind];
    [|intros H; exfalso; exact (@handler_gives_no_record _ _ _ H)].
  destruct (_ && _); [cbn; discriminate|].
  unfold build_problem_improved.
  destruct (assess_difficulty_improved _ _ _) as [d|e]; cbn [bind];
    [|intros H; exfalso; exact (@handler_gives_no_record _ _ _ H)].
  cbn. intros [= <-]. now exists text, sections, d.
Qed.

Lemma legacy_record_inv (file_path : pystr) (p : problem) :
  result (extract_problem_from_html_file E file_path) = Return (Some p) ->
  exists text sections difficulty,
    read_text E file_path = inl text /\
    truthy (py_strip E text) = true /\
    extract_sections_from_html E text = Return sections /\
    PyDict.has sections (lit "title") = true /\
    p = assemble_legacy E file_path (path_stem file_path)
          sections difficulty.
Proof.
  unfold extract_problem_from_html_file,
    extract_problem_from_html_file_body, open_read.
  destruct (read_text E file_path) as [text|msg]; cbn [bind];
    [|intros H; exfalso; exact (@handler_gives_no_record _ _ _ H)].
  destruct (truthy (py_strip E text)) eqn:Hnb; cbn [negb];
    [|cbn; discriminate].
  destruct (extract_sections_from_html E text) as [sections|e]
    eqn:Hsec; cbn [bind];
    [|intros H; exfalso; exact (@handler_gives_no_record _ _ _ H)].
  destruct (PyDict.has _ _) eqn:Htitle; cbn [negb]; [|cbn; discriminate].
  unfold build_problem_legacy.
  destruct (assess_difficulty _ _ _) as [d|e]; cbn [bind];
    [|intros H; exfalso; exact (@handler_gives_no_record _ _ _ H)].
  cbn. intros [= <-]. now exists text, sections, d.
Qed.

Lemma has_with_fallback_title (sections : PyDict.pydict) (id : pystr) :
  PyDict.has (with_fallback_title sections id) (lit "title") = true.
Proof.
  unfold with_fallback_title.
  destruct (PyDict.has sections (lit "title")) eqn:H; cbn [negb];
    [exact H|].
  unfold PyDict.has. now rewrite get_set_same.
Qed.

Lemma get_default_truthy (d : PyDict.pydict) (k dflt : pystr) :
  PyDict.has d k = true ->
  PyDict.get_default d k dflt = PyDict.get_default d k [].
Proof.
  unfold PyDict.has, PyDict.get_default.
  destruct (PyDict.get d k); [reflexivity|discriminate].
Qed.

End Records.

(* ================================================================= *)
(** ** Confidence *)

Lemma confidence_score_spec (t d e c : bool) :
  confidence_score t d e c = spec_confidence t d e c.
Proof. destruct t, d, e, c; reflexivity. Qed.

Lemma spec_confidence_range (t d e c : bool) :
  PrimFloat.leb 0 (spec_confidence t d e c) = true /\
  PrimFloat.leb (spec_confidence t d e c) 1 = true.
Proof. destruct t, d, e, c; split; reflexivity. Qed.

Lemma spec_confidence_monotone (t d e c t' d' e' c' : bool) :
  (t = true -> t' = true) -> (d = true -> d' = true) ->
  (e = true -> e' = true) -> (c = true -> c' = true) ->
  PrimFloat.leb (spec_confidence t d e c) (spec_confidence t' d' e' c')
  = true.
Proof.
  intros Ht Hd He Hc.
  destruct t, d, e, c, t', d', e', c'; try reflexivity; exfalso;
    first [ discriminate (Ht eq_refl) | discriminate (Hd eq_refl)
          | discriminate (He eq_refl) | discriminate (Hc eq_refl) ].
Qed.

Lemma improved_confidence (E : PyEnv) (file_path : pystr) (p : problem) :
  result (extract_problem_improved E file_path) = Return (Some p) ->
  record_has_title p = true /\
  confidence (metadata p) =
    confidence_score (record_has_title p) (record_long_description p)
      (record_has_examples p) (record_has_constraints p).
Proof.
  intros H. apply improved_record_inv in H as (text & secs & d & _ & _ & _ & ->).
  set (s := with_fallback_title _ _).
  pose proof (has_with_fallback_title secs (path_stem file_path)) as Ht.
  fold s in Ht.
  unfold record_has_title, record_long_description, record_has_examples,
    record_has_constraints, assemble_improved.
  cbn [title basicInfo description metadata confidence examples
       constraints inputConstraints ic_description].
  rewrite (get_default_truthy _ _ (lit "Problem " ++ path_stem file_path) Ht).
  rewrite <- !has_get_default. split; [exact Ht|reflexivity].
Qed.

(** C4. The confidence of every record the improved pipeline emits is 0.5
    plus 0.1 (title), 0.2 (description longer than 50 characters), 0.2 (an
    example pair), 0.1 (constraints text), capped at 1.0, in binary64
    arithmetic and with the attributes read off the record itself; the
    score lies in [0, 1] and does not decrease when an attribute becomes
    present. *)
Theorem C4_confidence_formula (E : PyEnv) (file_path : pystr) (p : problem) :
  result (extract_problem_improved E file_path) = Return (Some p) ->
  confidence (metadata p) =
    spec_confidence (record_has_title p) (record_long_description p)
      (record_has_examples p) (record_has_constraints p) /\
  PrimFloat.leb 0 (confidence (metadata p)) = true /\
  PrimFloat.leb (confidence (metadata p)) 1 = true /\
  forall t d e c t' d' e' c' : bool,
    (t = true -> t' = true) -> (d = true -> d' = true) ->
    (e = true -> e' = true) -> (c = true -> c' = true) ->
    PrimFloat.leb (spec_confidence t d e c) (spec_confidence t' d' e' c')
    = true.
Proof.
  intros H. apply improved_confidence in H as [_ ->].
  rewrite confidence_score_spec.
  repeat split; try apply spec_confidence_range.
  apply spec_confidence_monotone.
Qed.

Lemma C4_confidence_formula_witness :
  exists p,
    result (extract_problem_improved Sample.env (lit "doc/p00005.html"))
      = Return (Some p) /\
    confidence (metadata p) = 1.0%float /\
    confidence (metadata p) =
      spec_confidence (record_has_title p) (record_long_description p)
        (record_has_examples p) (record_has_constraints p).
Proof.
  eexists. split; [vm_compute; reflexivity|].
  split; [reflexivity|].
  refine (proj1 (@C4_confidence_formula Sample.env (lit "doc/p00005.html")
                   _ _)).
  vm_compute. reflexivity.
Defined.

(** C10. Every record of the improved pipeline has confidence 0.6, 0.7,
    0.8, 0.9 or 1.0: the title increment always applies, so the score is at
    least 0.6 and the report never counts such a record as "low". *)
Theorem C10_confidence_at_least_0_6 (E : PyEnv) (file_path : pystr)
    (p : problem) :
  result (extract_problem_improved E file_path) = Return (Some p) ->
  record_has_title p = true /\
  In (confidence (metadata p)) [0.6; 0.7; 0.8; 0.9; 1.0]%float /\
  PrimFloat.leb 0.6 (confidence (metadata p)) = true /\
  confidence_level (confidence (metadata p)) <> lit "low".
Proof.
  intros H. apply improved_confidence in H as [Ht ->]. rewrite Ht.
  split; [reflexivity|].
  destruct (record_long_description p), (record_has_examples p),
    (record_has_constraints p);
    (split; [cbn; tauto | split; [reflexivity | vm_compute; discriminate]]).
Qed.

Lemma C10_confidence_witness :
  exists p,
    result (extract_problem_improved Sample.env (lit "doc/p00004.html"))
      = Return (Some p) /\
    confidence (metadata p) = 0.6%float /\
    confidence_level (confidence (metadata p)) <> lit "low".
Proof.
  eexists. split; [vm_compute; reflexivity|].
  split; [reflexivity|].
  refine (proj2 (proj2 (proj2
            (@C10_confidence_at_least_0_6 Sample.env (lit "doc/p00004.html")
               _ _)))).
  vm_compute. reflexivity.
Defined.

(* ================================================================= *)
(** ** The title of a record *)

Section Titles.
Variable E : PyEnv.

Lemma fill_sections_other (soup : node) (sections : PyDict.pydict)
    (k : pystr) :
  forallb (fun m => negb (PyStr.eqb (fst m) k)) (section_mappings) = true ->
  PyDict.get (fill_sections E soup sections) k = PyDict.get sections k.
Proof.
  unfold fill_sections. generalize section_mappings as ms. intros ms.
  revert sections. induction ms as [|m ms IH]; intros sections Hk;
    [reflexivity|].
  cbn [forallb] in Hk. apply andb_true_iff in Hk as [Hm Hms].
  cbn [fold_left]. rewrite (IH _ Hms).
  destruct (first_content E soup (snd m)); [|reflexivity].
  apply get_set_other. now apply negb_true_iff.
Qed.

Lemma improved_title_from_h1 (text : pystr) (contents : list node)
    (h1 : element) (t : pystr) (sections : PyDict.pydict) :
  html_parse E text = inl contents ->
  find [lit "h1"] (BeautifulSoup contents) = Some h1 ->
  truthy (py_strip E (get_text (el_node h1))) = true ->
  clean_html_text E (decode E (el_node h1)) = Return t ->
  truthy t = true ->
  extract_sections_from_html_improved E text = Return sections ->
  PyDict.get sections (lit "title") = Some t.
Proof.
  intros Hparse Hfind Htext Hclean Ht.
  unfold extract_sections_from_html_improved, parse_markup.
  rewrite Hparse. cbn [bind].
  unfold extract_title_flexible, title_from_h1.
  rewrite Hfind, Htext, Hclean. cbn [bind]. rewrite Ht.
  set (soup := BeautifulSoup contents). intros Hsec.
  assert (sections =
            fill_sections E soup
              (PyDict.set (PyDict.set [] (lit "title") t)
                 (lit "description") (improved_description E soup)))
    as -> by congruence.
  rewrite fill_sections_other by reflexivity.
  rewrite get_set_other by reflexivity.
  apply get_set_same.
Qed.

Lemma legacy_h2_loop_other (h2s : list element)
    (sections sections' : PyDict.pydict) (k : pystr) :
  (forall h2 name, In h2 h2s ->
     clean_html_text E (decode E (el_node h2)) = Return name ->
     PyStr.eqb (lower E name) k = false) ->
  legacy_h2_loop E h2s sections = Return sections' ->
  PyDict.get sections' k = PyDict.get sections k.
Proof.
  revert sections. induction h2s as [|h2 h2s IH]; intros sections Hk;
    cbn [legacy_h2_loop]; [now intros [= <-]|].
  unfold legacy_h2_step.
  destruct (clean_html_text E (decode E (el_node h2))) as [name|e] eqn:Hname;
    cbn [bind]; [|discriminate].
  intros Hloop.
  rewrite (@IH _ (fun h2' name' Hin => Hk h2' name' (or_intror Hin)) Hloop).
  rewrite !get_set_other by exact (Hk h2 name (or_introl eq_refl) Hname).
  reflexivity.
Qed.

Lemma legacy_title_from_h1 (text : pystr) (contents : list node)
    (h1 : element) (t : pystr) (sections : PyDict.pydict) :
  html_parse E text = inl contents ->
  find [lit "h1"] (BeautifulSoup contents) = Some h1 ->
  clean_html_text E (decode E (el_node h1)) = Return t ->
  (forall h2 name,
     In h2 (find_all [lit "h2"] (BeautifulSoup contents)) ->
     clean_html_text E (decode E (el_node h2)) = Return name ->
     PyStr.eqb (lower E name) (lit "title") = false) ->
  extract_sections_from_html E text = Return sections ->
  PyDict.get sections (lit "title") = Some t.
Proof.
  intros Hparse Hfind Hclean Hh2.
  unfold extract_sections_from_html, parse_markup.
  rewrite Hparse. cbn [bind]. rewrite Hfind, Hclean. cbn [bind].
  intros Hloop.
  rewrite (@legacy_h2_loop_other _ _ _ _ Hh2 Hloop).
  rewrite get_set_other by reflexivity. apply get_set_same.
Qed.

(** C5, as the code has it.  The primary heading is the first [h1] of the
    document.  When its text is not blank and its normalized text is not
    empty, the improved pipeline's title is that normalized text; the
    legacy pipeline's title is the normalized text of the first [h1] with
    the literals [Problem F: ] and [Problem A: ] removed (and only when no
    [h2] section is named [title]). *)
Theorem C5_title_from_primary_heading (file_path text : pystr) :
  read_text E file_path = inl text ->
  title_is_heading_text E (extract_problem_improved E) file_path text /\
  title_is_trimmed_heading_text E (extract_problem_from_html_file E)
    file_path text.
Proof.
  intros Hread. split.
  - intros contents h1 t p Hparse Hfind Htext Hclean Ht Hp.
    apply improved_record_inv in Hp
      as (text' & secs & d & Hread' & _ & Hsec & ->).
    assert (text' = text) as -> by congruence.
    pose proof (improved_title_from_h1 _ Hparse Hfind Htext Hclean Ht Hsec)
      as Hget.
    unfold assemble_improved. cbn [title basicInfo].
    unfold with_fallback_title, PyDict.has. rewrite Hget, Ht.
    cbn [negb]. unfold PyDict.get_default. now rewrite Hget.
  - intros contents h1 t p Hparse Hfind Hclean Hh2 Hp.
    apply legacy_record_inv in Hp
      as (text' & secs & d & Hread' & _ & Hsec & _ & ->).
    assert (text' = text) as -> by congruence.
    pose proof (legacy_title_from_h1 _ Hparse Hfind Hclean Hh2 Hsec) as Hget.
    unfold assemble_legacy. cbn [title basicInfo].
    unfold legacy_title, PyDict.get_default. now rewrite Hget.
Qed.

End Titles.

Lemma C5_title_witness :
  exists p,
    result (extract_problem_improved Sample.env (lit "doc/p00003.html"))
      = Return (Some p) /\
    title (basicInfo p) = lit "Problem A: Sum".
Proof.
  eexists. split; [vm_compute; reflexivity|].
  refine (proj1 (@C5_title_from_primary_heading Sample.env
                   (lit "doc/p00003.html") Sample.doc_problem_a eq_refl)
            [Tag (lit "h1") [Str NavigableString (lit "Problem A: Sum")]]
            (Element
               (Tag (lit "h1") [Str NavigableString (lit "Problem A: Sum")])
               (BeautifulSoup
                  [Tag (lit "h1")
                     [Str NavigableString (lit "Problem A: Sum")]])
               [])
            (lit "Problem A: Sum")
            _ eq_refl eq_refl eq_refl eq_refl eq_refl _).
  vm_compute. reflexivity.
Defined.

(** The claim as stated fails in both passes.  On
    [<h1> </h1><h1>Add  Two</h1>] the second [h1] has a text that is not
    blank, normalized [Add Two]; the improved record is titled by the
    heading scan, [Add  Two] with both spaces.  On [<h1>Problem A: Sum</h1>]
    the legacy record is titled [Sum], not [Problem A: Sum]. *)
Lemma C5_title_differs :
  ~ title_is_any_heading_text Sample.env
      (extract_problem_improved Sample.env)
      (lit "doc/p00010.html") Sample.doc_two_headings /\
  ~ title_is_any_heading_text Sample.env
      (extract_problem_from_html_file Sample.env)
      (lit "doc/p00003.html") Sample.doc_problem_a.
Proof.
  split; intros H.
  - specialize
      (H [Tag (lit "h1") [Str NavigableString (lit " ")];
          Tag (lit "h1") [Str NavigableString (lit "Add  Two")]]
         (Element (Tag (lit "h1") [Str NavigableString (lit "Add  Two")])
            (BeautifulSoup
               [Tag (lit "h1") [Str NavigableString (lit " ")];
                Tag (lit "h1") [Str NavigableString (lit "Add  Two")]])
            [])
         (lit "Add Two")).
    vm_compute in H.
    specialize (H _ eq_refl (or_intror (or_introl eq_refl))
                  eq_refl eq_refl eq_refl eq_refl).
    discriminate H.
  - specialize
      (H [Tag (lit "h1") [Str NavigableString (lit "Problem A: Sum")]]
         (Element
            (Tag (lit "h1") [Str NavigableString (lit "Problem A: Sum")])
            (BeautifulSoup
               [Tag (lit "h1")
                  [Str NavigableString (lit "Problem A: Sum")]])
            [])
         (lit "Problem A: Sum")).
    vm_compute in H.
    specialize (H _ eq_refl (or_introl eq_refl)
                  eq_refl eq_refl eq_refl eq_refl).
    discriminate H.
Qed.

(* ================================================================= *)
(** ** Examples *)

Lemma pair_examples_by_position (E : PyEnv) (sections : PyDict.pydict)
    (outs ins : list pystr) (i : nat) :
  pair_examples E sections outs i ins
  = flat_map (legacy_case_at E sections outs)
      (combine (seq i (length ins)) ins).
Proof.
  revert i. induction ins as [|k ins IH]; intros i; [reflexivity|].
  cbn [pair_examples length seq combine flat_map].
  rewrite IH. reflexivity.
Qed.

(** C6, as the code has it.  The improved extractor yields exactly one
    sample case from non-empty "sample input" and "sample output" sections;
    the legacy extractor does so when those two are the keys its positional
    pairing puts first and no other key contains "sample input".  In
    general the cases of the legacy extractor are those of the pairing by
    position: one per pair of which the trimmed input or output is not
    empty, none for a pair of which both are. *)
Theorem C6_one_sample_case (E : PyEnv) (sections : PyDict.pydict) :
  one_sample_case E (extract_examples_improved E) sections /\
  (legacy_keys_single E sections ->
   one_sample_case E (extract_examples_from_sections E) sections) /\
  sampleCases (extract_examples_from_sections E sections)
  = legacy_cases_by_position E sections.
Proof.
  split; [|split].
  - intros i o Hi Ho Hti Hto.
    unfold extract_examples_improved, PyDict.get_default.
    rewrite Hi, Ho.
    rewrite (strip_truthy _ _ Hti), (strip_truthy _ _ Hto). reflexivity.
  - intros [Hin Hout] i o Hi Ho Hti Hto.
    unfold extract_examples_from_sections. cbn [sampleCases].
    rewrite Hin. cbn [pair_examples]. unfold nth_section_text.
    set (outs := filter (fun k => contains (lit "output for") _ || _) _) in *.
    destruct outs as [|k ks]; cbn [hd_error] in Hout; [discriminate Hout|].
    injection Hout as ->. cbn [nth_error].
    unfold PyDict.get_default. rewrite Hi, Ho, Hti. reflexivity.
  - unfold extract_examples_from_sections, legacy_cases_by_position.
    cbn [sampleCases]. apply pair_examples_by_position.
Qed.

(** One pair gives one case in both passes; a pair of which both texts
    are empty after trimming gives the legacy extractor no case. *)
Lemma C6_one_sample_case_witness :
  sampleCases (extract_examples_improved Sample.env sections_one_sample)
    = [SampleCase (lit "1 2") (lit "3") []] /\
  sampleCases (extract_examples_from_sections Sample.env sections_one_sample)
    = [SampleCase (lit "1 2") (lit "3") []] /\
  sampleCases
    (extract_examples_from_sections Sample.env sections_empty_samples) = [].
Proof.
  split; [|split].
  - exact (proj1 (@C6_one_sample_case Sample.env sections_one_sample)
             (lit " 1 2 ") (lit "3") eq_refl eq_refl eq_refl eq_refl).
  - exact (proj1 (proj2 (@C6_one_sample_case Sample.env sections_one_sample))
             (conj eq_refl eq_refl)
             (lit " 1 2 ") (lit "3") eq_refl eq_refl eq_refl eq_refl).
  - rewrite (proj2 (proj2
               (@C6_one_sample_case Sample.env sections_empty_samples))).
    reflexivity.
Defined.

(** With two numbered pairs in the map, the legacy extractor yields two
    sample cases. *)
Lemma C6_legacy_two_cases :
  ~ one_sample_case Sample.env (extract_examples_from_sections Sample.env)
      sections_two_samples.
Proof.
  intros H. specialize (H _ _ eq_refl eq_refl eq_refl eq_refl).
  vm_compute in H. discriminate H.
Qed.

(* ================================================================= *)
(** ** Ranges *)

Section Ranges.
Variable E : PyEnv.

Lemma collect_ranges_all (constraints_text : pystr) :
  join (lit "; ") (collect_ranges E constraints_text)
  = all_matches_joined E constraints_text.
Proof.
  unfold all_matches_joined, collect_ranges, range_patterns.
  cbn [flat_map]. now rewrite app_nil_r, !map_app.
Qed.

Lemma ranges_of_all (constraints_text : pystr) :
  ranges_of E constraints_text = all_matches_joined E constraints_text.
Proof.
  unfold ranges_of. destruct constraints_text as [|c t]; [reflexivity|].
  cbn [truthy]. rewrite <- collect_ranges_all.
  now destruct (collect_ranges E (c :: t)).
Qed.

Lemma first_constraints_text_none (sections : PyDict.pydict) :
  (forall kv, In kv sections ->
     contains (lit "constraint") (lower E (fst kv)) = false) ->
  first_constraints_text E sections = [].
Proof.
  induction sections as [|[k v] rest IH]; intros Hno; [reflexivity|].
  cbn [first_constraints_text].
  pose proof (Hno (k, v) (or_introl eq_refl)) as H0.
  cbn [fst] in H0. rewrite H0.
  apply IH. intros kv Hkv. apply Hno. now right.
Qed.

Lemma first_constraints_text_split
    (before after : PyDict.pydict) (k v : pystr) :
  (forall kv, In kv before ->
     contains (lit "constraint") (lower E (fst kv)) = false) ->
  contains (lit "constraint") (lower E k) = true ->
  first_constraints_text E (before ++ (k, v) :: after) = v.
Proof.
  intros Hb Hk. induction before as [|[k0 v0] before IH];
    cbn [app first_constraints_text].
  - now rewrite Hk.
  - pose proof (Hb (k0, v0) (or_introl eq_refl)) as H0.
    cbn [fst] in H0. rewrite H0.
    apply IH. intros kv Hkv. apply Hb. now right.
Qed.

Lemma legacy_constraints_text (sections : PyDict.pydict) (text : pystr) :
  legacy_constraints_text_is E sections text ->
  first_constraints_text E sections = text.
Proof.
  intros [(before & k & after & -> & Hb & Hk)|[Hno ->]].
  - exact (first_constraints_text_split before after k text Hb Hk).
  - exact (first_constraints_text_none sections Hno).
Qed.

Lemma legacy_constraints_text_exists (sections : PyDict.pydict) :
  legacy_constraints_text_is E sections (first_constraints_text E sections).
Proof.
  induction sections as [|[k v] rest IH].
  - right. split; [intros kv []|reflexivity].
  - cbn [first_constraints_text].
    destruct (contains (lit "constraint") (lower E k)) eqn:Hk.
    + left. exists [], k, rest. repeat split; [intros kv []|exact Hk].
    + destruct IH as [(before & k' & after & Heq & Hb & Hk')|[Hno Hnil]].
      * left. exists ((k, v) :: before), k', after.
        split; [cbn [app]; now rewrite <- Heq|]. split; [|exact Hk'].
        intros kv [<-|Hkv]; [exact Hk|now apply Hb].
      * right. split; [|exact Hnil].
        intros kv [<-|Hkv]; [exact Hk|now apply Hno].
Qed.

Lemma legacy_constraints_fields (sections : PyDict.pydict) :
  let text := first_constraints_text E sections in
  inputConstraints (extract_constraints_from_sections E sections)
  = InputConstraints text (all_matches_joined E text).
Proof.
  cbv zeta. unfold extract_constraints_from_sections.
  destruct (first_constraints_text E sections) as [|c t];
    [reflexivity|].
  cbn [truthy inputConstraints]. rewrite <- collect_ranges_all.
  now destruct (collect_ranges E (c :: t)).
Qed.

Lemma constraints_of_fallback (sections : PyDict.pydict) (id : pystr) :
  PyDict.get_default (with_fallback_title sections id) (lit "constraints") []
  = PyDict.get_default sections (lit "constraints") [].
Proof.
  unfold with_fallback_title. destruct (negb _); [|reflexivity].
  unfold PyDict.get_default. now rewrite get_set_other by reflexivity.
Qed.

(** C7. In a record of either pipeline, the constraints description is
    the constraints text of the section map of the document (improved:
    the text under the key [constraints], empty when the key is absent;
    legacy: the text of the first key containing "constraint", empty when
    there is none), and the ranges string is the "; "-join of every match
    of the double-bounded, then the upper-bound, then the lower-bound
    template on that text, duplicates included. *)
Theorem C7_ranges_accumulate_all_matches (file_path : pystr) (p : problem) :
  (result (extract_problem_improved E file_path) = Return (Some p) ->
   exists text sections,
     read_text E file_path = inl text /\
     extract_sections_from_html_improved E text = Return sections /\
     let constraints_text :=
       PyDict.get_default sections (lit "constraints") [] in
     ic_description (inputConstraints (constraints p)) = constraints_text /\
     ic_ranges (inputConstraints (constraints p))
     = all_matches_joined E constraints_text) /\
  (result (extract_problem_from_html_file E file_path) = Return (Some p) ->
   exists text sections,
     read_text E file_path = inl text /\
     extract_sections_from_html E text = Return sections /\
     (exists constraints_text,
        legacy_constraints_text_is E sections constraints_text) /\
     forall constraints_text,
       legacy_constraints_text_is E sections constraints_text ->
       ic_description (inputConstraints (constraints p)) = constraints_text /\
       ic_ranges (inputConstraints (constraints p))
       = all_matches_joined E constraints_text).
Proof.
  split; intros H.
  - apply improved_record_inv in H
      as (text & secs & d & Hread & _ & Hsec & ->).
    exists text, secs. split; [exact Hread|]. split; [exact Hsec|].
    unfold assemble_improved.
    cbn [constraints inputConstraints ic_ranges ic_description].
    rewrite constraints_of_fallback. split; [reflexivity|].
    apply ranges_of_all.
  - apply legacy_record_inv in H
      as (text & secs & d & Hread & _ & Hsec & _ & ->).
    exists text, secs. split; [exact Hread|]. split; [exact Hsec|].
    split; [eexists; apply legacy_constraints_text_exists|].
    intros constraints_text Hct.
    unfold assemble_legacy. cbn [constraints].
    rewrite legacy_constraints_fields.
    rewrite (legacy_constraints_text Hct).
    split; reflexivity.
Qed.

End Ranges.

(** On the document [<h1>Add Two Numbers</h1><h2>Constraints</h2>
    <p>1 ≤ N ≤ 100</p>] the constraints text of both section maps is
    "1 ≤ N ≤ 100"; the three templates give [1 100], [100] and [1] on it,
    and all three stay, in both records. *)
Lemma C7_ranges_witness :
  (exists p,
     result (extract_problem_improved Sample.env (lit "doc/p00001.html"))
       = Return (Some p) /\
     ic_description (inputConstraints (constraints p))
       = lit "1 " ++ Sample.le_sign ++ lit " N " ++ Sample.le_sign
           ++ lit " 100" /\
     ic_ranges (inputConstraints (constraints p)) = lit "1 100; 100; 1") /\
  (exists p,
     result (extract_problem_from_html_file Sample.env
               (lit "doc/p00001.html"))
       = Return (Some p) /\
     ic_description (inputConstraints (constraints p))
       = lit "1 " ++ Sample.le_sign ++ lit " N " ++ Sample.le_sign
           ++ lit " 100" /\
     ic_ranges (inputConstraints (constraints p)) = lit "1 100; 100; 1").
Proof.
  split.
  - destruct (result (extract_problem_improved Sample.env
                        (lit "doc/p00001.html"))) as [[p|]|e] eqn:Hp;
      [|vm_compute in Hp; discriminate Hp
       |vm_compute in Hp; discriminate Hp].
    exists p. split; [reflexivity|].
    destruct (proj1 (@C7_ranges_accumulate_all_matches Sample.env
                       (lit "doc/p00001.html") p) Hp)
      as (text & sections & Hread & Hsec & Hd & Hr).
    vm_compute in Hread. injection Hread as <-.
    vm_compute in Hsec. injection Hsec as <-.
    rewrite Hd, Hr. split; vm_compute; reflexivity.
  - destruct (result (extract_problem_from_html_file Sample.env
                        (lit "doc/p00001.html"))) as [[p|]|e] eqn:Hp;
      [|vm_compute in Hp; discriminate Hp
       |vm_compute in Hp; discriminate Hp].
    exists p. split; [reflexivity|].
    destruct (proj2 (@C7_ranges_accumulate_all_matches Sample.env
                       (lit "doc/p00001.html") p) Hp)
      as (text & sections & Hread & Hsec & _ & Hfields).
    vm_compute in Hread. injection Hread as <-.
    vm_compute in Hsec. injection Hsec as <-.
    destruct (Hfields
                (lit "1 " ++ Sample.le_sign ++ lit " N " ++ Sample.le_sign
                   ++ lit " 100")) as [Hd Hr].
    { left.
      exists [(lit "title", lit "Add Two Numbers"); (lit "description", [])],
        (lit "constraints"), [].
      split; [reflexivity|]. split; [|reflexivity].
      intros kv [<-|[<-|[]]]; reflexivity. }
    rewrite Hd, Hr. split; vm_compute; reflexivity.
Defined.

(* ================================================================= *)
(** ** Difficulty *)

Lemma keyword_score_nonneg (keywords : list pystr) (content : pystr) :
  (0 <= keyword_score keywords content)%Z.
Proof. unfold keyword_score. lia. Qed.

(** C8, as the code has it.  The improved classifier behaves as stated,
    with thresholds 3500 and 2000 (its [elif] between the two magnitude
    tests never shows, a positive hard score deciding first).  The legacy
    classifier takes the same decision without the magnitude heuristic,
    with thresholds 3000 and 1000. *)
Theorem C8_difficulty_rule (E : PyEnv) (sections : PyDict.pydict)
    (problem_id : pystr) :
  difficulty_as_stated E (assess_difficulty_improved E) (improved_content E)
    easy_keywords medium_keywords hard_keywords 3500 2000
    sections problem_id /\
  difficulty_without_magnitude E (assess_difficulty E) (legacy_content E)
    easy_indicators medium_indicators hard_indicators 3000 1000
    sections problem_id.
Proof.
  split; intros n Hn.
  - unfold assess_difficulty_improved, spec_difficulty.
    fold (improved_content E sections). rewrite Hn. cbn [bind].
    pose proof (keyword_score_nonneg hard_keywords
                  (improved_content E sections)) as Hh.
    destruct (contains (lit "10^9") _ || contains (lit "10^8") _).
    + replace (0 <? _ + 2)%Z with true by (symmetry; apply Z.ltb_lt; lia).
      reflexivity.
    + destruct (contains (lit "10^6") _ || contains (lit "10^5") _);
        reflexivity.
  - unfold assess_difficulty, spec_difficulty.
    fold (legacy_content E sections). rewrite Hn. reflexivity.
Qed.

Lemma C8_difficulty_rule_witness :
  assess_difficulty_improved Sample.env
    [(lit "constraints", lit "1 <= N <= 10^9")] (lit "p00001")
    = Return Hard /\
  assess_difficulty Sample.env
    [(lit "description", lit "Sort the tree.")] (lit "p00001")
    = Return Medium.
Proof.
  split.
  - exact (proj1 (@C8_difficulty_rule Sample.env
                    [(lit "constraints", lit "1 <= N <= 10^9")]
                    (lit "p00001")) 1%Z eq_refl).
  - exact (proj2 (@C8_difficulty_rule Sample.env
                    [(lit "description", lit "Sort the tree.")]
                    (lit "p00001")) 1%Z eq_refl).
Defined.

(** The legacy classifier ignores "10^9" in the constraints text: it says
    Easy where the classifier as stated says Hard. *)
Lemma C8_legacy_ignores_magnitude :
  ~ difficulty_as_stated Sample.env (assess_difficulty Sample.env)
      (legacy_content Sample.env)
      easy_indicators medium_indicators hard_indicators 3000 1000
      [(lit "constraints", lit "1 <= N <= 10^9")] (lit "p00001").
Proof.
  intros H. specialize (H 1%Z eq_refl). vm_compute in H. discriminate H.
Qed.

(* ================================================================= *)
(** ** Description and comments *)

Lemma improved_description_key (E : PyEnv) (text : pystr)
    (contents : list node) (sections : PyDict.pydict) :
  html_parse E text = inl contents ->
  extract_sections_from_html_improved E text = Return sections ->
  PyDict.get sections (lit "description")
  = Some (improved_description E (BeautifulSoup contents)).
Proof.
  intros Hparse.
  unfold extract_sections_from_html_improved, parse_markup.
  rewrite Hparse. cbn [bind].
  set (soup := BeautifulSoup contents).
  destruct (extract_title_flexible E soup) as [title|e]; cbn [bind];
    [|discriminate].
  intros Hsec.
  assert (sections =
            fill_sections E soup
              (PyDict.set
                 (if truthy title
                  then PyDict.set [] (lit "title") title else [])
                 (lit "description") (improved_description E soup)))
    as -> by congruence.
  rewrite fill_sections_other by reflexivity.
  apply get_set_same.
Qed.

(** C9, as the code has it.  When the directly collected text is shorter
    than 50 characters, a non-empty harvester output is appended to the
    directly collected parts (an empty one is left out); the description is
    these parts, then the parts found after a "Problem Statement" heading,
    joined with spaces.  It equals the harvester output when there are no
    direct parts and no "Problem Statement" parts. *)
Theorem C9_comments_are_appended (E : PyEnv) (text : pystr)
    (contents : list node) (sections : PyDict.pydict) :
  html_parse E text = inl contents ->
  extract_sections_from_html_improved E text = Return sections ->
  let soup := BeautifulSoup contents in
  let direct := direct_description_parts E soup in
  let harvest := extract_from_comments E soup in
  length (join (lit " ") direct) < 50 ->
  PyDict.get sections (lit "description")
  = Some
      (join (lit " ")
         (direct ++ (if truthy harvest then [harvest] else [])
                 ++ problem_statement_parts E soup)) /\
  (direct = [] -> problem_statement_parts E soup = [] ->
   PyDict.get sections (lit "description") = Some harvest).
Proof.
  intros Hparse Hsec soup direct harvest Hshort.
  assert (PyDict.get sections (lit "description")
          = Some
              (join (lit " ")
                 (direct ++ (if truthy harvest then [harvest] else [])
                         ++ problem_statement_parts E soup))) as Hget.
  { rewrite (@improved_description_key _ _ _ _ Hparse Hsec).
    unfold improved_description.
    fold soup. fold direct. unfold comment_description_parts.
    fold harvest. apply Nat.ltb_lt in Hshort. rewrite Hshort. reflexivity. }
  split; [exact Hget|].
  intros Hd Hps. rewrite Hget, Hd, Hps. cbn [app].
  destruct harvest; reflexivity.
Qed.

Lemma C9_comments_witness :
  exists sections,
    extract_sections_from_html_improved Sample.env Sample.doc_sparse
      = Return sections /\
    PyDict.get sections (lit "description")
    = Some (lit "Short text A hidden statement that is long enough").
Proof.
  eexists. split; [vm_compute; reflexivity|].
  refine (proj1 (@C9_comments_are_appended Sample.env Sample.doc_sparse
                   (Sample.build (Sample.lex Sample.doc_sparse []
                                    Sample.InText 0) [] [])
                   _ eq_refl eq_refl _)).
  vm_compute. lia.
Defined.

(** On a document with a short paragraph and a long comment the
    description keeps the paragraph in front of the harvested text. *)
Lemma C9_direct_text_is_kept :
  ~ description_replaced_by_comments Sample.env Sample.doc_sparse.
Proof.
  intros H. unfold description_replaced_by_comments in H.
  specialize (H (Sample.build (Sample.lex Sample.doc_sparse []
                                 Sample.InText 0) [] [])).
  vm_compute in H.
  specialize (H _ eq_refl eq_refl).
  assert (Hshort : 10 < 50) by lia.
  specialize (H Hshort). discriminate H.
Qed.

(* ================================================================= *)
(** ** A scenario of the specification

    Identifier [p00001], a heading "Add Two Numbers", a Constraints
    section holding "1 ≤ N ≤ 100", no samples. *)

Example scenario_add_two_numbers :
  exists p,
    extract_problem_improved Sample.env (lit "doc/p00001.html")
      = Run (Return (Some p)) [] /\
    title (basicInfo p) = lit "Add Two Numbers" /\
    difficulty (basicInfo p) = Easy /\
    sampleCases (examples p) = [] /\
    contains (lit "1 100") (ic_ranges (inputConstraints (constraints p)))
      = true.
Proof.
  eexists. split; [vm_compute; reflexivity|].
  repeat split; reflexivity.
Qed.

(* ================================================================= *)
(** ** Further properties: tags, categories, difficulty *)

Lemma flat_map_keys (A : Type) (f : A -> bool) (key : A -> pystr)
    (l : list A) :
  flat_map (fun a => if f a then [key a] else []) l = map key (filter f l).
Proof.
  induction l as [|a l IH]; [reflexivity|].
  cbn [flat_map filter]. destruct (f a); cbn; now rewrite IH.
Qed.

Lemma NoDup_map_filter (A B : Type) (g : A -> B) (f : A -> bool)
    (l : list A) :
  NoDup (map g l) -> NoDup (map g (filter f l)).
Proof.
  induction l as [|a l IH]; cbn; [trivial|].
  intros H. inversion H as [|? ? Hnotin Hnd]; subst.
  destruct (f a); cbn; [constructor|]; auto.
  intros Hin. apply Hnotin. apply in_map_iff in Hin as (x & Hx & Hin).
  apply filter_In in Hin as [Hin _]. apply in_map_iff. now exists x.
Qed.

Lemma generate_tags_shape (table : list (pystr * list pystr))
    (content : pystr) :
  let hits :=
    filter
      (fun tk => existsb (fun keyword => contains keyword content) (snd tk))
      table in
  generate_tags table content =
    match hits with
    | [] => [lit "implementation"]
    | _ :: _ => map fst hits
    end.
Proof.
  unfold generate_tags. rewrite flat_map_keys.
  destruct (filter _ table); reflexivity.
Qed.

Lemma generate_tags_props (table : list (pystr * list pystr))
    (content : pystr) :
  NoDup (map fst table) -> In (lit "implementation") (map fst table) ->
  generate_tags table content <> [] /\
  NoDup (generate_tags table content) /\
  incl (generate_tags table content) (map fst table).
Proof.
  intros Hnd Himpl. rewrite generate_tags_shape. cbv zeta.
  pose proof (NoDup_map_filter fst
    (fun tk => existsb (fun keyword => contains keyword content) (snd tk))
    table Hnd) as Hnd'.
  destruct (filter _ table) as [|h hs] eqn:Hf.
  - repeat split; [discriminate| |].
    + constructor; [intros []|constructor].
    + intros t [<-|[]]. exact Himpl.
  - repeat split; [discriminate|exact Hnd'|].
    intros t Ht. apply in_map_iff in Ht as (x & <- & Hx).
    rewrite <- Hf in Hx. apply filter_In in Hx as [Hx _].
    now apply in_map.
Qed.

Lemma NoDup_tag_keys :
  NoDup (map fst tag_keywords_improved) /\
  map fst tag_keywords_legacy = map fst tag_keywords_improved /\
  In (lit "implementation") (map fst tag_keywords_improved).
Proof.
  repeat split.
  - cbn [map fst tag_keywords_improved].
    repeat (constructor;
            [cbn [In]; intros H;
             repeat (destruct H as [H|H]; [discriminate H|]); exact H|]).
    constructor.
  - cbn. tauto.
Qed.

(** X1. The tags of every record, of either pass, are never empty, never
    repeat, and come from the eight keys of the tag table. *)
Theorem tags_never_empty (E : PyEnv) (file_path : pystr) (p : problem) :
  result (extract_problem_improved E file_path) = Return (Some p) \/
  result (extract_problem_from_html_file E file_path) = Return (Some p) ->
  tags (basicInfo p) <> [] /\
  NoDup (tags (basicInfo p)) /\
  incl (tags (basicInfo p)) (map fst tag_keywords_improved).
Proof.
  destruct NoDup_tag_keys as (Hnd & Hkeys & Himpl).
  intros [H|H].
  - apply improved_record_inv in H as (text & secs & d & _ & _ & _ & ->).
    unfold assemble_improved. cbn [tags basicInfo].
    now apply generate_tags_props.
  - apply legacy_record_inv in H as (text & secs & d & _ & _ & _ & _ & ->).
    unfold assemble_legacy. cbn [tags basicInfo].
    rewrite <- Hkeys. apply generate_tags_props; now rewrite Hkeys.
Qed.

Lemma tags_never_empty_witness :
  exists p,
    result (extract_problem_improved Sample.env (lit "doc/p00001.html"))
      = Return (Some p) /\
    tags (basicInfo p) = [lit "math"] /\
    tags (basicInfo p) <> [].
Proof.
  eexists. split; [vm_compute; reflexivity|]. split; [reflexivity|].
  refine (proj1 (@tags_never_empty Sample.env (lit "doc/p00001.html") _
                   (or_introl _))).
  vm_compute. reflexivity.
Defined.

(** X2. In a record of the improved pass the tags are read off the
    record's own description and title: when no keyword of the table
    occurs in their lower-cased text the tags are exactly
    [implementation], otherwise they are the keys whose keywords occur,
    in table order. *)
Theorem tags_from_title_and_description (E : PyEnv) (file_path : pystr)
    (p : problem) :
  result (extract_problem_improved E file_path) = Return (Some p) ->
  let content :=
    lower E
      (description (basicInfo p) ++ lit " " ++ title (basicInfo p)) in
  let hits :=
    filter
      (fun tk => existsb (fun keyword => contains keyword content) (snd tk))
      tag_keywords_improved in
  tags (basicInfo p) =
    match hits with
    | [] => [lit "implementation"]
    | _ :: _ => map fst hits
    end.
Proof.
  intros H. apply improved_record_inv in H as (text & secs & d & _ & _ & _ & ->).
  unfold assemble_improved. cbn [tags basicInfo title description].
  rewrite (get_default_truthy _ _ (lit "Problem " ++ path_stem file_path)
             (has_with_fallback_title _ _)).
  apply generate_tags_shape.
Qed.

Lemma tags_from_title_witness :
  exists p,
    result (extract_problem_improved Sample.env (lit "doc/p00005.html"))
      = Return (Some p) /\
    tags (basicInfo p) = [lit "implementation"].
Proof.
  eexists. split; [vm_compute; reflexivity|].
  refine (@tags_from_title_and_description Sample.env
            (lit "doc/p00005.html") _ _).
  vm_compute. reflexivity.
Defined.

Lemma best_category_fold (content : pystr)
    (cats : list (pystr * list pystr)) (name0 : pystr) (s0 : Z) :
  let r :=
    fold_left
      (fun (acc : pystr * Z) cat =>
         let score := keyword_score (snd cat) content in
         if (snd acc <? score)%Z then (fst cat, score) else acc)
      cats (name0, s0) in
  (r = (name0, s0) /\
   forall c, In c cats -> (keyword_score (snd c) content <= s0)%Z) \/
  (exists before kws after,
     cats = before ++ (fst r, kws) :: after /\
     snd r = keyword_score kws content /\ (s0 < snd r)%Z /\
     (forall c, In c before -> (keyword_score (snd c) content < snd r)%Z) /\
     (forall c, In c after -> (keyword_score (snd c) content <= snd r)%Z)).
Proof.
  revert name0 s0. induction cats as [|[n kws] cats IH]; intros name0 s0.
  - left. split; [reflexivity|intros c []].
  - cbn [fold_left fst snd].
    destruct (s0 <? keyword_score kws content)%Z eqn:Hlt.
    + apply Z.ltb_lt in Hlt.
      destruct (IH n (keyword_score kws content))
        as [[Hr Hall]|(before & kws' & after & Hsplit & Hs & Hgt & Hb & Ha)].
      * right. cbv zeta in Hr. rewrite Hr. cbn [fst snd].
        exists [], kws, cats. repeat split; auto. intros c [].
      * right. exists ((n, kws) :: before), kws', after.
        cbv zeta in *. rewrite Hsplit at 1.
        repeat split; auto; try lia.
        intros c [<-|Hc]; [cbn [snd]; lia|auto].
    + apply Z.ltb_ge in Hlt.
      destruct (IH name0 s0)
        as [[Hr Hall]|(before & kws' & after & Hsplit & Hs & Hgt & Hb & Ha)].
      * left. split; [exact Hr|].
        intros c [<-|Hc]; [cbn [snd]; lia|auto].
      * right. exists ((n, kws) :: before), kws', after.
        cbv zeta in *. rewrite Hsplit at 1.
        repeat split; auto.
        intros c [<-|Hc]; [cbn [snd]; lia|auto].
Qed.

Lemma best_category_first_best (table : list (pystr * list pystr))
    (content : pystr) :
  first_best table content (best_category table content).
Proof.
  unfold best_category, first_best.
  destruct (best_category_fold content table (lit "Implementation") 0)
    as [[Hr Hall]|(before & kws & after & Hsplit & Hs & Hgt & Hb & Ha)];
    cbv zeta in *.
  - left. rewrite Hr. split; [reflexivity|].
    intros c Hc. specialize (Hall c Hc).
    pose proof (keyword_score_nonneg (snd c) content). lia.
  - right. exists before, kws, after. rewrite <- Hs. auto.
Qed.

(** X3. Both categorizers return the first category of their table with
    the highest keyword score, and [Implementation] when no category
    scores at all; the content scored is the lower-cased title and
    description. *)
Theorem category_is_first_best (E : PyEnv) (sections : PyDict.pydict) :
  first_best categories_improved
    (lower E
       (join (lit " ")
          [PyDict.get_default sections (lit "title") [];
           PyDict.get_default sections (lit "description") []]))
    (categorize_problem_improved E sections) /\
  first_best categories_legacy (legacy_content E sections)
    (categorize_problem E sections).
Proof. split; apply best_category_first_best. Qed.

(** X4. The category of every record, of either pass, is one of the nine
    category names. *)
Theorem category_is_known (E : PyEnv) (file_path : pystr) (p : problem) :
  result (extract_problem_improved E file_path) = Return (Some p) \/
  result (extract_problem_from_html_file E file_path) = Return (Some p) ->
  In (category (basicInfo p)) (map fst categories_improved).
Proof.
  assert (Hin : forall table content,
             In (lit "Implementation") (map fst table) ->
             In (best_category table content) (map fst table)).
  { intros table content Hdef.
    destruct (best_category_first_best table content)
      as [[-> _]|(before & kws & after & Hsplit & _)]; [exact Hdef|].
    rewrite Hsplit at 2. rewrite map_app. apply in_or_app. right. now left. }
  intros [H|H].
  - apply improved_record_inv in H as (text & secs & d & _ & _ & _ & ->).
    apply Hin. cbn. tauto.
  - apply legacy_record_inv in H as (text & secs & d & _ & _ & _ & _ & ->).
    change (map fst categories_improved) with (map fst categories_legacy).
    apply Hin. cbn. tauto.
Qed.

Lemma category_is_known_witness :
  exists p,
    result (extract_problem_from_html_file Sample.env (lit "doc/p00001.html"))
      = Return (Some p) /\
    category (basicInfo p) = lit "Math & Logic" /\
    In (category (basicInfo p)) (map fst categories_improved).
Proof.
  eexists. split; [vm_compute; reflexivity|]. split; [reflexivity|].
  refine (@category_is_known Sample.env (lit "doc/p00001.html") _
            (or_intror _)).
  vm_compute. reflexivity.
Defined.

Lemma rank_of_rule (hard medium : bool) :
  difficulty_rank (if hard then Hard else if medium then Medium else Easy)
  = if hard then 2 else if medium then 1 else 0.
Proof. destruct hard, medium; reflexivity. Qed.

(** X5. Neither classifier rates a problem easier because its identifier
    number is larger: for one section map and two identifiers whose
    numbers are [n1 <= n2], the level for the second is at least the level
    for the first (Easy < Medium < Hard). *)
Theorem difficulty_grows_with_number (E : PyEnv) (sections : PyDict.pydict)
    (id1 id2 : pystr) (n1 n2 : Z) :
  problem_num E id1 = Return n1 ->
  problem_num E id2 = Return n2 ->
  (n1 <= n2)%Z ->
  (forall d1 d2,
     assess_difficulty_improved E sections id1 = Return d1 ->
     assess_difficulty_improved E sections id2 = Return d2 ->
     difficulty_rank d1 <= difficulty_rank d2) /\
  (forall d1 d2,
     assess_difficulty E sections id1 = Return d1 ->
     assess_difficulty E sections id2 = Return d2 ->
     difficulty_rank d1 <= difficulty_rank d2).
Proof.
  intros H1 H2 Hle. split; intros d1 d2.
  - unfold assess_difficulty_improved. rewrite H1, H2. cbn [bind].
    destruct (if _ || _ then _ else _) as [h m].
    intros [= <-] [= <-]. rewrite !rank_of_rule.
    destruct (0 <? h)%Z; cbn [orb]; [lia|].
    destruct (3500 <? n1)%Z eqn:A1, (3500 <? n2)%Z eqn:A2;
      try apply Z.ltb_lt in A1; try apply Z.ltb_ge in A1;
      try apply Z.ltb_lt in A2; try apply Z.ltb_ge in A2; try lia.
    + destruct (_ || _); lia.
    + destruct (_ <? m)%Z; cbn [orb]; [lia|].
      destruct (2000 <? n1)%Z eqn:B1, (2000 <? n2)%Z eqn:B2;
        try apply Z.ltb_lt in B1; try apply Z.ltb_ge in B1;
        try apply Z.ltb_lt in B2; try apply Z.ltb_ge in B2; lia.
  - unfold assess_difficulty. rewrite H1, H2. cbn [bind].
    intros [= <-] [= <-]. rewrite !rank_of_rule.
    destruct (0 <? _)%Z; cbn [orb]; [lia|].
    destruct (3000 <? n1)%Z eqn:A1, (3000 <? n2)%Z eqn:A2;
      try apply Z.ltb_lt in A1; try apply Z.ltb_ge in A1;
      try apply Z.ltb_lt in A2; try apply Z.ltb_ge in A2; try lia.
    + destruct (_ || _); lia.
    + destruct (_ <? _)%Z; cbn [orb]; [lia|].
      destruct (1000 <? n1)%Z eqn:B1, (1000 <? n2)%Z eqn:B2;
        try apply Z.ltb_lt in B1; try apply Z.ltb_ge in B1;
        try apply Z.ltb_lt in B2; try apply Z.ltb_ge in B2; lia.
Qed.

Lemma difficulty_grows_witness :
  assess_difficulty_improved Sample.env [] (lit "p02500") = Return Medium /\
  assess_difficulty_improved Sample.env [] (lit "p03600") = Return Hard /\
  difficulty_rank Medium <= difficulty_rank Hard.
Proof.
  split; [reflexivity|]. split; [reflexivity|].
  exact (proj1 (@difficulty_grows_with_number Sample.env []
                  (lit "p02500") (lit "p03600") 2500 3600
                  eq_refl eq_refl ltac:(lia))
           Medium Hard eq_refl eq_refl).
Defined.

(** X6. The classifiers look at the identifier only through the number
    after its first character: that character is never read, and an
    identifier whose rest is not all digits counts as number 0 (the
    assessment then returns, and equals the one for the empty
    identifier). *)
Theorem difficulty_reads_digits_only (E : PyEnv) (sections : PyDict.pydict)
    (c c' : char) (rest : pystr) :
  assess_difficulty_improved E sections (c :: rest)
    = assess_difficulty_improved E sections (c' :: rest) /\
  assess_difficulty E sections (c :: rest)
    = assess_difficulty E sections (c' :: rest) /\
  (str_isdigit E rest = false ->
   assess_difficulty_improved E sections (c :: rest)
     = assess_difficulty_improved E sections [] /\
   assess_difficulty E sections (c :: rest)
     = assess_difficulty E sections [] /\
   exists d, assess_difficulty_improved E sections (c :: rest) = Return d).
Proof.
  unfold assess_difficulty_improved, assess_difficulty, problem_num.
  cbn [tl]. repeat split; try reflexivity;
    rewrite H; cbn [bind str_isdigit truthy andb]; try reflexivity.
  destruct (if _ || _ then _ else _) as [h m]. eexists. reflexivity.
Qed.

Lemma difficulty_reads_digits_witness :
  assess_difficulty_improved Sample.env [] (lit "p12x4")
    = assess_difficulty_improved Sample.env [] [].
Proof.
  exact (proj1 (proj2 (proj2
           (@difficulty_reads_digits_only Sample.env [] 112%N 112%N
              (lit "12x4"))) eq_refl)).
Defined.

(* ================================================================= *)
(** ** Further properties: examples, constraints, ranges *)

(** X7. The improved extractor never yields more than one sample case and
    never a test case; a case is emitted exactly when both chosen texts
    are non-empty, and then holds their trimmed forms and an empty
    explanation.  The text chosen for each side is the sample section when
    the map has one, else the plain input (output) section, else empty. *)
Theorem improved_examples_shape (E : PyEnv) (sections : PyDict.pydict) :
  let input_text :=
    match PyDict.get sections (lit "sample input") with
    | Some t => t
    | None => PyDict.get_default sections (lit "input") []
    end in
  let output_text :=
    match PyDict.get sections (lit "sample output") with
    | Some t => t
    | None => PyDict.get_default sections (lit "output") []
    end in
  testCases (extract_examples_improved E sections) = [] /\
  sampleCases (extract_examples_improved E sections) =
    (if truthy input_text && truthy output_text
     then [SampleCase (py_strip E input_text) (py_strip E output_text) []]
     else []) /\
  length (sampleCases (extract_examples_improved E sections)) <= 1.
Proof.
  unfold extract_examples_improved.
  set (input_default := PyDict.get_default sections (lit "input") []).
  set (output_default := PyDict.get_default sections (lit "output") []).
  unfold PyDict.get_default.
  destruct (PyDict.get sections (lit "sample input")) as [i|];
    destruct (PyDict.get sections (lit "sample output")) as [o|];
    cbv zeta;
    match goal with
    | |- context [if ?a && ?b then _ else _] => destruct a, b
    end; cbn; auto.
Qed.

Lemma pair_examples_props (E : PyEnv) (sections : PyDict.pydict)
    (outs : list pystr) (ins : list pystr) (i : nat) :
  length (pair_examples E sections outs i ins) <= length ins /\
  Forall
    (fun sc =>
       sc_explanation sc = [] /\
       (truthy (sc_input sc) || truthy (sc_output sc) = true) /\
       (length outs <= i -> sc_output sc = []))
    (pair_examples E sections outs i ins).
Proof.
  revert i. induction ins as [|k ins IH]; intros i; cbn [pair_examples].
  - split; [cbn; lia|constructor].
  - destruct (IH (S i)) as [Hlen Hall].
    destruct (truthy _ || truthy _) eqn:Hne; cbn [app length].
    + split; [lia|]. constructor.
      * cbn [sc_explanation sc_input sc_output].
        split; [reflexivity|split; [exact Hne|]].
        intros Hi. unfold nth_section_text.
        now rewrite (proj2 (nth_error_None outs i) Hi).
      * eapply Forall_impl; [|exact Hall]. cbv beta.
        intros sc (He & Hn & Ho). repeat split; auto.
    + split; [lia|].
      eapply Forall_impl; [|exact Hall]. cbv beta.
      intros sc (He & Hn & Ho). repeat split; auto.
Qed.

(** X8. The legacy extractor yields at most one sample case per key
    containing "sample input" and never a test case; every case has an
    empty explanation and a non-empty input or output; and when no key
    names an output section, every case has an empty output. *)
Theorem legacy_examples_shape (E : PyEnv) (sections : PyDict.pydict) :
  let input_keys :=
    filter (fun k => contains (lit "sample input") (lower E k))
      (PyDict.keys sections) in
  let output_keys :=
    filter
      (fun k =>
         contains (lit "output for") (lower E k)
         || contains (lit "sample output") (lower E k))
      (PyDict.keys sections) in
  let ex := extract_examples_from_sections E sections in
  testCases ex = [] /\
  length (sampleCases ex) <= length input_keys /\
  Forall
    (fun sc =>
       sc_explanation sc = [] /\
       (truthy (sc_input sc) || truthy (sc_output sc) = true) /\
       (output_keys = [] -> sc_output sc = []))
    (sampleCases ex).
Proof.
  cbv zeta. unfold extract_examples_from_sections.
  cbn [testCases sampleCases].
  set (ins := filter (fun k => contains (lit "sample input") _) _).
  set (outs := filter (fun k => _ || _) _).
  destruct (pair_examples_props E sections outs ins 0) as [Hlen Hall].
  repeat split; [exact Hlen|].
  eapply Forall_impl; [|exact Hall]. cbv beta.
  intros sc (He & Hn & Ho). repeat split; auto.
  intros Hnil. apply Ho. rewrite Hnil. cbn. lia.
Qed.

(** X9. The legacy constraint extractor reads the first key containing
    "constraint" (case folded) and no other: the description is that
    key's text and the ranges are all template matches on it, even when a
    later key also contains "constraint", and even when the first one is
    empty (then both fields are empty).  Time limit, memory limit and
    language restrictions stay unset. *)
Theorem legacy_constraints_first_key (E : PyEnv)
    (before after : PyDict.pydict) (k v : pystr) :
  (forall kv, In kv before ->
     contains (lit "constraint") (lower E (fst kv)) = false) ->
  contains (lit "constraint") (lower E k) = true ->
  extract_constraints_from_sections E (before ++ (k, v) :: after) =
    Constraints None None (InputConstraints v (all_matches_joined E v)) [].
Proof.
  intros Hb Hk. unfold extract_constraints_from_sections.
  rewrite (first_constraints_text_split E before after k v Hb Hk).
  destruct v as [|c t]; [reflexivity|]. cbn [truthy].
  rewrite <- collect_ranges_all.
  now destruct (collect_ranges E (c :: t)).
Qed.

Lemma legacy_constraints_first_key_witness :
  extract_constraints_from_sections Sample.env
    [ (lit "title", lit "Sum"); (lit "constraints", []);
      (lit "more constraints", lit "1 = N") ]
  = Constraints None None (InputConstraints [] []) [].
Proof.
  exact (@legacy_constraints_first_key Sample.env
           [(lit "title", lit "Sum")]
           [(lit "more constraints", lit "1 = N")]
           (lit "constraints") []
           ltac:(intros kv [<-|[]]; reflexivity) eq_refl).
Defined.

Lemma rmatch_star_unfold (cls : char -> bool) (p : list ratom) (s : pystr)
    (cur : option pystr) (done : list pystr) :
  rmatch (RClass cls Star :: p) s cur done =
  match s with
  | c :: r =>
      if cls c then
        match rmatch (RClass cls Star :: p) r (push c cur) done with
        | Some m => Some m
        | None => rmatch p s cur done
        end
      else rmatch p s cur done
  | [] => rmatch p [] cur done
  end.
Proof. destruct s; reflexivity. Qed.

Lemma rmatch_plus_unfold (cls : char -> bool) (p : list ratom) (s : pystr)
    (cur : option pystr) (done : list pystr) :
  rmatch (RClass cls Plus :: p) s cur done =
  match s with
  | c :: r =>
      if cls c then rmatch (RClass cls Star :: p) r (push c cur) done
      else None
  | [] => None
  end.
Proof. destruct s; reflexivity. Qed.

Lemma rmatch_one_unfold (cls : char -> bool) (p : list ratom) (s : pystr)
    (cur : option pystr) (done : list pystr) :
  rmatch (RClass cls One :: p) s cur done =
  match s with
  | c :: r => if cls c then rmatch p r (push c cur) done else None
  | [] => None
  end.
Proof. destruct s; reflexivity. Qed.

(** A template with a mandatory atom of class [cls] matches nowhere in a
    text without characters of that class. *)
Lemma rmatch_needs_class (cls : char -> bool) (q : quant) :
  q <> Star ->
  forall p, In (RClass cls q) p ->
  forall s cur done,
    forallb (fun c => negb (cls c)) s = true ->
    rmatch p s cur done = None.
Proof.
  intros Hq p. induction p as [|a p IH]; intros Hin; [destruct Hin|].
  destruct Hin as [->|Hin].
  - intros s cur done Hs. destruct q; [|congruence|].
    + rewrite rmatch_one_unfold. destruct s as [|c r]; [reflexivity|].
      cbn in Hs. apply andb_true_iff in Hs as [Hc _].
      apply negb_true_iff in Hc. now rewrite Hc.
    + rewrite rmatch_plus_unfold. destruct s as [|c r]; [reflexivity|].
      cbn in Hs. apply andb_true_iff in Hs as [Hc _].
      apply negb_true_iff in Hc. now rewrite Hc.
  - specialize (IH Hin).
    assert (Hstar : forall cls' s cur done,
               forallb (fun c => negb (cls c)) s = true ->
               rmatch (RClass cls' Star :: p) s cur done = None).
    { intros cls' s. induction s as [|c r IHs]; intros cur done Hs;
        rewrite rmatch_star_unfold; [now apply IH|].
      pose proof Hs as Hs'. cbn in Hs'.
      apply andb_true_iff in Hs' as [_ Hr].
      destruct (cls' c); [rewrite (IHs _ _ Hr)|]; now apply IH. }
    intros s cur done Hs. destruct a as [cls' q'| |].
    + destruct q'.
      * rewrite rmatch_one_unfold. destruct s as [|c r]; [reflexivity|].
        cbn in Hs. apply andb_true_iff in Hs as [_ Hr].
        destruct (cls' c); [now apply IH|reflexivity].
      * now apply Hstar.
      * rewrite rmatch_plus_unfold. destruct s as [|c r]; [reflexivity|].
        cbn in Hs. apply andb_true_iff in Hs as [_ Hr].
        destruct (cls' c); [now apply Hstar|reflexivity].
    + now apply IH.
    + now apply IH.
Qed.

Lemma findall_needs_class (cls : char -> bool) (p : list ratom) :
  (forall s cur done,
     forallb (fun c => negb (cls c)) s = true ->
     rmatch p s cur done = None) ->
  forall fuel s,
    forallb (fun c => negb (cls c)) s = true -> findall_go fuel p s = [].
Proof.
  intros Hp fuel. induction fuel as [|fuel IH]; intros s Hs; [reflexivity|].
  cbn [findall_go]. rewrite (Hp s None [] Hs).
  destruct s as [|c r]; [reflexivity|].
  cbn in Hs. apply andb_true_iff in Hs as [_ Hr]. now apply IH.
Qed.

Lemma collect_ranges_needs (E : PyEnv) (cls : char -> bool) (q : quant)
    (text : pystr) :
  q <> Star ->
  In (RClass cls q) (double_bounded E) ->
  In (RClass cls q) (upper_bound E) ->
  In (RClass cls q) (lower_bound E) ->
  forallb (fun c => negb (cls c)) text = true ->
  collect_ranges E text = [].
Proof.
  intros Hq H1 H2 H3 Hs. unfold collect_ranges, range_patterns, re_findall.
  cbn [flat_map].
  rewrite !(findall_needs_class cls); auto;
    now apply (@rmatch_needs_class cls q Hq).
Qed.

Lemma collect_ranges_needs_sign_and_digit (E : PyEnv) (text : pystr) :
  forallb (fun c => negb (cls_le c)) text = true \/
  forallb (fun c => negb (cls_d E c)) text = true ->
  collect_ranges E text = [].
Proof.
  intros [H|H].
  - apply (@collect_ranges_needs E cls_le One); try discriminate; auto;
      cbn; tauto.
  - apply (@collect_ranges_needs E (cls_d E) Plus); try discriminate; auto;
      cbn; tauto.
Qed.

(** X10. In a record of either pass the ranges string is empty whenever
    the constraints text has no comparison sign (≤, [<], [=]) or no
    decimal digit: every template needs both. *)
Theorem ranges_need_sign_and_digit (E : PyEnv) (file_path : pystr)
    (p : problem) :
  result (extract_problem_improved E file_path) = Return (Some p) \/
  result (extract_problem_from_html_file E file_path) = Return (Some p) ->
  let text := ic_description (inputConstraints (constraints p)) in
  forallb (fun c => negb (N.eqb c 8804 || N.eqb c 60 || N.eqb c 61)) text
    = true \/
  forallb (fun c => negb (cls_d E c)) text = true ->
  ic_ranges (inputConstraints (constraints p)) = [].
Proof.
  intros [H|H]; cbv zeta.
  - apply improved_record_inv in H as (html & secs & d & _ & _ & _ & ->).
    unfold assemble_improved.
    cbn [constraints inputConstraints ic_ranges ic_description].
    intros Hno. unfold ranges_of.
    rewrite (collect_ranges_needs_sign_and_digit E _ Hno).
    now destruct (truthy _).
  - apply legacy_record_inv in H as (html & secs & d & _ & _ & _ & _ & ->).
    unfold assemble_legacy, extract_constraints_from_sections.
    cbn [constraints].
    destruct (truthy (first_constraints_text E _)) eqn:Ht;
      [|reflexivity].
    cbn [inputConstraints ic_ranges ic_description]. intros Hno.
    now rewrite (collect_ranges_needs_sign_and_digit E _ Hno).
Qed.

Lemma ranges_need_sign_witness :
  exists p,
    result (extract_problem_improved Sample2.env (lit "doc/p00008.html"))
      = Return (Some p) /\
    ic_description (inputConstraints (constraints p))
      = lit "N is at most 100" /\
    ic_ranges (inputConstraints (constraints p)) = [].
Proof.
  eexists. split; [vm_compute; reflexivity|]. split; [reflexivity|].
  refine (@ranges_need_sign_and_digit Sample2.env (lit "doc/p00008.html") _
            (or_introl _) (or_introl _)); vm_compute; reflexivity.
Defined.

(* ================================================================= *)
(** ** Further properties: the section map of the improved pass *)

(** X11. When the directly collected description text has 50 characters
    or more, the comments are not consulted: the description is the
    directly collected parts followed by the "Problem Statement" parts. *)
Theorem long_direct_text_skips_comments (E : PyEnv) (text : pystr)
    (contents : list node) (sections : PyDict.pydict) :
  html_parse E text = inl contents ->
  extract_sections_from_html_improved E text = Return sections ->
  let soup := BeautifulSoup contents in
  let direct := direct_description_parts E soup in
  50 <= length (join (lit " ") direct) ->
  PyDict.get sections (lit "description")
  = Some (join (lit " ") (direct ++ problem_statement_parts E soup)).
Proof.
  intros Hparse Hsec soup direct Hlong.
  rewrite (@improved_description_key _ _ _ _ Hparse Hsec).
  unfold improved_description.
  fold soup. fold direct. unfold comment_description_parts.
  apply Nat.ltb_ge in Hlong. now rewrite Hlong.
Qed.

Lemma long_direct_text_witness :
  exists sections,
    extract_sections_from_html_improved Sample.env Sample.doc_samples
      = Return sections /\
    PyDict.get sections (lit "description")
    = Some
        (lit "Print the given line once more, exactly as it was read from the input. N <= 10^5").
Proof.
  eexists. split; [vm_compute; reflexivity|].
  refine (@long_direct_text_skips_comments Sample.env Sample.doc_samples
            (Sample.build (Sample.lex Sample.doc_samples []
                             Sample.InText 0) [] [])
            _ eq_refl eq_refl _).
  vm_compute. lia.
Defined.

Lemma join_truthy (sep : pystr) (l : list pystr) :
  l <> [] -> Forall (fun x => truthy x = true) l ->
  truthy (join sep l) = true.
Proof.
  destruct l as [|x l]; [congruence|]. intros _ H.
  inversion H as [|? ? Hx _]; subst.
  destruct x as [|c x]; [discriminate|].
  destruct l; reflexivity.
Qed.

Lemma stripped_texts_truthy (E : PyEnv) (l : list node) :
  Forall (fun x => truthy x = true) (stripped_texts E l).
Proof.
  unfold stripped_texts. apply Forall_forall. intros x Hx.
  now apply filter_In in Hx.
Qed.

Lemma first_content_truthy (E : PyEnv) (soup : node) (names : list pystr)
    (t : pystr) :
  first_content E soup names = Some t -> truthy t = true.
Proof.
  induction names as [|name names IH]; cbn [first_content]; [discriminate|].
  destruct (section_content E soup name) as [|x l] eqn:Hc; [exact IH|].
  intros Heq.
  assert (t = join (lit " ") (x :: l)) as -> by congruence.
  apply join_truthy; [discriminate|].
  rewrite <- Hc. unfold section_content.
  destruct (find_string _ _ soup); [apply stripped_texts_truthy|constructor].
Qed.

Lemma keys_set (d : PyDict.pydict) (k v : pystr) :
  PyDict.keys (PyDict.set d k v) =
  if existsb (fun k' => PyStr.eqb k' k) (PyDict.keys d)
  then PyDict.keys d else PyDict.keys d ++ [k].
Proof.
  induction d as [|[k' v'] d IH]; [reflexivity|].
  cbn [PyDict.set PyDict.keys map fst existsb].
  destruct (PyStr.eqb k' k) eqn:Hk; cbn [orb map fst]; [reflexivity|].
  fold (PyDict.keys d). fold (PyDict.keys (PyDict.set d k v)).
  rewrite IH. now destruct (existsb _ (PyDict.keys d)).
Qed.

Lemma in_set (d : PyDict.pydict) (k0 v0 k v : pystr) :
  In (k, v) (PyDict.set d k0 v0) -> (k = k0 /\ v = v0) \/ In (k, v) d.
Proof.
  induction d as [|[k' v'] d IH]; cbn [PyDict.set].
  - intros [[= <- <-]|[]]. now left.
  - destruct (PyStr.eqb k' k0) eqn:Hk.
    + apply eqb_eq in Hk. subst k'.
      intros [[= <- <-]|Hin]; [now left|right; now right].
    + intros [Heq|Hin]; [right; now left|].
      destruct (IH Hin) as [?|?]; [now left|right; now right].
Qed.

Lemma get_In (d : PyDict.pydict) (k v : pystr) :
  PyDict.get d k = Some v -> In (k, v) d.
Proof.
  induction d as [|[k' v'] d IH]; cbn [PyDict.get]; [discriminate|].
  destruct (PyStr.eqb k' k) eqn:Hk.
  - apply eqb_eq in Hk. subst k'. intros [= <-]. now left.
  - intros H. right. now apply IH.
Qed.

(** The keys an improved section map may hold. *)
Lemma section_keys_allowed :
  forall m, In m section_mappings ->
  In (fst m)
    [lit "title"; lit "description"; lit "input"; lit "output";
     lit "constraints"; lit "sample input"; lit "sample output"] /\
  fst m <> lit "description".
Proof.
  intros m Hm. cbn in Hm.
  repeat (destruct Hm as [<-|Hm]; [cbn; split; [tauto|discriminate]|]).
  destruct Hm.
Qed.

(** The invariant of the section map of the improved pass. *)
Lemma section_map_invariant_set (allowed : list pystr)
    (d : PyDict.pydict) (k v : pystr) :
  NoDup (PyDict.keys d) -> incl (PyDict.keys d) allowed ->
  (forall k' v', In (k', v') d -> k' <> lit "description" ->
     truthy v' = true) ->
  In k allowed -> (k <> lit "description" -> truthy v = true) ->
  NoDup (PyDict.keys (PyDict.set d k v)) /\
  incl (PyDict.keys (PyDict.set d k v)) allowed /\
  (forall k' v', In (k', v') (PyDict.set d k v) ->
     k' <> lit "description" -> truthy v' = true).
Proof.
  intros Hnd Hincl Hval Hk Hv. rewrite keys_set.
  destruct (existsb _ (PyDict.keys d)) eqn:Hex.
  - repeat split; auto.
    intros k' v' Hin Hne. apply in_set in Hin as [[-> ->]|Hin]; eauto.
  - repeat split.
    + apply NoDup_app; [exact Hnd|constructor; [intros []|constructor]|].
      intros x Hx [Heq|[]]. subst x.
      assert (existsb (fun k' => PyStr.eqb k' k) (PyDict.keys d) = true)
        as Habs by (apply existsb_exists; exists k; split;
                    [exact Hx|apply eqb_refl]).
      congruence.
    + intros x Hx. apply in_app_or in Hx as [Hx|[<-|[]]]; auto.
    + intros k' v' Hin Hne. apply in_set in Hin as [[-> ->]|Hin]; eauto.
Qed.

(** X12. The section map of the improved pass holds each key at most
    once, only the seven keys title, description, input, output,
    constraints, sample input and sample output, and always description;
    every stored text other than the description is non-empty. *)
Theorem improved_section_map_invariant (E : PyEnv)
    (html_content : pystr) (sections : PyDict.pydict) :
  extract_sections_from_html_improved E html_content = Return sections ->
  NoDup (PyDict.keys sections) /\
  incl (PyDict.keys sections)
    [lit "title"; lit "description"; lit "input"; lit "output";
     lit "constraints"; lit "sample input"; lit "sample output"] /\
  (exists d, PyDict.get sections (lit "description") = Some d) /\
  (forall k v, PyDict.get sections k = Some v ->
     k <> lit "description" -> truthy v = true).
Proof.
  set (allowed :=
         [lit "title"; lit "description"; lit "input"; lit "output";
          lit "constraints"; lit "sample input"; lit "sample output"]).
  set (Inv := fun d : PyDict.pydict =>
         NoDup (PyDict.keys d) /\ incl (PyDict.keys d) allowed /\
         (forall k' v', In (k', v') d -> k' <> lit "description" ->
            truthy v' = true)).
  assert (Hfill : forall soup ms d,
             (forall m, In m ms -> In m section_mappings) -> Inv d ->
             Inv (fold_left
                    (fun sections m =>
                       match first_content E soup (snd m) with
                       | Some text => PyDict.set sections (fst m) text
                       | None => sections
                       end) ms d)).
  { intros soup ms. induction ms as [|m ms IH]; intros d Hms Hd;
      [exact Hd|].
    cbn [fold_left]. apply IH; [intros; apply Hms; now right|].
    destruct (first_content E soup (snd m)) as [t|] eqn:Ht; [|exact Hd].
    destruct Hd as (H1 & H2 & H3).
    destruct (@section_keys_allowed m (Hms m (or_introl eq_refl)))
      as [Hin Hne].
    apply section_map_invariant_set; auto.
    intros _. exact (@first_content_truthy E soup (snd m) t Ht). }
  assert (Hinit : forall title description,
             Inv (PyDict.set
                    (if truthy title
                     then PyDict.set [] (lit "title") title else [])
                    (lit "description") description)).
  { intros t desc.
    assert (Inv []) as Hnil
      by (repeat split; [constructor|intros x []|intros ? ? []]).
    assert (Inv (if truthy t then PyDict.set [] (lit "title") t else []))
      as (H1 & H2 & H3).
    { destruct (truthy t) eqn:Ht; [|exact Hnil].
      destruct Hnil as (H1 & H2 & H3).
      apply section_map_invariant_set; auto; cbn; tauto. }
    apply section_map_invariant_set; auto; try (cbn; tauto).
    all: intros Hne; now elim Hne. }
  unfold extract_sections_from_html_improved.
  destruct (parse_markup E html_content) as [soup|e]; cbn [bind];
    [|discriminate].
  destruct (extract_title_flexible E soup) as [title|e]; cbn [bind];
    [|discriminate].
  intros Hsec.
  assert (sections =
            fill_sections E soup
              (PyDict.set
                 (if truthy title
                  then PyDict.set [] (lit "title") title else [])
                 (lit "description") (improved_description E soup)))
    as -> by congruence.
  destruct (Hfill soup section_mappings _ (fun m H => H)
              (Hinit title (improved_description E soup)))
    as (H1 & H2 & H3).
  fold (fill_sections E soup
          (PyDict.set
             (if truthy title then PyDict.set [] (lit "title") title else [])
             (lit "description") (improved_description E soup)))
    in H1, H2, H3.
  split; [exact H1|]. split; [exact H2|]. split.
  - eexists. rewrite fill_sections_other by reflexivity. apply get_set_same.
  - intros k v Hget Hne. apply get_In in Hget. eauto.
Qed.

Lemma improved_section_map_witness :
  exists sections,
    extract_sections_from_html_improved Sample.env Sample.doc_samples
      = Return sections /\
    NoDup (PyDict.keys sections) /\
    exists d, PyDict.get sections (lit "description") = Some d.
Proof.
  eexists. split; [vm_compute; reflexivity|].
  pose proof (@improved_section_map_invariant Sample.env Sample.doc_samples
                _ eq_refl) as (H1 & _ & H3 & _).
  exact (conj H1 H3).
Defined.

(* ================================================================= *)
(** ** Further properties: normalized text, comments, titles *)

Section Edges.
Variable isspace : char -> bool.

Lemma head_ok_lstrip (s : pystr) : head_ok isspace (lstrip isspace s) = true.
Proof.
  induction s as [|c s IH]; [reflexivity|]. cbn [lstrip].
  destruct (isspace c) eqn:Hc; [exact IH|]. cbn. now rewrite Hc.
Qed.

Lemma lstrip_head_ok (s : pystr) :
  head_ok isspace s = true -> lstrip isspace s = s.
Proof.
  destruct s as [|c s]; [reflexivity|]. cbn.
  intros H. apply negb_true_iff in H. now rewrite H.
Qed.

Lemma lstrip_suffix (s : pystr) : exists pre, s = pre ++ lstrip isspace s.
Proof.
  induction s as [|c s [pre IH]]; [now exists []|]. cbn [lstrip].
  destruct (isspace c); [|now exists []].
  exists (c :: pre). cbn. now rewrite <- IH.
Qed.

Lemma head_ok_app (a b : pystr) :
  a <> [] -> head_ok isspace (a ++ b) = head_ok isspace a.
Proof. destruct a; [congruence|reflexivity]. Qed.

Lemma head_ok_prefix (a b : pystr) :
  head_ok isspace (a ++ b) = true -> head_ok isspace a = true.
Proof. destruct a; [reflexivity|exact (fun H => H)]. Qed.

Lemma strip_edges_ok (s : pystr) : edges_ok isspace (strip isspace s).
Proof.
  unfold strip, rstrip, edges_ok.
  set (t := lstrip isspace s).
  destruct (lstrip_suffix (rev t)) as [pre Hpre].
  split.
  - assert (t = rev (lstrip isspace (rev t)) ++ rev pre) as Ht.
    { rewrite <- rev_app_distr, <- Hpre. now rewrite rev_involutive. }
    apply (@head_ok_prefix _ (rev pre)). rewrite <- Ht.
    apply head_ok_lstrip.
  - rewrite rev_involutive. apply head_ok_lstrip.
Qed.

Lemma strip_fixed (s : pystr) : edges_ok isspace s -> strip isspace s = s.
Proof.
  intros [Hh Hl]. unfold strip, rstrip.
  rewrite (lstrip_head_ok _ Hh), (lstrip_head_ok _ Hl).
  apply rev_involutive.
Qed.

Lemma join_edges_ok (sep : pystr) (l : list pystr) :
  Forall (fun x => truthy x = true /\ edges_ok isspace x) l ->
  edges_ok isspace (join sep l).
Proof.
  induction l as [|x l IH]; intros H; [now split|].
  inversion H as [|? ? [Hx [Hxh Hxl]] Hl]; subst.
  destruct l as [|y l]; [now split|].
  specialize (IH Hl). destruct IH as [_ IHl].
  assert (join sep (y :: l) <> []) as Hne.
  { inversion Hl as [|? ? [Hy _] _]; subst.
    destruct y; [discriminate|]. destruct l; discriminate. }
  change (join sep (x :: y :: l)) with (x ++ sep ++ join sep (y :: l)).
  split.
  - rewrite head_ok_app; [exact Hxh|]. destruct x; [discriminate|congruence].
  - rewrite !rev_app_distr, <- app_assoc.
    rewrite head_ok_app; [exact IHl|].
    intros Hrev. apply Hne.
    apply (f_equal (@rev char)) in Hrev. now rewrite rev_involutive in Hrev.
Qed.

End Edges.

Lemma normalized_text_is_stripped (E : PyEnv) (soup : node) :
  py_strip E (normalized_text E soup) = normalized_text E soup.
Proof.
  unfold py_strip. apply strip_fixed. unfold normalized_text.
  apply join_edges_ok. apply Forall_forall. intros x Hx.
  apply filter_In in Hx as [Hx Ht]. split; [exact Ht|].
  apply in_flat_map in Hx as (line & _ & Hx).
  apply in_map_iff in Hx as (phrase & <- & _).
  apply strip_edges_ok.
Qed.

(** X13. Normalized text has no whitespace at either end: stripping the
    result of [clean_html_text] changes nothing. *)
Theorem clean_html_text_is_stripped (E : PyEnv) (html_content t : pystr) :
  clean_html_text E html_content = Return t ->
  py_strip E t = t.
Proof.
  unfold clean_html_text.
  destruct (negb (truthy html_content)).
  - intros [= <-]. unfold py_strip. apply strip_fixed. now split.
  - destruct (parse_markup E html_content) as [soup|e]; cbn [bind];
      [|discriminate].
    intros [= <-]. apply normalized_text_is_stripped.
Qed.

Lemma clean_html_text_witness :
  clean_html_text Sample.env (lit "<h1>  Add  Two </h1>")
    = Return (lit "Add Two") /\
  py_strip Sample.env (lit "Add Two") = lit "Add Two".
Proof.
  split; [vm_compute; reflexivity|].
  apply (@clean_html_text_is_stripped Sample.env
           (lit "<h1>  Add  Two </h1>")).
  vm_compute. reflexivity.
Defined.

Lemma join_length_head (sep x : pystr) (l : list pystr) :
  length x <= length (join sep (x :: l)).
Proof.
  destruct l; cbn [join]; [lia|]. rewrite length_app. lia.
Qed.

(** X14. The comment harvester returns either nothing or more than 20
    characters: comments whose normalized text has 20 characters or fewer
    never contribute. *)
Theorem harvest_is_empty_or_long (E : PyEnv) (soup : node) :
  extract_from_comments E soup = [] \/
  20 < length (extract_from_comments E soup).
Proof.
  unfold extract_from_comments.
  set (kept := flat_map _ (find_comments soup)).
  assert (Forall (fun t => 20 < length t) kept) as Hall.
  { apply Forall_forall. intros t Ht.
    apply in_flat_map in Ht as (comment & _ & Ht).
    destruct (comment_text E comment) as [text|e]; [|destruct Ht].
    destruct (truthy _ && (20 <? _)) eqn:Hc; [|destruct Ht].
    destruct Ht as [<-|[]].
    apply andb_true_iff in Hc as [_ Hc]. now apply Nat.ltb_lt in Hc. }
  destruct kept as [|x l]; [now left|right].
  inversion Hall; subst.
  pose proof (join_length_head (lit " ") x l). lia.
Qed.

Lemma filter_head (A : Type) (f : A -> bool) (l : list A) (x : A)
    (r : list A) :
  filter f l = x :: r -> f x = true.
Proof.
  intros H. assert (In x (filter f l)) as Hin by (rewrite H; now left).
  now apply filter_In in Hin.
Qed.

(** X15. When the H1 strategy does not produce the title, the title
    [extract_title_flexible] returns is shorter than 200 characters and
    has no whitespace at either end. *)
Theorem fallback_title_is_short (E : PyEnv) (soup : node) :
  title_from_h1 E soup = Return None ->
  exists t,
    extract_title_flexible E soup = Return t /\
    length t < 200 /\
    py_strip E t = t.
Proof.
  intros Hh1. unfold extract_title_flexible. rewrite Hh1. cbn [bind].
  eexists. split; [reflexivity|]. unfold title_without_h1.
  assert (Hstrip : forall s,
             py_strip E (py_strip E s) = py_strip E s)
    by (intros s; apply strip_fixed, strip_edges_ok).
  destruct (title_from_problem_statement E soup) as [t|] eqn:H2.
  { unfold title_from_problem_statement in H2.
    destruct (find_string _ _ soup); [|discriminate].
    destruct (filter _ _) as [|line r] eqn:Hf; [discriminate|].
    injection H2 as <-. apply filter_head in Hf.
    apply andb_true_iff in Hf as [_ Hlen]. apply Nat.ltb_lt in Hlen.
    split; [lia|apply Hstrip]. }
  destruct (title_from_headings E soup) as [t|] eqn:H3.
  { unfold title_from_headings in H3.
    destruct (filter _ _) as [|text r] eqn:Hf; [discriminate|].
    injection H3 as <-.
    assert (In text (filter
              (fun text => truthy text && (length text <? 100) &&
                           negb (mem text heading_stoplist))
              (map (fun tag => py_strip E (get_text (el_node tag)))
                 (find_all [lit "h1"; lit "h2"; lit "h3"; lit "title"]
                    soup)))) as Hin by (rewrite Hf; now left).
    apply filter_In in Hin as [Hin Hp].
    apply andb_true_iff in Hp as [Hp _].
    apply andb_true_iff in Hp as [_ Hlen]. apply Nat.ltb_lt in Hlen.
    split; [lia|].
    apply in_map_iff in Hin as (tag & <- & _). apply Hstrip. }
  destruct (title_from_comments E soup) as [t|] eqn:H4.
  { unfold title_from_comments in H4.
    destruct (truthy (extract_from_comments E soup)); [|discriminate].
    destruct (filter _ _) as [|line r] eqn:Hf; [discriminate|].
    injection H4 as <-. apply filter_head in Hf.
    apply andb_true_iff in Hf as [_ Hlen]. apply Nat.ltb_lt in Hlen.
    split; [exact Hlen|apply Hstrip]. }
  split; [cbn; lia|reflexivity].
Qed.

Lemma fallback_title_is_short_witness :
  extract_title_flexible Sample.env
    (BeautifulSoup
       (Sample.build (Sample.lex Sample.doc_sparse [] Sample.InText 0)
          [] []))
    = Return (lit "A hidden statement that is long enough") /\
  exists t,
    extract_title_flexible Sample.env
      (BeautifulSoup
         (Sample.build (Sample.lex Sample.doc_sparse [] Sample.InText 0)
            [] []))
      = Return t /\
    length t < 200 /\
    py_strip Sample.env t = t.
Proof.
  split; [vm_compute; reflexivity|].
  exact (@fallback_title_is_short Sample.env
           (BeautifulSoup
              (Sample.build (Sample.lex Sample.doc_sparse [] Sample.InText 0)
                 [] []))
           eq_refl).
Defined.

(* ================================================================= *)
(** ** Further properties: the fields of a record *)

(** X16. Every record, of either pass, carries the identifier taken from
    the file name, the file path as source and provenance, the fixed note,
    the four static code templates, no test case, and no time limit,
    memory limit or language restriction. *)
Theorem record_static_fields (E : PyEnv) (file_path : pystr) (p : problem) :
  result (extract_problem_improved E file_path) = Return (Some p) \/
  result (extract_problem_from_html_file E file_path) = Return (Some p) ->
  questionId (basicInfo p) = path_stem file_path /\
  source (basicInfo p) = file_path /\
  extractedFrom (metadata p) = file_path /\
  notes (metadata p) =
    lit "Extracted from Project CodeNet problem " ++ path_stem file_path /\
  codeTemplates p = templates /\
  testCases (examples p) = [] /\
  timeLimit (constraints p) = None /\
  memoryLimit (constraints p) = None /\
  languageRestrictions (constraints p) = [].
Proof.
  intros [H|H].
  - apply improved_record_inv in H as (text & secs & d & _ & _ & _ & ->).
    unfold assemble_improved, extract_examples_improved.
    destruct (truthy _ && truthy _); repeat split.
  - apply legacy_record_inv in H as (text & secs & d & _ & _ & _ & _ & ->).
    unfold assemble_legacy, extract_constraints_from_sections.
    destruct (truthy (first_constraints_text E _)); repeat split.
Qed.

Lemma record_static_fields_witness :
  exists p,
    result (extract_problem_from_html_file Sample.env (lit "doc/p00003.html"))
      = Return (Some p) /\
    questionId (basicInfo p) = lit "p00003" /\
    codeTemplates p = templates.
Proof.
  eexists. split; [vm_compute; reflexivity|]. split; [reflexivity|].
  refine (proj1 (proj2 (proj2 (proj2 (proj2
            (@record_static_fields Sample.env (lit "doc/p00003.html") _
               (or_intror _))))))).
  vm_compute. reflexivity.
Defined.

(** X17. When the section map of the improved pass has no title, the
    record is titled "Problem " followed by the identifier. *)
Theorem missing_title_becomes_identifier (E : PyEnv)
    (file_path text : pystr) (sections : PyDict.pydict) (p : problem) :
  read_text E file_path = inl text ->
  extract_sections_from_html_improved E text = Return sections ->
  PyDict.has sections (lit "title") = false ->
  result (extract_problem_improved E file_path) = Return (Some p) ->
  title (basicInfo p) = lit "Problem " ++ path_stem file_path.
Proof.
  intros Hread Hsec Hno H.
  apply improved_record_inv in H
    as (text' & secs & d & Hread' & _ & Hsec' & ->).
  assert (text' = text) as -> by congruence.
  assert (secs = sections) as -> by congruence.
  unfold assemble_improved. cbn [title basicInfo].
  unfold with_fallback_title. rewrite Hno. cbn [negb].
  unfold PyDict.get_default. now rewrite get_set_same.
Qed.

Lemma missing_title_witness :
  exists p,
    result (extract_problem_improved Sample2.env (lit "doc/p00006.html"))
      = Return (Some p) /\
    title (basicInfo p) = lit "Problem p00006".
Proof.
  eexists. split; [vm_compute; reflexivity|].
  eapply (@missing_title_becomes_identifier Sample2.env
            (lit "doc/p00006.html") Sample2.doc_untitled).
  - reflexivity.
  - vm_compute. reflexivity.
  - reflexivity.
  - vm_compute. reflexivity.
Defined.

(** X18. The confidence of a legacy record is 0.8 when its description is
    non-empty and it has a sample case, and 0.6 otherwise, both read off
    the record. *)
Theorem legacy_confidence_two_values (E : PyEnv) (file_path : pystr)
    (p : problem) :
  result (extract_problem_from_html_file E file_path) = Return (Some p) ->
  confidence (metadata p) =
    (if truthy (description (basicInfo p))
        && nonempty (sampleCases (examples p))
     then 0.8 else 0.6)%float.
Proof.
  intros H. apply legacy_record_inv in H as (text & secs & d & _ & _ & _ & _ & ->).
  unfold assemble_legacy.
  cbn [confidence metadata description basicInfo examples].
  now rewrite has_get_default.
Qed.

Lemma legacy_confidence_witness :
  exists p,
    result (extract_problem_from_html_file Sample.env (lit "doc/p00005.html"))
      = Return (Some p) /\
    confidence (metadata p) = 0.8%float.
Proof.
  eexists. split; [vm_compute; reflexivity|].
  refine (@legacy_confidence_two_values Sample.env
            (lit "doc/p00005.html") _ _).
  vm_compute. reflexivity.
Defined.

(* ================================================================= *)
(** ** Further properties: the drivers *)

Lemma py_print_raises (E : PyEnv) (line : pystr) (e : exn) :
  result (py_print E line) = Raise e -> stdout_write E line = Some e.
Proof.
  unfold py_print. destruct (stdout_write E line) as [e'|]; cbn;
    [congruence|discriminate].
Qed.

Lemma print_when_raises (E : PyEnv) (cond : bool) (line : pystr) (e : exn) :
  result (print_when E cond line) = Raise e -> stdout_write E line = Some e.
Proof.
  unfold print_when. destruct cond; [apply py_print_raises|discriminate].
Qed.

(** An entry point raises only what printing its diagnostic raises. *)
Lemma improved_call_raises (E : PyEnv) (file_path : pystr) (e : exn) :
  result (extract_problem_improved E file_path) = Raise e ->
  exists line, stdout_write E line = Some e.
Proof.
  intros H.
  destruct (@guarded_raises E file_path _ _ e
              (try_except_guarded E file_path
                 (improved_body_raises E file_path)) H)
    as (e0 & _ & Hw).
  now exists (error_line file_path e0).
Qed.

Lemma legacy_call_raises (E : PyEnv) (file_path : pystr) (e : exn) :
  result (extract_problem_from_html_file E file_path) = Raise e ->
  exists line, stdout_write E line = Some e.
Proof.
  intros H.
  destruct (@guarded_raises E file_path _ _ e
              (try_except_guarded E file_path
                 (legacy_body_raises E file_path)) H)
    as (e0 & _ & Hw).
  now exists (error_line file_path e0).
Qed.

(** What the loop of the improved driver ends with: the batch of every
    file, or an exception of [print]. *)
Lemma main_loop_improved_spec (E : PyEnv) (total : nat)
    (html_files : list pystr) :
  forall problems processed skipped,
  match
    result (main_loop_improved E total html_files problems processed skipped)
  with
  | Return b =>
      batch_problems b =
        problems ++
        flat_map
          (fun f =>
             match result (extract_problem_improved E f) with
             | Return (Some p) => [p]
             | _ => []
             end) html_files /\
      batch_processed b = processed + length html_files /\
      length (batch_problems b) + batch_skipped b
        = length problems + skipped + length html_files
  | Raise e => exists line, stdout_write E line = Some e
  end.
Proof.
  induction html_files as [|f files IH]; intros problems processed skipped.
  - cbn. rewrite app_nil_r. repeat split; lia.
  - cbn [main_loop_improved]. cbv zeta.
    destruct (result (print_when E (processed mod 100 =? 0)
                        (progress_line_improved processed total skipped)))
      as [u|e] eqn:Hpr;
      [|cbn [result]; eexists; exact (print_when_raises _ _ _ Hpr)].
    destruct (result (extract_problem_improved E f)) as [v|e] eqn:Hv;
      [|cbn [result]; exact (improved_call_raises _ _ Hv)].
    cbn [result flat_map]. rewrite Hv.
    destruct v as [p|].
    + specialize (IH (problems ++ [p]) (processed + 1) skipped).
      destruct (result (main_loop_improved E total files (problems ++ [p])
                          (processed + 1) skipped)) as [b|e]; [|exact IH].
      destruct IH as (Hps & Hn & Hlen). split; [|split].
      * rewrite Hps, <- app_assoc. reflexivity.
      * rewrite Hn. cbn. lia.
      * rewrite Hlen, length_app. cbn. lia.
    + specialize (IH problems (processed + 1) (skipped + 1)).
      destruct (result (main_loop_improved E total files problems
                          (processed + 1) (skipped + 1))) as [b|e];
        [|exact IH].
      destruct IH as (Hps & Hn & Hlen). split; [|split].
      * exact Hps.
      * rewrite Hn. cbn. lia.
      * rewrite Hlen. cbn. lia.
Qed.

Lemma main_extract_improved_spec (E : PyEnv) (sorted_files : list pystr) :
  match result (main_extract_improved E sorted_files) with
  | Return b =>
      batch_problems b =
        flat_map
          (fun f =>
             match result (extract_problem_improved E f) with
             | Return (Some p) => [p]
             | _ => []
             end) sorted_files /\
      batch_processed b = length sorted_files /\
      length (batch_problems b) + batch_skipped b = length sorted_files
  | Raise e => exists line, stdout_write E line = Some e
  end.
Proof.
  unfold main_extract_improved. cbv zeta.
  pose proof (main_loop_improved_spec E (length sorted_files) sorted_files
                [] 0 0) as Hloop.
  destruct (result (main_loop_improved E (length sorted_files) sorted_files
                      [] 0 0)) as [b|e]; [|exact Hloop].
  destruct (result (py_print E _)) as [u|e] eqn:Hpr; cbn [result].
  - exact Hloop.
  - eexists. exact (py_print_raises _ _ Hpr).
Qed.

(** X19. The loop of the improved driver stops early only when a [print]
    raises; no fault of a document stops it.  Whenever it returns, it has
    visited every file: the records are exactly those of the files whose
    extraction gives one, in file order, and the number of records plus the
    number of skips is the number of files.  With an output stream that
    takes every line it returns. *)
Theorem improved_batch_is_complete (E : PyEnv) (sorted_files : list pystr) :
  (forall b,
     result (main_extract_improved E sorted_files) = Return b ->
     batch_problems b =
       flat_map
         (fun f =>
            match result (extract_problem_improved E f) with
            | Return (Some p) => [p]
            | _ => []
            end) sorted_files /\
     batch_processed b = length sorted_files /\
     length (batch_problems b) + batch_skipped b = length sorted_files) /\
  (forall e,
     result (main_extract_improved E sorted_files) = Raise e ->
     exists line, stdout_write E line = Some e) /\
  ((forall line, stdout_write E line = None) ->
   exists b, result (main_extract_improved E sorted_files) = Return b).
Proof.
  pose proof (main_extract_improved_spec E sorted_files) as H.
  destruct (result (main_extract_improved E sorted_files)) as [b|e].
  - split; [|split].
    + now intros b' [= <-].
    + discriminate.
    + intros _. now exists b.
  - split; [|split].
    + discriminate.
    + now intros e' [= <-].
    + intros Hout. destruct H as [line Hline].
      rewrite Hout in Hline. discriminate.
Qed.

(** A missing file and a document the parser rejects are skipped, and the
    two files after them are still extracted. *)
Lemma improved_batch_witness :
  exists b,
    result
      (main_extract_improved Sample.env
         [lit "doc/missing.html"; lit "doc/p00009.html";
          lit "doc/p00001.html"; lit "doc/p00004.html"]) = Return b /\
    length (batch_problems b) = 2 /\
    batch_skipped b = 2 /\
    batch_processed b = 4.
Proof.
  pose proof (@improved_batch_is_complete Sample.env
                [lit "doc/missing.html"; lit "doc/p00009.html";
                 lit "doc/p00001.html"; lit "doc/p00004.html"])
    as (Hret & _ & Hout).
  destruct (Hout (fun line => eq_refl)) as [b Hb].
  exists b. split; [exact Hb|].
  destruct (Hret b Hb) as (Hps & Hn & Hlen).
  assert (length (batch_problems b) = 2) as Hl
    by (rewrite Hps; vm_compute; reflexivity).
  split; [exact Hl|]. split; [|exact Hn].
  rewrite Hl in Hlen. cbn in Hlen. lia.
Defined.

(** What the loop of the legacy driver ends with. *)
Lemma main_loop_legacy_spec (E : PyEnv) (total : nat)
    (html_files : list pystr) :
  forall problems processed,
  match result (main_loop_legacy E total html_files problems processed) with
  | Return r =>
      r =
        (problems ++
         flat_map
           (fun f =>
              match result (extract_problem_from_html_file E f) with
              | Return (Some p) => [p]
              | _ => []
              end) html_files,
         processed + length html_files)
  | Raise e => exists line, stdout_write E line = Some e
  end.
Proof.
  induction html_files as [|f files IH]; intros problems processed.
  - cbn. now rewrite app_nil_r, Nat.add_0_r.
  - cbn [main_loop_legacy]. cbv zeta.
    destruct (result (print_when E (processed mod 100 =? 0)
                        (progress_line_legacy processed total)))
      as [u|e] eqn:Hpr;
      [|cbn [result]; eexists; exact (print_when_raises _ _ _ Hpr)].
    destruct (result (extract_problem_from_html_file E f)) as [v|e] eqn:Hv;
      [|cbn [result]; exact (legacy_call_raises _ _ Hv)].
    cbn [result flat_map]. rewrite Hv.
    destruct v as [p|].
    + specialize (IH (problems ++ [p]) (processed + 1)).
      destruct (result (main_loop_legacy E total files (problems ++ [p])
                          (processed + 1))) as [r|e]; [|exact IH].
      rewrite IH, <- app_assoc. cbn [app length].
      now replace (processed + 1 + length files)
        with (processed + S (length files)) by lia.
    + specialize (IH problems (processed + 1)).
      destruct (result (main_loop_legacy E total files problems
                          (processed + 1))) as [r|e]; [|exact IH].
      rewrite IH. cbn [app length].
      now replace (processed + 1 + length files)
        with (processed + S (length files)) by lia.
Qed.

(** X20. The loop of the legacy driver, entered with no record and count
    0, stops early only when a [print] raises; no fault of a document
    stops it.  Whenever it returns, it returns the records of the files
    whose extraction gives one, in file order, and the count of files.
    With an output stream that takes every line it returns. *)
Theorem legacy_batch_is_complete (E : PyEnv) (sorted_files : list pystr) :
  (forall r,
     result (main_loop_legacy E (length sorted_files) sorted_files [] 0)
       = Return r ->
     r =
       (flat_map
          (fun f =>
             match result (extract_problem_from_html_file E f) with
             | Return (Some p) => [p]
             | _ => []
             end) sorted_files,
        length sorted_files)) /\
  (forall e,
     result (main_loop_legacy E (length sorted_files) sorted_files [] 0)
       = Raise e ->
     exists line, stdout_write E line = Some e) /\
  ((forall line, stdout_write E line = None) ->
   exists r,
     result (main_loop_legacy E (length sorted_files) sorted_files [] 0)
       = Return r).
Proof.
  pose proof (main_loop_legacy_spec E (length sorted_files) sorted_files
                [] 0) as H.
  destruct (result (main_loop_legacy E (length sorted_files) sorted_files
                      [] 0)) as [r|e].
  - split; [|split].
    + intros r' [= <-]. exact H.
    + discriminate.
    + intros _. now exists r.
  - split; [|split].
    + discriminate.
    + now intros e' [= <-].
    + intros Hout. destruct H as [line Hline].
      rewrite Hout in Hline. discriminate.
Qed.

Lemma legacy_batch_witness :
  exists r,
    result
      (main_loop_legacy Sample.env 4
         [lit "doc/missing.html"; lit "doc/p00009.html";
          lit "doc/p00001.html"; lit "doc/p00003.html"] [] 0) = Return r /\
    length (fst r) = 2 /\ snd r = 4.
Proof.
  pose proof (@legacy_batch_is_complete Sample.env
                [lit "doc/missing.html"; lit "doc/p00009.html";
                 lit "doc/p00001.html"; lit "doc/p00003.html"])
    as (Hret & _ & Hout).
  destruct (Hout (fun line => eq_refl)) as [r Hr].
  exists r. split; [exact Hr|].
  rewrite (Hret r Hr). split; vm_compute; reflexivity.
Defined.

Lemma counter_total_incr (c : counter) (k : pystr) :
  counter_total (counter_incr c k) = counter_total c + 1.
Proof.
  unfold counter_incr, counter_total.
  induction c as [|[k' n] c IH]; [reflexivity|].
  cbn [count_of counter_set]. destruct (PyStr.eqb k' k).
  - cbn. lia.
  - cbn [fold_right snd]. rewrite IH. lia.
Qed.

Lemma improved_level_not_low (E : PyEnv) (file_path : pystr) (p : problem) :
  result (extract_problem_improved E file_path) = Return (Some p) ->
  confidence_level (confidence (metadata p)) = lit "high" \/
  confidence_level (confidence (metadata p)) = lit "medium".
Proof.
  intros H. apply improved_confidence in H as [Ht ->]. rewrite Ht.
  destruct (record_long_description p), (record_has_examples p),
    (record_has_constraints p); vm_compute; tauto.
Qed.

Lemma main_statistics_fold (problems : list problem) :
  forall d c a b,
  Forall
    (fun p =>
       confidence_level (confidence (metadata p)) = lit "high" \/
       confidence_level (confidence (metadata p)) = lit "medium")
    problems ->
  exists d' c' a' b',
    fold_left
      (fun (acc : counter * counter * counter) problem =>
         let '(difficulties, categories, confidence_levels) := acc in
         let diff := difficulty (basicInfo problem) in
         let cat := category (basicInfo problem) in
         let conf := confidence (metadata problem) in
         (counter_incr difficulties diff,
          counter_incr categories cat,
          counter_incr confidence_levels (confidence_level conf)))
      problems
      (d, c, [(lit "high", a); (lit "medium", b); (lit "low", 0)])
    = (d', c', [(lit "high", a'); (lit "medium", b'); (lit "low", 0)]) /\
    counter_total d' = counter_total d + length problems /\
    counter_total c' = counter_total c + length problems /\
    a' + b' = a + b + length problems.
Proof.
  induction problems as [|p ps IH]; intros d c a b Hall.
  - exists d, c, a, b. cbn. repeat split; lia.
  - inversion Hall as [|? ? Hp Hps]; subst. cbn [fold_left length].
    destruct Hp as [Hp|Hp]; rewrite Hp.
    + destruct (IH (counter_incr d (difficulty (basicInfo p)))
                   (counter_incr c (category (basicInfo p)))
                   (a + 1) b Hps)
        as (d' & c' & a' & b' & Hf & Hd & Hc & Hab).
      exists d', c', a', b'. split; [exact Hf|].
      rewrite Hd, Hc, !counter_total_incr. repeat split; lia.
    + destruct (IH (counter_incr d (difficulty (basicInfo p)))
                   (counter_incr c (category (basicInfo p)))
                   a (b + 1) Hps)
        as (d' & c' & a' & b' & Hf & Hd & Hc & Hab).
      exists d', c', a', b'. split; [exact Hf|].
      rewrite Hd, Hc, !counter_total_incr. repeat split; lia.
Qed.

Lemma improved_batch_levels (E : PyEnv) (sorted_files : list pystr)
    (b : batch) (out : list pystr) :
  main_extract_improved E sorted_files = Run (Return b) out ->
  Forall
    (fun p =>
       confidence_level (confidence (metadata p)) = lit "high" \/
       confidence_level (confidence (metadata p)) = lit "medium")
    (batch_problems b).
Proof.
  intros Hrun.
  pose proof (main_extract_improved_spec E sorted_files) as Hspec.
  rewrite Hrun in Hspec. cbn [result] in Hspec.
  destruct Hspec as (Hps & _).
  rewrite Hps. apply Forall_forall. intros p Hp.
  apply in_flat_map in Hp as (f & _ & Hp).
  destruct (result (extract_problem_improved E f)) as [[q|]|e] eqn:Hf;
    [|destruct Hp|destruct Hp].
  destruct Hp as [<-|[]]. exact (improved_level_not_low _ _ Hf).
Qed.

(** X21. In the summary of the improved driver, the difficulty tally, the
    category tally and the "high" and "medium" confidence counts each add
    up to the number of records of the batch, and the "low" count is 0. *)
Theorem improved_summary_adds_up (E : PyEnv) (sorted_files : list pystr)
    (b : batch) (out : list pystr) :
  main_extract_improved E sorted_files = Run (Return b) out ->
  exists difficulties categories high medium,
    main_statistics (batch_problems b) =
      (difficulties, categories,
       [(lit "high", high); (lit "medium", medium); (lit "low", 0)]) /\
    counter_total difficulties = length (batch_problems b) /\
    counter_total categories = length (batch_problems b) /\
    high + medium = length (batch_problems b).
Proof.
  intros Hrun.
  pose proof (improved_batch_levels _ _ Hrun) as Hall.
  destruct (main_statistics_fold [] [] 0 0 Hall)
    as (d' & c' & a' & b' & Hf & Hd & Hc & Hab).
  exists d', c', a', b'. split; [exact Hf|].
  cbn in Hd, Hc, Hab. auto.
Qed.

Lemma improved_summary_witness :
  exists b out,
    main_extract_improved Sample.env
      [lit "doc/blank.html"; lit "doc/missing.html";
       lit "doc/p00001.html"; lit "doc/p00004.html"]
      = Run (Return b) out /\
    length (batch_problems b) = 2 /\ batch_skipped b = 2 /\
    exists difficulties categories high medium,
      main_statistics (batch_problems b) =
        (difficulties, categories,
         [(lit "high", high); (lit "medium", medium); (lit "low", 0)]) /\
      counter_total difficulties = length (batch_problems b) /\
      counter_total categories = length (batch_problems b) /\
      high + medium = length (batch_problems b).
Proof.
  eexists. eexists. split; [vm_compute; reflexivity|].
  split; [reflexivity|]. split; [reflexivity|].
  refine (@improved_summary_adds_up Sample.env
            [lit "doc/blank.html"; lit "doc/missing.html";
             lit "doc/p00001.html"; lit "doc/p00004.html"] _ _ _).
  vm_compute. reflexivity.
Defined.

(* ================================================================= *)
(** ** Further properties: the section map of the legacy pass *)

Lemma NoDup_keys_set (d : PyDict.pydict) (k v : pystr) :
  NoDup (PyDict.keys d) -> NoDup (PyDict.keys (PyDict.set d k v)).
Proof.
  intros Hnd. rewrite keys_set.
  destruct (existsb _ (PyDict.keys d)) eqn:Hex; [exact Hnd|].
  apply NoDup_app; [exact Hnd|constructor; [intros []|constructor]|].
  intros x Hx [Heq|[]]. subst x.
  assert (existsb (fun k' => PyStr.eqb k' k) (PyDict.keys d) = true)
    as Habs by (apply existsb_exists; exists k; split;
                [exact Hx|apply eqb_refl]).
  congruence.
Qed.

Lemma get_set_keeps (d : PyDict.pydict) (k v k' : pystr) :
  PyDict.get d k' <> None -> PyDict.get (PyDict.set d k v) k' <> None.
Proof.
  intros H. destruct (PyStr.eqb k k') eqn:Hk.
  - apply eqb_eq in Hk. subst k'. rewrite get_set_same. discriminate.
  - now rewrite get_set_other.
Qed.

Lemma legacy_h2_loop_invariant (E : PyEnv) (h2s : list element) :
  forall sections final,
  legacy_h2_loop E h2s sections = Return final ->
  NoDup (PyDict.keys sections) ->
  NoDup (PyDict.keys final) /\
  (forall k, PyDict.get sections k <> None -> PyDict.get final k <> None) /\
  (forall h2, In h2 h2s ->
     exists name,
       clean_html_text E (decode E (el_node h2)) = Return name /\
       PyDict.get final (lower E name) <> None).
Proof.
  induction h2s as [|h2 h2s IH]; intros sections final;
    cbn [legacy_h2_loop].
  - intros [= <-] Hnd. repeat split; auto. intros ? [].
  - unfold legacy_h2_step.
    destruct (clean_html_text E (decode E (el_node h2))) as [name|e]
      eqn:Hname; cbn [bind]; [|discriminate].
    set (next := PyDict.set (PyDict.set sections (lower E name) []) _ _).
    intros Hloop Hnd.
    destruct (IH next final Hloop) as (H1 & H2 & H3);
      [subst next; now apply NoDup_keys_set, NoDup_keys_set|].
    split; [exact H1|]. split.
    + intros k Hk. apply H2. subst next.
      now apply get_set_keeps, get_set_keeps.
    + intros h [<-|Hh]; [|now apply H3].
      exists name. split; [exact Hname|].
      apply H2. subst next. rewrite get_set_same. discriminate.
Qed.

(** X22. The section map of the legacy pass holds each key at most once
    and always has a description; the lower-cased normalized text of
    every [h2] heading is one of its keys. *)
Theorem legacy_section_map_invariant (E : PyEnv) (html_content : pystr)
    (contents : list node) (sections : PyDict.pydict) :
  html_parse E html_content = inl contents ->
  extract_sections_from_html E html_content = Return sections ->
  NoDup (PyDict.keys sections) /\
  PyDict.get sections (lit "description") <> None /\
  (forall h2,
     In h2 (find_all [lit "h2"] (BeautifulSoup contents)) ->
     exists name,
       clean_html_text E (decode E (el_node h2)) = Return name /\
       PyDict.get sections (lower E name) <> None).
Proof.
  intros Hparse. unfold extract_sections_from_html, parse_markup.
  rewrite Hparse. cbn [bind].
  set (soup := BeautifulSoup contents).
  assert (Hfin : forall start text,
             NoDup (PyDict.keys start) ->
             legacy_h2_loop E (find_all [lit "h2"] soup)
               (PyDict.set start (lit "description") text)
             = Return sections ->
             NoDup (PyDict.keys sections) /\
             PyDict.get sections (lit "description") <> None /\
             (forall h2,
                In h2 (find_all [lit "h2"] soup) ->
                exists name,
                  clean_html_text E (decode E (el_node h2)) = Return name /\
                  PyDict.get sections (lower E name) <> None)).
  { intros start text Hnd Hloop.
    destruct (legacy_h2_loop_invariant E _ _ Hloop) as (H1 & H2 & H3);
      [now apply NoDup_keys_set|].
    split; [exact H1|]. split; [|exact H3].
    apply H2. rewrite get_set_same. discriminate. }
  destruct (find [lit "h1"] soup) as [t|].
  - destruct (clean_html_text E (decode E (el_node t))) as [title|e];
      cbn [bind]; [|discriminate].
    apply Hfin. apply NoDup_keys_set. constructor.
  - cbn [bind]. apply Hfin. constructor.
Qed.

Lemma legacy_section_map_witness :
  exists sections,
    extract_sections_from_html Sample.env Sample.doc_samples
      = Return sections /\
    NoDup (PyDict.keys sections) /\
    PyDict.get sections (lit "description") <> None.
Proof.
  eexists. split; [vm_compute; reflexivity|].
  pose proof (@legacy_section_map_invariant Sample.env Sample.doc_samples
                (Sample.build (Sample.lex Sample.doc_samples []
                                 Sample.InText 0) [] [])
                _ eq_refl eq_refl) as (H1 & H2 & _).
  exact (conj H1 H2).
Defined.
